(** * pghoard.object_storage: the transfer agent

    A shallow embedding of [pghoard/object_storage/__init__.py]: the storage
    factory [get_object_storage_transfer] and the [TransferAgent] thread with
    its key naming, backend cache, upload and download handlers, statistics
    and run loop.

    Python dicts are finite maps from strings to values, the request dicts
    live in a heap of mutable objects addressed by references (a request that
    is put back on a queue is the same object), and the methods are written in
    a small state-and-exception monad over the agent and its surroundings. *)

From Stdlib Require Import ZArith QArith Ascii String List.
From stdpp Require Import base gmap strings list fin_maps.

Local Open Scope Z_scope.

(** ** Python strings: the [str] methods and slices the module relies on *)

Module PyStr.

Definition slash : ascii := "/"%char.
Definition dot : ascii := "."%char.

(** [s.rfind(c)]: highest index of [c] in [s], [-1] when absent. *)
Fixpoint rfind (c : ascii) (s : string) : Z :=
  match s with
  | EmptyString => -1
  | String a s' =>
      let r := rfind c s' in
      if 0 <=? r then r + 1 else if Ascii.eqb a c then 0 else -1
  end.

(** [s[:n]] and [s[n:]] for a non-negative index. *)
Fixpoint take (n : nat) (s : string) : string :=
  match n, s with
  | S n', String a s' => String a (take n' s')
  | _, _ => EmptyString
  end.

Fixpoint drop (n : nat) (s : string) : string :=
  match n, s with
  | S n', String _ s' => drop n' s'
  | _, _ => s
  end.

(** [s == c * len(s)] *)
Fixpoint all_char (c : ascii) (s : string) : bool :=
  match s with
  | EmptyString => true
  | String a s' => Ascii.eqb a c && all_char c s'
  end.

(** [s.rstrip(c)] for a one-character argument. *)
Fixpoint rstrip (c : ascii) (s : string) : string :=
  match s with
  | EmptyString => EmptyString
  | String a s' =>
      match rstrip c s' with
      | EmptyString => if Ascii.eqb a c then EmptyString else String a EmptyString
      | r => String a r
      end
  end.

(** [c in s] for a one-character [c]. *)
Fixpoint has_char (c : ascii) (s : string) : bool :=
  match s with
  | EmptyString => false
  | String a s' => Ascii.eqb a c || has_char c s'
  end.

Definition is_empty (s : string) : bool :=
  match s with EmptyString => true | _ => false end.

(** [s.lower()] on ASCII letters; other bytes are left alone. *)
Definition lower_char (a : ascii) : ascii :=
  let n := nat_of_ascii a in
  if (65 <=? n)%nat && (n <=? 90)%nat then ascii_of_nat (n + 32) else a.

Fixpoint lower (s : string) : string :=
  match s with
  | EmptyString => EmptyString
  | String a s' => String (lower_char a) (lower s')
  end.

(** ["/".join([a, b, c])] *)
Definition join3 (a b c : string) : string := a +:+ "/" +:+ b +:+ "/" +:+ c.

End PyStr.

(** ** [os.path] on POSIX (posixpath.py and genericpath.py) *)

Module OsPath.
Import PyStr.

(** [i = p.rfind('/') + 1; return p[i:]] *)
Definition basename (p : string) : string :=
  let i := rfind slash p + 1 in
  drop (Z.to_nat i) p.

(** [head = p[:i]; if head and head != '/'*len(head): head = head.rstrip('/')] *)
Definition dirname (p : string) : string :=
  let i := rfind slash p + 1 in
  let head := take (Z.to_nat i) p in
  if negb (is_empty head) && negb (all_char slash head)
  then rstrip slash head else head.

(** The [while filenameIndex < dotIndex] loop of [genericpath._splitext];
    [n] is [dotIndex - filenameIndex], the number of iterations left.
    [Some] is the [return] inside the loop, [None] is falling out of it. *)
Fixpoint splitext_loop (p : string) (dotIndex filenameIndex n : nat)
  : option (string * string) :=
  match n with
  | O => None
  | S n' =>
      if negb (String.eqb (take 1 (drop filenameIndex p)) ".")
      then Some (take dotIndex p, drop dotIndex p)
      else splitext_loop p dotIndex (S filenameIndex) n'
  end.

Definition splitext (p : string) : string * string :=
  let sepIndex := rfind slash p in
  let dotIndex := rfind dot p in
  if sepIndex <? dotIndex then
    let filenameIndex := Z.to_nat (sepIndex + 1) in
    match splitext_loop p (Z.to_nat dotIndex) filenameIndex
            (Z.to_nat dotIndex - filenameIndex) with
    | Some r => r
    | None => (p, EmptyString)
    end
  else (p, EmptyString).

End OsPath.

(** ** Python values, exceptions and dicts *)

Inductive value :=
| VNone
| VBool (b : bool)
| VInt (z : Z)
| VStr (s : string)
| VBytes (b : list Byte.byte)
| VDict (m : gmap string string)
| VQueue (q : nat).

(** A dict with string keys.  Request dicts, result dicts, the messages on
    the compression queue and the provider configurations are all of this
    shape. *)
Abbreviation dict := (gmap string value).

(** The exceptions that occur ([Exception] subclasses only). *)
Inductive exn :=
| KeyError (k : string)
| TypeError
| AttributeError
| InvalidConfigurationError (key : string)
| FileNotFoundFromStorageError
| StorageError (code : nat)
| OSError (code : nat).

Inductive outcome (A : Type) :=
| Ok (a : A)
| Raise (e : exn).
Arguments Ok {A} a.
Arguments Raise {A} e.

(** [d[k]] *)
Definition subscript (d : dict) (k : string) : outcome value :=
  match d !! k with
  | Some v => Ok v
  | None => Raise (KeyError k)
  end.

(** [d.get(k, dflt)] *)
Definition dict_get (d : dict) (k : string) (dflt : value) : value :=
  default dflt (d !! k).

(** [v == "literal"] for a string literal on the right. *)
Definition eq_str (v : value) (s : string) : bool :=
  match v with
  | VStr s' => String.eqb s' s
  | _ => false
  end.

(** Truth value of an object. *)
Definition truthy (v : value) : bool :=
  match v with
  | VNone => false
  | VBool b => b
  | VInt z => negb (z =? 0)
  | VStr s => negb (PyStr.is_empty s)
  | VBytes b => match b with [] => false | _ => true end
  | VDict m => negb (bool_decide (m = ∅))
  | VQueue _ => true
  end.

(** ** Storage backends *)

(** Modelled from the spec: the provider classes [AzureTransfer],
    [GoogleTransfer] and [S3Transfer] (pghoard/object_storage/azure.py,
    google.py and s3.py) are not among the sources.  The spec treats a backend
    as an opaque capability object, so a backend handle is represented by the
    constructor call that made it, with its arguments in the order of the
    call; what a backend does when it stores or fetches is left to
    [Collaborators] below. *)
Inductive transfer :=
| AzureTransfer (account_name account_key container_name : value)
| GoogleTransfer (project_id bucket_name credential_file : value)
| S3Transfer (aws_access_key_id aws_secret_access_key region bucket_name
              host port is_secure : value).

Definition obind {A B} (o : outcome A) (k : A -> outcome B) : outcome B :=
  match o with
  | Ok a => k a
  | Raise e => Raise e
  end.

Definition get_object_storage_transfer (key : string) (value : dict) : outcome transfer :=
  if String.eqb key "azure" then
    obind (subscript value "account_name") (fun account_name =>
    obind (subscript value "account_key") (fun account_key =>
    Ok (AzureTransfer account_name account_key
          (dict_get value "container_name" (VStr "pghoard")))))
  else if String.eqb key "google" then
    obind (subscript value "project_id") (fun project_id =>
    Ok (GoogleTransfer project_id
          (dict_get value "bucket_name" (VStr "pghoard"))
          (dict_get value "credential_file" VNone)))
  else if String.eqb key "s3" then
    obind (subscript value "aws_access_key_id") (fun aws_access_key_id =>
    obind (subscript value "aws_secret_access_key") (fun aws_secret_access_key =>
    let region := dict_get value "region" (VStr "") in
    obind (subscript value "bucket_name") (fun bucket_name =>
    Ok (S3Transfer aws_access_key_id aws_secret_access_key region bucket_name
          (dict_get value "host" VNone) (dict_get value "port" VNone)
          (dict_get value "is_secure" (VBool false))))))
  else
    Raise (InvalidConfigurationError key).

(** The provider kinds the factory knows, and the keys each of them reads
    by subscript (the others are read with [get] and a default). *)
Definition provider_kinds : list string := ["azure"; "google"; "s3"].

Definition required_keys (kind : string) : list string :=
  if String.eqb kind "azure" then ["account_name"; "account_key"]
  else if String.eqb kind "google" then ["project_id"]
  else if String.eqb kind "s3" then
    ["aws_access_key_id"; "aws_secret_access_key"; "bucket_name"]
  else [].

Definition raises_configuration_error {A} (o : outcome A) : Prop :=
  exists key, o = Raise (InvalidConfigurationError key).

(** A configuration entry from which the factory makes a backend. *)
Definition constructs (kv : string * dict) : Prop :=
  exists s, get_object_storage_transfer kv.1 kv.2 = Ok s.

(** ** Key naming *)

Definition as_str (v : value) : outcome string :=
  match v with
  | VStr s => Ok s
  | _ => Raise TypeError
  end.

(** An [os.path] function applied to an object.  On a [str] it is the
    function on strings; on [bytes] it is the same function with [b"/"] and
    [b"."], and gives [bytes] back; every other value of [value] raises
    [TypeError].  ([os.fspath] would also take a path-like object, such as a
    [pathlib] path; [value] has none, so nothing below says that only a
    [str] or [bytes] path gets through.) *)
Definition os_path_call (f : string -> string) (v : value) : outcome value :=
  match v with
  | VStr p => Ok (VStr (f p))
  | VBytes b => Ok (VBytes (list_byte_of_string (f (string_of_list_byte b))))
  | _ => Raise TypeError
  end.

(** [TransferAgent.form_key_path].  It reads the request and nothing else.
    [str.join] raises [TypeError] on an item that is not a [str]. *)
Definition form_key_path (file_to_transfer : dict) : outcome string :=
  obind (subscript file_to_transfer "filetype") (fun filetype =>
  obind (if eq_str filetype "basebackup" then
           obind (subscript file_to_transfer "local_path") (fun local_path =>
           obind (os_path_call OsPath.dirname local_path) (fun d =>
           os_path_call OsPath.basename d))
         else
           obind (subscript file_to_transfer "local_path") (fun local_path =>
           obind (os_path_call OsPath.basename local_path) (fun b =>
           os_path_call (fun p => fst (OsPath.splitext p)) b)))
        (fun name =>
  obind (subscript file_to_transfer "site") (fun site =>
  obind (subscript file_to_transfer "filetype") (fun filetype' =>
  obind (as_str site) (fun site_s =>
  obind (as_str filetype') (fun filetype_s =>
  obind (as_str name) (fun name_s =>
  Ok (PyStr.join3 site_s filetype_s name_s)))))))).

(** ** Statistics, configuration and the agent's world *)

(** One statistics leaf: the dict
    [{"data": 0, "count": 0, "time_taken": 0.0, "failures": 0}], whose four
    keys are only ever written as literals.  Times are rationals. *)
Record leaf := Leaf {
  data : Z;
  count : Z;
  time_taken : Q;
  failures : Z;
}.

Definition EMPTY : leaf :=
  {| data := 0; count := 0; time_taken := 0%Q; failures := 0 |}.

(** [self.state]: site, then operation, then filetype. *)
Abbreviation stats := (gmap string (gmap string (gmap string leaf))).

(** [self.config]: [config["backup_sites"][site].get("object_storage", {})].
    A missing key is [None]; the provider mapping keeps the order in which
    [items()] yields its entries. *)
Record site_config := SiteConfig {
  object_storage : option (list (string * dict));
}.

Record configuration := Configuration {
  backup_sites : option (gmap string site_config);
}.

Inductive level := DEBUG | INFO | WARNING | ERROR.

Section Agent.

(** Everything outside the agent that a transfer touches: the remote object
    stores and the local file system, as a state [Ext] with the calls made
    on it, and the wall clock. *)
Context {Ext : Type}.

Class Collaborators := {
  get_contents_to_string :
    transfer -> string -> Ext -> outcome (list Byte.byte * gmap string string) * Ext;
  store_file_from_memory :
    transfer -> string -> value -> value -> Ext -> outcome unit * Ext;
  store_file_from_disk :
    transfer -> string -> value -> value -> Ext -> outcome unit * Ext;
  shutil_rmtree : value -> Ext -> outcome unit * Ext;
  os_unlink : value -> Ext -> outcome unit * Ext;
  os_path_exists : value -> Ext -> bool;
  (** the successive readings of [time.time()] *)
  time_time : nat -> Q;
}.

Context {collaborators : Collaborators}.

(** The fields of a [TransferAgent] ([config] to [site_transfers]), the
    heap of request dicts the queues refer to, the callback queues that
    requests carry, and the surroundings. *)
Record world := World {
  config : configuration;
  compression_queue : list dict;
  transfer_queue : list nat;
  running : bool;
  state : stats;
  site_transfers : gmap string transfer;
  heap : gmap nat dict;
  callback_queues : gmap nat (list dict);
  ext : Ext;
  ticks : nat;
  slept : list Q;
  log : list (level * string);
}.

Definition set_config (c : configuration) (w : world) : world :=
  World c (compression_queue w) (transfer_queue w) (running w)
    (state w) (site_transfers w) (heap w) (callback_queues w) (ext w)
    (ticks w) (slept w) (log w).

Definition set_compression_queue (f : list dict -> list dict) (w : world) : world :=
  World (config w) (f (compression_queue w)) (transfer_queue w) (running w)
    (state w) (site_transfers w) (heap w) (callback_queues w) (ext w)
    (ticks w) (slept w) (log w).

Definition set_transfer_queue (f : list nat -> list nat) (w : world) : world :=
  World (config w) (compression_queue w) (f (transfer_queue w)) (running w)
    (state w) (site_transfers w) (heap w) (callback_queues w) (ext w)
    (ticks w) (slept w) (log w).

Definition set_state (f : stats -> stats) (w : world) : world :=
  World (config w) (compression_queue w) (transfer_queue w) (running w)
    (f (state w)) (site_transfers w) (heap w) (callback_queues w) (ext w)
    (ticks w) (slept w) (log w).

Definition set_site_transfers (f : gmap string transfer -> gmap string transfer)
    (w : world) : world :=
  World (config w) (compression_queue w) (transfer_queue w) (running w)
    (state w) (f (site_transfers w)) (heap w) (callback_queues w) (ext w)
    (ticks w) (slept w) (log w).

Definition set_heap (f : gmap nat dict -> gmap nat dict) (w : world) : world :=
  World (config w) (compression_queue w) (transfer_queue w) (running w)
    (state w) (site_transfers w) (f (heap w)) (callback_queues w) (ext w)
    (ticks w) (slept w) (log w).

Definition set_callback_queues
    (f : gmap nat (list dict) -> gmap nat (list dict)) (w : world) : world :=
  World (config w) (compression_queue w) (transfer_queue w) (running w)
    (state w) (site_transfers w) (heap w) (f (callback_queues w)) (ext w)
    (ticks w) (slept w) (log w).

Definition set_ext (x : Ext) (w : world) : world :=
  World (config w) (compression_queue w) (transfer_queue w) (running w)
    (state w) (site_transfers w) (heap w) (callback_queues w) x
    (ticks w) (slept w) (log w).

Definition set_ticks (n : nat) (w : world) : world :=
  World (config w) (compression_queue w) (transfer_queue w) (running w)
    (state w) (site_transfers w) (heap w) (callback_queues w) (ext w)
    n (slept w) (log w).

Definition set_slept (f : list Q -> list Q) (w : world) : world :=
  World (config w) (compression_queue w) (transfer_queue w) (running w)
    (state w) (site_transfers w) (heap w) (callback_queues w) (ext w)
    (ticks w) (f (slept w)) (log w).

Definition set_log (f : list (level * string) -> list (level * string))
    (w : world) : world :=
  World (config w) (compression_queue w) (transfer_queue w) (running w)
    (state w) (site_transfers w) (heap w) (callback_queues w) (ext w)
    (ticks w) (slept w) (f (log w)).

(** *** The monad: a world in, a value or an exception and a world out.
    What was written before an exception stays written. *)
Definition M (A : Type) : Type := world -> outcome A * world.

Definition ret {A} (a : A) : M A := fun w => (Ok a, w).

Definition bind {A B} (m : M A) (k : A -> M B) : M B :=
  fun w =>
    match m w with
    | (Ok a, w') => k a w'
    | (Raise e, w') => (Raise e, w')
    end.

Definition raise {A} (e : exn) : M A := fun w => (Raise e, w).

Definition lift {A} (o : outcome A) : M A := fun w => (o, w).

(** [try: m  except Exception as ex: h ex] *)
Definition try_except {A} (m : M A) (h : exn -> M A) : M A :=
  fun w =>
    match m w with
    | (Ok a, w') => (Ok a, w')
    | (Raise e, w') => h e w'
    end.

Definition modify (f : world -> world) : M unit := fun w => (Ok tt, f w).

(** A call into the surroundings. *)
Definition call {A} (f : Ext -> outcome A * Ext) : M A :=
  fun w => let '(o, x) := f (ext w) in (o, set_ext x w).

End Agent.

Arguments Collaborators Ext : clear implicits.
Arguments world Ext : clear implicits.
Arguments M Ext A : clear implicits.

Declare Scope agent_scope.
Delimit Scope agent_scope with agent.
Notation "x <- m ;; k" := (bind m (fun x => k))
  (at level 100, m at next level, right associativity) : agent_scope.
Notation "m ;;; k" := (bind m (fun _ => k))
  (at level 100, right associativity) : agent_scope.

(** ** The methods of [TransferAgent] *)

Inductive flow := Continue | Break.

Inductive handler := HandleDownload | HandleUpload.

Section Methods.
Context {Ext : Type} {collaborators : Collaborators Ext}.
Local Open Scope agent_scope.

Abbreviation M' := (M Ext).

(** A logging call: the record is kept by level and format string; the
    arguments are evaluated by the caller, before the call. *)
Definition logging (lv : level) (msg : string) : M' unit :=
  modify (set_log (fun l => l ++ [(lv, msg)])).

(** The dict a reference points to, [d[k]], [d[k] = v] and [k in d] through
    a reference.  A reference on a queue always points to a dict; one that
    does not reads as the empty dict. *)
Definition deref (l : nat) : M' dict :=
  fun w => (Ok (heap w !!! l), w).

Definition getitem (l : nat) (k : string) : M' value :=
  d <- deref l ;; lift (subscript d k).

Definition setitem (l : nat) (k : string) (v : value) : M' unit :=
  modify (set_heap (fun h => <[l := <[k := v]> (h !!! l)]> h)).

Definition contains (l : nat) (k : string) : M' bool :=
  d <- deref l ;; ret (bool_decide (is_Some (d !! k))).

(** [time.time()] and [time.sleep(d)] *)
Definition time : M' Q :=
  fun w => (Ok (time_time (ticks w)), set_ticks (S (ticks w)) w).

Definition sleep (d : Q) : M' unit :=
  modify (set_slept (fun s => s ++ [d])).

(** [queue.put(item)] on the two queues of the agent, and on an object
    found in a request, which has a [put] only when it is a queue. *)
Definition transfer_queue_put (l : nat) : M' unit :=
  modify (set_transfer_queue (fun q => q ++ [l])).

Definition compression_queue_put (msg : dict) : M' unit :=
  modify (set_compression_queue (fun q => q ++ [msg])).

Definition put (queue : value) (item : dict) : M' unit :=
  match queue with
  | VQueue q =>
      modify (set_callback_queues
                (fun qs => <[q := default [] (qs !! q) ++ [item]]> qs))
  | _ => raise AttributeError
  end.

(** [self.transfer_queue.get(timeout=1.0)]: [None] stands for [Empty]. *)
Definition transfer_queue_get : M' (option nat) :=
  fun w =>
    match transfer_queue w with
    | [] => (Ok None, w)
    | l :: rest => (Ok (Some l), set_transfer_queue (fun _ => rest) w)
    end.

Definition filetype_defaults : gmap string leaf :=
  <["basebackup" := EMPTY]> (<["xlog" := EMPTY]> (<["timeline" := EMPTY]> ∅)).

Definition site_defaults : gmap string (gmap string leaf) :=
  <["upload" := filetype_defaults]> (<["download" := filetype_defaults]> ∅).

(** The statistics once [site] has its entry. *)
Definition with_defaults (st : stats) (site : string) : stats :=
  match st !! site with
  | Some _ => st
  | None => <[site := site_defaults]> st
  end.

Definition set_state_defaults_for_site (site : string) : M' unit :=
  modify (set_state (fun st => with_defaults st site)).

(** The [for key, value in cfg.items()] loop of [get_object_storage];
    [storage] is the local variable of that name. *)
Fixpoint get_object_storage_items (site_name : string)
    (items : list (string * dict)) (storage : option transfer)
  : M' (option transfer) :=
  match items with
  | [] => ret storage
  | (key, value) :: rest =>
      s <- lift (get_object_storage_transfer key value) ;;
      modify (set_site_transfers (fun t => <[site_name := s]> t)) ;;;
      get_object_storage_items site_name rest (Some s)
  end.

(** A backend object is true, so [not storage] holds exactly when the cache
    has no entry. *)
Definition get_object_storage (site_name : string) : M' (option transfer) :=
  fun w =>
    match site_transfers w !! site_name with
    | Some s => (Ok (Some s), w)
    | None =>
        match backup_sites (config w) with
        | None => (Raise (KeyError "backup_sites"), w)
        | Some sites =>
            match sites !! site_name with
            | None => (Raise (KeyError site_name), w)
            | Some sc =>
                let cfg := default [] (object_storage sc) in
                get_object_storage_items site_name cfg None w
            end
        end
    end.

(** A method call on [storage]: on [None] the attribute lookup fails. *)
Definition method {A} (storage : option transfer) (f : transfer -> M' A) : M' A :=
  match storage with
  | Some s => f s
  | None => raise AttributeError
  end.

(** The [try] block of [handle_download]. *)
Definition download_try (site key : string) (l : nat) : M' dict :=
  storage <- get_object_storage site ;;
  cm <- method storage (fun s => call (get_contents_to_string s key)) ;;
  let '(content, metadata) := cm in
  setitem l "file_size" (VInt (Z.of_nat (length content))) ;;;
  callback_queue <- getitem l "callback_queue" ;;
  target_path <- getitem l "target_path" ;;
  compression_queue_put
    (<["blob" := VBytes content]>
    (<["callback_queue" := callback_queue]>
    (<["local_path" := target_path]>
    (<["metadata" := VDict metadata]>
    (<["site" := VStr site]>
    (<["type" := VStr "DECOMPRESSION"]> ∅)))))) ;;;
  ret (<["success" := VBool true]> (<["call_callback" := VBool false]> ∅)).

Definition handle_download (site key : string) (l : nat) : M' dict :=
  try_except (download_try site key l)
    (fun ex =>
       match ex with
       | FileNotFoundFromStorageError =>
           logging WARNING "%r not found from storage"
       | _ =>
           logging ERROR "Problem happened when downloading: %r, %r"
       end ;;;
       ret (<["success" := VBool false]> ∅)).

(** [a + ".metadata"] *)
Definition add_str (a : value) (s : string) : outcome value :=
  match a with
  | VStr p => Ok (VStr (p +:+ s))
  | _ => Raise TypeError
  end.

(** The inner [try] block of [handle_upload]: removing what was uploaded. *)
Definition cleanup_try (l : nat) : M' unit :=
  filetype <- getitem l "filetype" ;;
  if eq_str filetype "basebackup" then
    p <- getitem l "local_path" ;;
    lift (os_path_call OsPath.dirname p) ;;;
    logging DEBUG "Deleting directory path: %r" ;;;
    p' <- getitem l "local_path" ;;
    d <- lift (os_path_call OsPath.dirname p') ;;
    call (shutil_rmtree d)
  else
    getitem l "local_path" ;;;
    logging DEBUG "Deleting file: %r since it has been uploaded" ;;;
    p <- getitem l "local_path" ;;
    call (os_unlink p) ;;;
    p' <- getitem l "local_path" ;;
    metadata_path <- lift (add_str p' ".metadata") ;;
    x <- (fun w => (Ok (os_path_exists metadata_path (ext w)), w)) ;;
    if (x : bool) then call (os_unlink metadata_path) else ret tt.

(** The [try] block of [handle_upload]. *)
Definition upload_try (site key : string) (l : nat) : M' dict :=
  storage <- get_object_storage site ;;
  has_blob <- contains l "blob" ;;
  (if (has_blob : bool) then
     method storage (fun s =>
       blob <- getitem l "blob" ;;
       metadata <- getitem l "metadata" ;;
       call (store_file_from_memory s key blob metadata))
   else
     method storage (fun s =>
       local_path <- getitem l "local_path" ;;
       metadata <- getitem l "metadata" ;;
       call (store_file_from_disk s key local_path metadata)) ;;;
     try_except (cleanup_try l)
       (fun _ =>
          getitem l "local_path" ;;;
          logging ERROR "Problem in deleting file: %r")) ;;;
  ret (<["success" := VBool true]> ∅).

Definition handle_upload (site key : string) (l : nat) : M' dict :=
  try_except (upload_try site key l)
    (fun _ =>
       getitem l "local_path" ;;;
       logging ERROR "Problem in moving file: %r, need to retry" ;;;
       sleep (1 # 2) ;;;
       transfer_queue_put l ;;;
       ret (<["success" := VBool false]> (<["call_callback" := VBool false]> ∅))).

(** [self.state[site][oper][filetype]]: three lookups, each a [KeyError]
    when the key is missing. *)
Definition state_leaf (site oper filetype : string) : M' leaf :=
  fun w =>
    match state w !! site with
    | None => (Raise (KeyError site), w)
    | Some by_oper =>
        match by_oper !! oper with
        | None => (Raise (KeyError oper), w)
        | Some by_type =>
            match by_type !! filetype with
            | None => (Raise (KeyError filetype), w)
            | Some lf => (Ok lf, w)
            end
        end
    end.

(** Writing a field of the leaf dict in place: the statistics with the leaf
    at [site], [oper], [filetype] replaced. *)
Definition put_leaf (st : stats) (site oper filetype : string) (lf : leaf) : stats :=
  <[site := <[oper := <[filetype := lf]> ((st !!! site) !!! oper)]> (st !!! site)]> st.

Definition state_leaf_set (site oper filetype : string) (lf : leaf) : M' unit :=
  modify (set_state (fun st => put_leaf st site oper filetype lf)).

(** [n + v] for an [int] on the left: [bool] is an [int], the rest is a
    [TypeError]. *)
Definition add_int (n : Z) (v : value) : outcome Z :=
  match v with
  | VInt z => Ok (n + z)
  | VBool b => Ok (n + Z.b2z b)
  | _ => Raise TypeError
  end.

(** Lines 95 to 103 of [run]: the statistics counters.  Returns
    [oper_size]. *)
Definition update_statistics (site oper filetype : string) (result : dict)
    (l : nat) (start_time : Q) : M' value :=
  set_state_defaults_for_site site ;;;
  d <- deref l ;;
  let oper_size := dict_get d "file_size" (VInt 0) in
  success <- lift (subscript result "success") ;;
  (if truthy success then
     lf <- state_leaf site oper filetype ;;
     state_leaf_set site oper filetype
       (Leaf (data lf) (count lf + 1) (time_taken lf) (failures lf)) ;;;
     lf <- state_leaf site oper filetype ;;
     n <- lift (add_int (data lf) oper_size) ;;
     state_leaf_set site oper filetype
       (Leaf n (count lf) (time_taken lf) (failures lf)) ;;;
     lf <- state_leaf site oper filetype ;;
     now <- time ;;
     state_leaf_set site oper filetype
       (Leaf (data lf) (count lf) (time_taken lf + (now - start_time))%Q (failures lf))
   else
     lf <- state_leaf site oper filetype ;;
     state_leaf_set site oper filetype
       (Leaf (data lf) (count lf) (time_taken lf) (failures lf + 1))) ;;;
  ret oper_size.

(** Lines 105 to 107 of [run]: the result goes to the callback queue. *)
Definition push_result (result : dict) (l : nat) : M' unit :=
  has_queue <- contains l "callback_queue" ;;
  if truthy (dict_get result "call_callback" (VBool true)) && has_queue then
    callback_queue <- getitem l "callback_queue" ;;
    put callback_queue result
  else ret tt.

(** [file_to_transfer["type"].lower()]: [str] and [bytes] have the method. *)
Definition lower (v : value) : outcome value :=
  match v with
  | VStr s => Ok (VStr (PyStr.lower s))
  | VBytes b => Ok (VBytes (list_byte_of_string (PyStr.lower (string_of_list_byte b))))
  | _ => Raise AttributeError
  end.

(** ["handle_" + oper] *)
Definition str_add (s : string) (v : value) : outcome string :=
  match v with
  | VStr o => Ok (s +:+ o)
  | _ => Raise TypeError
  end.

(** [getattr(self, name, None)] for a name that starts with [handle_]: the
    class and [Thread] have the two handlers and nothing else. *)
Definition getattr (name : string) : option handler :=
  if String.eqb name "handle_download" then Some HandleDownload
  else if String.eqb name "handle_upload" then Some HandleUpload
  else None.

Definition oper_func (h : handler) : string -> string -> nat -> M' dict :=
  match h with
  | HandleDownload => handle_download
  | HandleUpload => handle_upload
  end.

(** One turn of the [while] loop of [run], from [transfer_queue.get] on.
    By the time [site], [filetype] and [oper] are used as strings
    [form_key_path] and [str_add] have checked that they are. *)
Definition run_iteration : M' flow :=
  got <- transfer_queue_get ;;
  match got with
  | None => ret Continue
  | Some l =>
      type <- getitem l "type" ;;
      if eq_str type "QUIT" then ret Break else
      getitem l "type" ;;;
      getitem l "local_path" ;;;
      logging DEBUG "Starting to %r %r, size: %r" ;;;
      start_time <- time ;;
      file_to_transfer <- deref l ;;
      key <- lift (form_key_path file_to_transfer) ;;
      type' <- getitem l "type" ;;
      oper <- lift (lower type') ;;
      name <- lift (str_add "handle_" oper) ;;
      match getattr name with
      | None =>
          getitem l "type" ;;;
          logging WARNING "Invalid operation %r" ;;;
          ret Continue
      | Some h =>
          site <- getitem l "site" ;;
          filetype <- getitem l "filetype" ;;
          site_s <- lift (as_str site) ;;
          filetype_s <- lift (as_str filetype) ;;
          oper_s <- lift (as_str oper) ;;
          result <- oper_func h site_s key l ;;
          oper_size <- update_statistics site_s oper_s filetype_s result l start_time ;;
          push_result result l ;;;
          getitem l "type" ;;;
          lift (subscript result "success") ;;;
          time ;;;
          logging INFO "%r %stransfer of key: %r, size: %r, took %.3fs" ;;;
          ret Continue
      end
  end.

(** [run]: the loop, for at most [fuel] turns.  [Some tt] is a return from
    [run], [None] a loop that is still going when the fuel is used up. *)
Fixpoint run (fuel : nat) : M' (option unit) :=
  fun w =>
    if running w then
      match fuel with
      | O => (Ok None, w)
      | S fuel' =>
          match run_iteration w with
          | (Ok Continue, w') => run fuel' w'
          | (Ok Break, w') =>
              (logging INFO "Quitting TransferAgent" ;;; ret (Some tt)) w'
          | (Raise e, w') => (Raise e, w')
          end
      end
    else (logging INFO "Quitting TransferAgent" ;;; ret (Some tt)) w.

(** [TransferAgent.__init__] *)
Definition init (config : configuration) (compression_queue : list dict)
    (transfer_queue : list nat) (heap : gmap nat dict)
    (callback_queues : gmap nat (list dict)) (x : Ext) : world Ext :=
  World config compression_queue transfer_queue true ∅ ∅ heap callback_queues
    x 0 [] [(DEBUG, "TransferAgent initialized")].

End Methods.

(** ** The dicts the handlers produce *)

(** [{"success": False}], [{"success": True}] and the two results with
    [call_callback] set to false. *)
Definition failed : dict := <["success" := VBool false]> ∅.

Definition succeeded : dict := <["success" := VBool true]> ∅.

Definition forwarded : dict :=
  <["success" := VBool true]> (<["call_callback" := VBool false]> ∅).

Definition requeued : dict :=
  <["success" := VBool false]> (<["call_callback" := VBool false]> ∅).

(** The message a download puts on the compression queue. *)
Definition decompression (content : list Byte.byte) (metadata : gmap string string)
    (callback_queue target_path : value) (site : string) : dict :=
  <["blob" := VBytes content]>
  (<["callback_queue" := callback_queue]>
  (<["local_path" := target_path]>
  (<["metadata" := VDict metadata]>
  (<["site" := VStr site]>
  (<["type" := VStr "DECOMPRESSION"]> ∅))))).

(** ** Well-formed requests and statistics

    What the agent expects of the dicts it is handed, and the shape its own
    statistics always have. *)

Definition operations : list string := ["upload"; "download"].
Definition filetypes : list string := ["basebackup"; "xlog"; "timeline"].

(** A leaf as a reader sees it: zero while the site has not been seen. *)
Definition stat_leaf (st : stats) (site oper filetype : string) : leaf :=
  match st !! site with
  | Some by_oper =>
      match by_oper !! oper with
      | Some by_type => default EMPTY (by_type !! filetype)
      | None => EMPTY
      end
  | None => EMPTY
  end.

(** A site entry has a leaf for every operation and filetype. *)
Definition site_ok (by_oper : gmap string (gmap string leaf)) : bool :=
  forallb (fun oper =>
    match by_oper !! oper with
    | Some by_type =>
        forallb (fun ft => bool_decide (is_Some (by_type !! ft))) filetypes
    | None => false
    end) operations.

Definition state_ok (st : stats) : Prop :=
  forall site by_oper, st !! site = Some by_oper -> site_ok by_oper = true.

(** The statistics have a leaf at [site], [oper], [filetype]. *)
Definition has_leaf (st : stats) (site oper filetype : string) : Prop :=
  exists by_oper by_type lf,
    st !! site = Some by_oper /\ by_oper !! oper = Some by_type
    /\ by_type !! filetype = Some lf.

(** [file_size], when present, is a number; [callback_queue], when present,
    is a queue. *)
Definition size_ok (v : option value) : bool :=
  match v with
  | None | Some (VInt _) | Some (VBool _) => true
  | _ => false
  end.

Definition channel_ok (v : option value) : bool :=
  match v with
  | None | Some (VQueue _) => true
  | _ => false
  end.

Definition is_str (v : option value) : bool :=
  match v with
  | Some (VStr _) => true
  | _ => false
  end.

(** A request the loop can take: a [type] that is a string and, unless it is
    QUIT, a [local_path], a [site] and a [filetype] that are strings; for an
    upload or a download moreover a filetype that has statistics, and
    [file_size] and [callback_queue] as above. *)
Definition request_ok (r : dict) : bool :=
  match r !! "type" with
  | Some (VStr t) =>
      String.eqb t "QUIT"
      || (is_str (r !! "local_path") && is_str (r !! "site") && is_str (r !! "filetype")
          && match getattr ("handle_" +:+ PyStr.lower t) with
             | None => true
             | Some _ =>
                 match r !! "filetype" with
                 | Some (VStr ft) => bool_decide (ft ∈ filetypes)
                 | _ => false
                 end
                 && size_ok (r !! "file_size") && channel_ok (r !! "callback_queue")
             end)
  | _ => false
  end.

Definition world_ok {Ext : Type} (w : world Ext) : Prop :=
  state_ok (state w)
  /\ Forall (fun l => exists r, heap w !! l = Some r /\ request_ok r = true)
       (transfer_queue w).

(** What [handle_upload] leaves alone while it tries: the request dicts, the
    statistics, the queues, the configuration, the running flag and the
    record of sleeps.  (The cache, the surroundings, the log and the clock
    may move.) *)
Definition untouched {Ext : Type} (w w' : world Ext) : Prop :=
  heap w' = heap w /\ state w' = state w
  /\ transfer_queue w' = transfer_queue w
  /\ compression_queue w' = compression_queue w
  /\ callback_queues w' = callback_queues w
  /\ config w' = config w /\ running w' = running w
  /\ slept w' = slept w.

(** A computation keeps a relation between the world it starts in and the
    world it ends in, whether it returns or raises. *)
Definition keeps {Ext : Type} {A : Type} (R : world Ext -> world Ext -> Prop)
    (m : M Ext A) : Prop :=
  forall w o w', m w = (o, w') -> R w w'.

(** A request dict as a download may leave it: as it was, or with
    [file_size] set to an [int]. *)
Definition sized (r r' : dict) : Prop :=
  r' = r \/ exists n, r' = <["file_size" := VInt n]> r.

(** The bytes a successful transfer adds are not negative when the size the
    request carries is not. *)
Definition size_nonneg (v : value) : bool :=
  match v with
  | VInt z => 0 <=? z
  | VBool _ => true
  | _ => false
  end.

(** ** More views of the agent

    Used to say what an operation reads, writes and leaves alone. *)

(** The keys a provider reads with [get] and a default. *)
Definition optional_keys (kind : string) : list string :=
  if String.eqb kind "azure" then ["container_name"]
  else if String.eqb kind "google" then ["bucket_name"; "credential_file"]
  else if String.eqb kind "s3" then ["region"; "host"; "port"; "is_secure"]
  else [].

(** Two worlds agree on what [view] shows of them. *)
Definition same {Ext X : Type} (view : world Ext -> X) (w w' : world Ext) : Prop :=
  view w' = view w.

(** The callback queues after the worker has dealt with [result] for the
    request [r]: the result is appended to the request's queue unless
    [call_callback] is false or the request has no queue. *)
Definition pushed (result r : dict) (qs : gmap nat (list dict)) : gmap nat (list dict) :=
  if truthy (dict_get result "call_callback" (VBool true)) then
    match r !! "callback_queue" with
    | Some (VQueue q) => <[q := default [] (qs !! q) ++ [result]]> qs
    | _ => qs
    end
  else qs.

(** The running flag and the configuration. *)
Definition flags {Ext : Type} (w : world Ext) : bool * configuration :=
  (running w, config w).

(** What a handler never writes: the statistics, the callback queues, the
    clock, the running flag and the configuration. *)
Definition bystanders {Ext : Type} (w : world Ext)
  : stats * gmap nat (list dict) * nat * bool * configuration :=
  (state w, callback_queues w, ticks w, running w, config w).

(** What the removal of an uploaded file does to the surroundings [x]. *)
Definition cleaned {Ext : Type} {collaborators : Collaborators Ext}
    (filetype : value) (p : string) (x : Ext) : Ext :=
  if eq_str filetype "basebackup" then
    (shutil_rmtree (VStr (OsPath.dirname p)) x).2
  else
    match os_unlink (VStr p) x with
    | (Ok _, x') =>
        if os_path_exists (VStr (p +:+ ".metadata")) x'
        then (os_unlink (VStr (p +:+ ".metadata")) x').2
        else x'
    | (Raise _, x') => x'
    end.

(** What a download never writes besides: the transfer queue and the record
    of sleeps. *)
Definition retry_record {Ext : Type} (w : world Ext) : list nat * list Q :=
  (transfer_queue w, slept w).

(** A QUIT request is next on the transfer queue. *)
Definition quit_next {Ext : Type} (w : world Ext) : Prop :=
  exists l rest r,
    transfer_queue w = l :: rest /\ heap w !! l = Some r
    /\ r !! "type" = Some (VStr "QUIT").

(** The world after [k] whole turns of the loop of [run], each of which went
    on to the next; [None] when one of them left the loop or raised. *)
Fixpoint turns {Ext : Type} {collaborators : Collaborators Ext} (k : nat)
    (w : world Ext) : option (world Ext) :=
  match k with
  | O => Some w
  | S k' =>
      match run_iteration w with
      | (Ok Continue, w') => turns k' w'
      | _ => None
      end
  end.

(** The log record [handle_download] writes for an exception: a warning for
    a missing object, an error with its traceback for anything else. *)
Definition download_log (ex : exn) : level * string :=
  match ex with
  | FileNotFoundFromStorageError => (WARNING, "%r not found from storage")
  | _ => (ERROR, "Problem happened when downloading: %r, %r")
  end.

(** ** A concrete world to run the agent in

    A remote store that refuses the first [outages] store calls and then
    keeps what it is given, a local file system that is a map from paths to
    contents, and a clock that advances by one second per reading. *)

Module Demo.

Record outside := Outside {
  objects : gmap string (list Byte.byte * gmap string string);
  outages : nat;
  files : gmap string (list Byte.byte);
}.

Definition as_metadata (v : value) : gmap string string :=
  match v with VDict m => m | _ => ∅ end.

Definition store (key : string) (content : list Byte.byte) (metadata : value)
    (x : outside) : outcome unit * outside :=
  match outages x with
  | S n => (Raise (StorageError 503), Outside (objects x) n (files x))
  | O => (Ok tt, Outside (<[key := (content, as_metadata metadata)]> (objects x)) O (files x))
  end.

Definition unlink (path : value) (x : outside) : outcome unit * outside :=
  match path with
  | VStr p =>
      match files x !! p with
      | Some _ => (Ok tt, Outside (objects x) (outages x) (delete p (files x)))
      | None => (Raise (OSError 2), x)
      end
  | _ => (Raise TypeError, x)
  end.

Definition rmtree (path : value) (x : outside) : outcome unit * outside :=
  match path with
  | VStr d =>
      (Ok tt, Outside (objects x) (outages x)
                (filter (fun kv => negb (String.prefix (d +:+ "/") (fst kv)) = true)
                   (files x)))
  | _ => (Raise TypeError, x)
  end.

#[global] Instance collaborators : Collaborators outside := {|
  get_contents_to_string _ key x :=
    match objects x !! key with
    | Some cm => (Ok cm, x)
    | None => (Raise FileNotFoundFromStorageError, x)
    end;
  store_file_from_memory _ key blob metadata x :=
    match blob with
    | VBytes b => store key b metadata x
    | _ => (Raise TypeError, x)
    end;
  store_file_from_disk _ key path metadata x :=
    match path with
    | VStr p =>
        match files x !! p with
        | Some b => store key b metadata x
        | None => (Raise (OSError 2), x)
        end
    | _ => (Raise TypeError, x)
    end;
  shutil_rmtree := rmtree;
  os_unlink := unlink;
  os_path_exists path x :=
    match path with
    | VStr p => bool_decide (is_Some (files x !! p))
    | _ => false
    end;
  time_time n := inject_Z (Z.of_nat n);
|}.

Definition s3_config : dict :=
  <["aws_access_key_id" := VStr "AKIA"]>
  (<["aws_secret_access_key" := VStr "secret"]>
  (<["bucket_name" := VStr "backups"]> ∅)).

Definition google_config : dict := <["project_id" := VStr "proj"]> ∅.

Definition config_of (providers : option (list (string * dict))) : configuration :=
  Configuration (Some (<["db1" := SiteConfig providers]> ∅)).

Definition xlog_path : string := "/data/xlog/000000010000000000000001.gz".

Definition upload_request : dict :=
  <["type" := VStr "UPLOAD"]>
  (<["site" := VStr "db1"]>
  (<["filetype" := VStr "xlog"]>
  (<["local_path" := VStr xlog_path]>
  (<["metadata" := VDict ∅]>
  (<["file_size" := VInt 3]>
  (<["callback_queue" := VQueue 0]> ∅)))))).

Definition download_request : dict :=
  <["type" := VStr "DOWNLOAD"]>
  (<["site" := VStr "db1"]>
  (<["filetype" := VStr "xlog"]>
  (<["local_path" := VStr xlog_path]>
  (<["target_path" := VStr "/restore/000000010000000000000001"]>
  (<["callback_queue" := VQueue 0]> ∅))))).

Definition xlog_key : string := "db1/xlog/000000010000000000000001".

Definition content : list Byte.byte := [Byte.x01; Byte.x02; Byte.x03].

(** An agent with one request at reference [0], which is also the only
    request on the transfer queue. *)
Definition agent (request : dict) (x : outside) : world outside :=
  init (config_of (Some [("s3", s3_config)])) [] [0%nat] (<[0%nat := request]> ∅) ∅ x.

Definition local_disk : gmap string (list Byte.byte) :=
  <[xlog_path := content]> (<[xlog_path +:+ ".metadata" := []]> ∅).

Definition up : outside := Outside ∅ 0 local_disk.
Definition down (n : nat) : outside := Outside ∅ n local_disk.
Definition stocked : outside := Outside (<[xlog_key := (content, ∅)]> ∅) 0 ∅.

End Demo.

(** * Properties *)

(** ** Strings and paths *)

Module PyStrFacts.
Import PyStr.

Lemma append_cons (a : ascii) (s t : string) :
  String a s +:+ t = String a (s +:+ t).
Proof. reflexivity. Qed.

Lemma append_nil (t : string) : "" +:+ t = t.
Proof. reflexivity. Qed.

Lemma length_append (s t : string) :
  String.length (s +:+ t) = (String.length s + String.length t)%nat.
Proof.
  induction s as [|a s IH]; [reflexivity|].
  rewrite append_cons. cbn [String.length]. now rewrite IH.
Qed.

Lemma append_assoc (s t u : string) : (s +:+ t) +:+ u = s +:+ (t +:+ u).
Proof.
  induction s as [|a s IH]; [reflexivity|].
  rewrite !append_cons. now f_equal.
Qed.

Lemma take_app (s t : string) : take (String.length s) (s +:+ t) = s.
Proof.
  induction s as [|a s IH]; [now destruct t|].
  rewrite append_cons. cbn [String.length take]. now f_equal.
Qed.

Lemma drop_app (s t : string) : drop (String.length s) (s +:+ t) = t.
Proof.
  induction s as [|a s IH]; [now destruct t|].
  rewrite append_cons. exact IH.
Qed.

Lemma rfind_lower (c : ascii) (s : string) : -1 <= rfind c s.
Proof.
  induction s as [|a s IH]; simpl; [lia|].
  destruct (0 <=? rfind c s) eqn:E; [lia|].
  destruct (Ascii.eqb a c); lia.
Qed.

Lemma rfind_absent (c : ascii) (s : string) :
  has_char c s = false -> rfind c s = -1.
Proof.
  induction s as [|a s IH]; simpl; [reflexivity|].
  intros [Ha Hs]%orb_false_iff. rewrite (IH Hs), Ha. reflexivity.
Qed.

Lemma rfind_app_r (c : ascii) (s t : string) :
  0 <= rfind c t ->
  rfind c (s +:+ t) = Z.of_nat (String.length s) + rfind c t.
Proof.
  intros Ht. induction s as [|a s IH].
  - rewrite append_nil. simpl. lia.
  - rewrite append_cons. cbn [rfind String.length]. rewrite IH.
    destruct (0 <=? _) eqn:E; [lia|]. apply Z.leb_gt in E. lia.
Qed.

Lemma rfind_last (c : ascii) (s t : string) :
  has_char c t = false ->
  rfind c (s +:+ String c t) = Z.of_nat (String.length s).
Proof.
  intros Ht.
  assert (H0 : rfind c (String c t) = 0).
  { simpl. rewrite (rfind_absent _ _ Ht). simpl. now rewrite Ascii.eqb_refl. }
  rewrite rfind_app_r; lia.
Qed.

Lemma has_char_app (c : ascii) (s t : string) :
  has_char c (s +:+ t) = has_char c s || has_char c t.
Proof.
  induction s as [|a s IH]; [reflexivity|].
  rewrite append_cons. cbn [has_char]. now rewrite IH, orb_assoc.
Qed.

End PyStrFacts.

Module OsPathFacts.
Import PyStr OsPath PyStrFacts.

Lemma split_at_slash (d f : string) :
  has_char slash f = false ->
  Z.to_nat (rfind slash (d +:+ "/" +:+ f) + 1) = String.length (d +:+ "/").
Proof.
  intros Hf. change (d +:+ "/" +:+ f) with (d +:+ String slash f).
  rewrite (rfind_last _ _ _ Hf), length_append. simpl. lia.
Qed.

Lemma regroup (d f : string) : d +:+ "/" +:+ f = (d +:+ "/") +:+ f.
Proof. now rewrite append_assoc. Qed.

(** The base name of [d/f] is [f]. *)
Lemma basename_join (d f : string) :
  has_char slash f = false -> basename (d +:+ "/" +:+ f) = f.
Proof.
  intros Hf. unfold basename. rewrite (split_at_slash _ _ Hf).
  rewrite (regroup d f). apply drop_app.
Qed.

Lemma basename_plain (f : string) :
  has_char slash f = false -> basename f = f.
Proof.
  intros Hf. unfold basename. rewrite (rfind_absent _ _ Hf). reflexivity.
Qed.

(** The directory name of [d/f] is computed from [d] alone. *)
Lemma dirname_join (d f : string) :
  has_char slash f = false ->
  dirname (d +:+ "/" +:+ f) = dirname (d +:+ "/").
Proof.
  intros Hf.
  assert (H : forall g, has_char slash g = false ->
              dirname (d +:+ "/" +:+ g)
              = if negb (is_empty (d +:+ "/")) && negb (all_char slash (d +:+ "/"))
                then rstrip slash (d +:+ "/") else d +:+ "/").
  { intros g Hg. unfold dirname. rewrite (split_at_slash _ _ Hg).
    rewrite (regroup d g), take_app. reflexivity. }
  rewrite (H f Hf). symmetry. apply (H "" eq_refl).
Qed.

Lemma splitext_loop_scan (pre stem tail : string) (dotIndex : nat) :
  splitext_loop (pre +:+ stem +:+ tail) dotIndex (String.length pre) (String.length stem)
  = if all_char dot stem then None
    else Some (take dotIndex (pre +:+ stem +:+ tail), drop dotIndex (pre +:+ stem +:+ tail)).
Proof.
  revert pre. induction stem as [|a stem IH]; intros pre; [reflexivity|].
  cbn [String.length splitext_loop all_char].
  rewrite !append_cons, drop_app. cbn [take].
  assert (Hpre : pre +:+ String a (stem +:+ tail) = (pre +:+ String a "") +:+ stem +:+ tail).
  { now rewrite append_assoc, append_cons, append_nil. }
  assert (Hlen : S (String.length pre) = String.length (pre +:+ String a "")).
  { rewrite length_append. simpl. lia. }
  destruct (Ascii.eqb a dot) eqn:Ea.
  - apply Ascii.eqb_eq in Ea. subst a.
    change (negb (String.eqb (String dot "") ".")) with false. cbv iota.
    cbn [andb]. rewrite Hpre, Hlen. apply IH.
  - replace (String.eqb (String a "") ".") with false; [reflexivity|].
    symmetry. apply String.eqb_neq. intros [= ->]. now rewrite Ascii.eqb_refl in Ea.
Qed.

(** [splitext] takes the last extension off a name that has one. *)
Lemma splitext_extension (stem e : string) :
  has_char slash stem = false -> has_char slash e = false ->
  has_char dot e = false -> all_char dot stem = false ->
  splitext (stem +:+ "." +:+ e) = (stem, "." +:+ e).
Proof.
  intros Hs He Hd Hstem. unfold splitext.
  change (stem +:+ "." +:+ e) with (stem +:+ String dot e).
  rewrite (rfind_last _ _ _ Hd).
  rewrite (rfind_absent slash).
  2:{ rewrite has_char_app, Hs. simpl. exact He. }
  replace (-1 <? Z.of_nat (String.length stem)) with true by (symmetry; apply Z.ltb_lt; lia).
  cbv zeta. rewrite Nat2Z.id. change (Z.to_nat (-1 + 1)) with 0%nat. rewrite Nat.sub_0_r.
  pose proof (splitext_loop_scan "" stem (String dot e) (String.length stem)) as H.
  rewrite append_nil in H. change (String.length "") with 0%nat in H.
  rewrite H, Hstem.
  now rewrite take_app, drop_app.
Qed.

(** A name without a dot has no extension. *)
Lemma splitext_plain (f : string) :
  has_char dot f = false -> splitext f = (f, "").
Proof.
  intros Hd. unfold splitext. rewrite (rfind_absent dot _ Hd).
  pose proof (rfind_lower slash f).
  replace (rfind slash f <? -1) with false by (symmetry; apply Z.ltb_ge; lia).
  reflexivity.
Qed.

End OsPathFacts.

(** Some paths. *)

Example basename_ex : OsPath.basename "/data/xlog/000000010000000000000001.gz" = "000000010000000000000001.gz".
Proof. reflexivity. Qed.

Example dirname_ex : OsPath.dirname "/data/basebackup/2015-07-01_0/base.tar.gz" = "/data/basebackup/2015-07-01_0".
Proof. reflexivity. Qed.

Example dirname_root_ex : OsPath.dirname "//x" = "//".
Proof. reflexivity. Qed.

Example splitext_ex : OsPath.splitext "base.tar.gz" = ("base.tar", ".gz").
Proof. reflexivity. Qed.

Example splitext_dots_ex : OsPath.splitext "...rc" = ("...rc", "").
Proof. reflexivity. Qed.

Example lower_ex : PyStr.lower "UpLoad_1" = "upload_1".
Proof. reflexivity. Qed.

(** ** Key naming *)

Section FormKeyPath.
Import PyStr OsPath PyStrFacts OsPathFacts.

Lemma form_key_path_eval (r : dict) (site filetype local_path : string) :
  r !! "site" = Some (VStr site) ->
  r !! "filetype" = Some (VStr filetype) ->
  r !! "local_path" = Some (VStr local_path) ->
  form_key_path r =
    Ok (site +:+ "/" +:+ filetype +:+ "/" +:+
        (if String.eqb filetype "basebackup"
         then basename (dirname local_path)
         else fst (splitext (basename local_path)))).
Proof.
  intros Hs Hf Hp. unfold form_key_path, subscript.
  rewrite Hf, Hs, Hp. cbn [obind eq_str].
  destruct (String.eqb filetype "basebackup"); reflexivity.
Qed.

(** C4. [form_key_path] is a function of the request alone.  On a request
    whose site, filetype and local path are strings it returns
    site/filetype/name, where for a basebackup the name is the base name of
    the directory of the local path, whichever file of that directory the
    path names, and for every other filetype it is the base name of the
    local path without its last extension. *)
Theorem form_key_path_spec (r : dict) (site filetype local_path : string) :
  r !! "site" = Some (VStr site) ->
  r !! "filetype" = Some (VStr filetype) ->
  r !! "local_path" = Some (VStr local_path) ->
  (filetype = "basebackup" ->
     form_key_path r =
       Ok (site +:+ "/" +:+ filetype +:+ "/" +:+ basename (dirname local_path))
     /\ forall d f f' : string,
          has_char slash f = false -> has_char slash f' = false ->
          form_key_path (<["local_path" := VStr (d +:+ "/" +:+ f)]> r)
          = form_key_path (<["local_path" := VStr (d +:+ "/" +:+ f')]> r))
  /\ (filetype <> "basebackup" ->
     form_key_path r =
       Ok (site +:+ "/" +:+ filetype +:+ "/" +:+ fst (splitext (basename local_path)))
     /\ forall d stem e : string,
          has_char slash stem = false -> all_char dot stem = false ->
          has_char slash e = false -> has_char dot e = false ->
          form_key_path (<["local_path" := VStr (d +:+ "/" +:+ stem +:+ "." +:+ e)]> r)
          = Ok (site +:+ "/" +:+ filetype +:+ "/" +:+ stem)).
Proof.
  intros Hs Hf Hp. split.
  - intros ->. split.
    + now rewrite (form_key_path_eval r _ _ _ Hs Hf Hp).
    + intros d f f' Hslash Hslash'.
      rewrite (form_key_path_eval _ site "basebackup" (d +:+ "/" +:+ f));
        rewrite ?lookup_insert_eq, ?lookup_insert_ne by discriminate; try done.
      rewrite (form_key_path_eval _ site "basebackup" (d +:+ "/" +:+ f'));
        rewrite ?lookup_insert_eq, ?lookup_insert_ne by discriminate; try done.
      cbn [String.eqb Ascii.eqb Bool.eqb].
      now rewrite (dirname_join d f Hslash), (dirname_join d f' Hslash').
  - intros Hne. apply String.eqb_neq in Hne. split.
    + now rewrite (form_key_path_eval r _ _ _ Hs Hf Hp), Hne.
    + intros d stem e Hstem Hdots He Hdot.
      rewrite (form_key_path_eval _ site filetype (d +:+ "/" +:+ stem +:+ "." +:+ e));
        rewrite ?lookup_insert_eq, ?lookup_insert_ne by discriminate; try done.
      rewrite Hne, basename_join.
      * now rewrite (splitext_extension stem e Hstem He Hdot Hdots).
      * change (stem +:+ "." +:+ e) with (stem +:+ String dot e).
        rewrite has_char_app, Hstem. simpl. exact He.
Qed.

Lemma form_key_path_spec_witness :
  form_key_path Demo.upload_request = Ok "db1/xlog/000000010000000000000001"
  /\ form_key_path
       (<["local_path" := VStr "/data/backup/2015-07-01_0/base.tar.gz"]>
          (<["filetype" := VStr "basebackup"]> Demo.upload_request))
     = Ok "db1/basebackup/2015-07-01_0".
Proof.
  split.
  - pose proof (form_key_path_spec Demo.upload_request "db1" "xlog" Demo.xlog_path
                  eq_refl eq_refl eq_refl) as [_ H].
    destruct H as [H _]; [discriminate|]. rewrite H. reflexivity.
  - pose proof (form_key_path_spec
                  (<["local_path" := VStr "/data/backup/2015-07-01_0/base.tar.gz"]>
                     (<["filetype" := VStr "basebackup"]> Demo.upload_request))
                  "db1" "basebackup" "/data/backup/2015-07-01_0/base.tar.gz"
                  eq_refl eq_refl eq_refl) as [H _].
    destruct H as [H _]; [reflexivity|]. rewrite H. reflexivity.
Defined.

End FormKeyPath.

(** ** The storage factory *)

Section Factory.

Lemma subscript_ok (d : dict) (k : string) (v : value) :
  d !! k = Some v -> subscript d k = Ok v.
Proof. unfold subscript. now intros ->. Qed.

Lemma subscript_missing (d : dict) (k : string) :
  d !! k = None -> subscript d k = Raise (KeyError k).
Proof. unfold subscript. now intros ->. Qed.

(** C6, as the spec has it, fails on a recognised provider with a missing
    key: the exception is a [KeyError]. *)
Lemma get_object_storage_transfer_missing_key :
  ~ (raises_configuration_error (get_object_storage_transfer "azure" ∅)
     <-> (("azure" ∉ provider_kinds)
          \/ exists k, k ∈ required_keys "azure" /\ (∅ : dict) !! k = None)).
Proof.
  intros [_ H].
  destruct H as [key Hkey].
  - right. exists "account_name". split; [|reflexivity].
    apply list_elem_of_here.
  - discriminate Hkey.
Qed.

Ltac in_list :=
  repeat first [apply list_elem_of_here | apply list_elem_of_further].

Ltac all_present :=
  let k := fresh "k" in
  let Hk := fresh "Hk" in
  intros k Hk;
  repeat (apply elem_of_cons in Hk as [->|Hk]; [eauto|]);
  now apply elem_of_nil in Hk.

Lemma required_keys_known (key k : string) :
  k ∈ required_keys key -> key ∈ provider_kinds.
Proof.
  unfold required_keys, provider_kinds.
  destruct (String.eqb_spec key "azure") as [->|_]; [intros _; in_list|].
  destruct (String.eqb_spec key "google") as [->|_]; [intros _; in_list|].
  destruct (String.eqb_spec key "s3") as [->|_]; [intros _; in_list|].
  intros H. now apply elem_of_nil in H.
Qed.

(** The three ways a call of the factory ends. *)
Lemma get_object_storage_transfer_cases (key : string) (value : dict) :
  ((key ∉ provider_kinds)
     /\ get_object_storage_transfer key value = Raise (InvalidConfigurationError key))
  \/ (key ∈ provider_kinds
     /\ exists k, k ∈ required_keys key /\ value !! k = None
                  /\ get_object_storage_transfer key value = Raise (KeyError k))
  \/ (key ∈ provider_kinds
     /\ (forall k, k ∈ required_keys key -> is_Some (value !! k))
     /\ exists s, get_object_storage_transfer key value = Ok s).
Proof.
  unfold get_object_storage_transfer, required_keys, provider_kinds.
  destruct (String.eqb_spec key "azure") as [->|Ha];
    [|destruct (String.eqb_spec key "google") as [->|Hg];
      [|destruct (String.eqb_spec key "s3") as [->|Hs]]].
  - right. unfold subscript.
    destruct (value !! "account_name") as [v1|] eqn:E1; cbn [obind];
      [|left; split; [in_list|]; exists "account_name"; repeat split; [in_list|done]].
    destruct (value !! "account_key") as [v2|] eqn:E2; cbn [obind];
      [|left; split; [in_list|]; exists "account_key"; repeat split; [in_list|done]].
    right. split; [in_list|]. split; [all_present | eauto].
  - right. unfold subscript.
    destruct (value !! "project_id") as [v1|] eqn:E1; cbn [obind];
      [|left; split; [in_list|]; exists "project_id"; repeat split; [in_list|done]].
    right. split; [in_list|]. split; [all_present | eauto].
  - right. unfold subscript.
    destruct (value !! "aws_access_key_id") as [v1|] eqn:E1; cbn [obind];
      [|left; split; [in_list|]; exists "aws_access_key_id"; repeat split; [in_list|done]].
    destruct (value !! "aws_secret_access_key") as [v2|] eqn:E2; cbn [obind];
      [|left; split; [in_list|]; exists "aws_secret_access_key"; repeat split; [in_list|done]].
    destruct (value !! "bucket_name") as [v3|] eqn:E3; cbn [obind];
      [|left; split; [in_list|]; exists "bucket_name"; repeat split; [in_list|done]].
    right. split; [in_list|]. split; [all_present | eauto].
  - left. split; [|reflexivity].
    intros H. repeat (apply elem_of_cons in H as [->|H]; [congruence|]).
    now apply elem_of_nil in H.
Qed.

(** C6, amended.  The factory raises [InvalidConfigurationError] exactly
    when the provider kind is none of azure, google and s3.  For one of
    these, a required key that is missing makes it raise [KeyError] for
    such a key, and it returns a backend exactly when no required key is
    missing. *)
Theorem get_object_storage_transfer_spec (key : string) (value : dict) :
  (raises_configuration_error (get_object_storage_transfer key value)
     <-> key ∉ provider_kinds)
  /\ ((exists k, k ∈ required_keys key /\ value !! k = None)
     <-> exists k, k ∈ required_keys key /\ value !! k = None
                   /\ get_object_storage_transfer key value = Raise (KeyError k))
  /\ ((exists s, get_object_storage_transfer key value = Ok s)
     <-> key ∈ provider_kinds
         /\ forall k, k ∈ required_keys key -> is_Some (value !! k)).
Proof.
  unfold raises_configuration_error.
  destruct (get_object_storage_transfer_cases key value)
    as [[Hk E] | [(Hk & k & Hin & Hnone & E) | (Hk & Hall & s & E)]];
    rewrite E; (split; [|split]).
  - split; [now intros _ | eauto].
  - split; [|intros (k & Hin & Hnone & _); eauto].
    intros (k & Hin & _). exfalso. eauto using required_keys_known.
  - split; [now intros [s [=]] | intros [Hin _]; contradiction].
  - split; [now intros [x [=]] | intros Hno; contradiction].
  - split; [intros _; eauto | intros (k' & Hin' & Hnone' & _); eauto].
  - split; [now intros [s [=]]|].
    intros [_ Hall]. destruct (Hall k Hin) as [v Hv]. congruence.
  - split; [now intros [x [=]] | intros Hno; contradiction].
  - split; [|now intros (k & _ & _ & [=])].
    intros (k & Hin & Hnone). destruct (Hall k Hin) as [v Hv]. congruence.
  - split; [intros _; split; assumption | eauto].
Qed.

End Factory.

(** ** The backend cache *)

Section Registry.
Context {Ext : Type} {collaborators : Collaborators Ext}.

Lemma world_eta (w : world Ext) :
  w = set_site_transfers (fun _ => site_transfers w) w.
Proof. now destruct w. Qed.

(** Resolution writes to the cache and to nothing else. *)
Lemma get_object_storage_items_frame (site : string) (items : list (string * dict)) :
  forall storage (w : world Ext) o w',
    get_object_storage_items site items storage w = (o, w') ->
    exists t, w' = set_site_transfers (fun _ => t) w.
Proof.
  induction items as [|[key value] items IH]; intros storage w o w' H.
  - injection H as _ <-. eexists. apply world_eta.
  - cbn [get_object_storage_items] in H. unfold bind, lift, modify in H.
    destruct (get_object_storage_transfer key value) as [s|e].
    + apply IH in H as [t ->]. now exists t.
    + injection H as _ <-. eexists. apply world_eta.
Qed.

Lemma get_object_storage_frame (site : string) (w : world Ext) o w' :
  get_object_storage site w = (o, w') ->
  exists t, w' = set_site_transfers (fun _ => t) w.
Proof.
  unfold get_object_storage.
  destruct (site_transfers w !! site);
    [intros [= _ <-]; eexists; apply world_eta|].
  destruct (backup_sites (config w)) as [sites|];
    [|intros [= _ <-]; eexists; apply world_eta].
  destruct (sites !! site) as [sc|];
    [|intros [= _ <-]; eexists; apply world_eta].
  apply get_object_storage_items_frame.
Qed.

(** Every entry overwrites the cache entry of the one before. *)
Lemma get_object_storage_items_last (site : string) (init : list (string * dict))
    (key : string) (value : dict) (s : transfer) :
  Forall constructs init ->
  get_object_storage_transfer key value = Ok s ->
  forall storage (w : world Ext),
    get_object_storage_items site (init ++ [(key, value)]) storage w
    = (Ok (Some s), set_site_transfers (fun t => <[site := s]> t) w).
Proof.
  intros Hinit Hlast. induction Hinit as [|[k v] init [s' Hs'] _ IH]; intros storage w.
  - cbn [app get_object_storage_items]. unfold bind, lift, modify, ret.
    now rewrite Hlast.
  - cbn [app get_object_storage_items]. unfold bind, lift, modify.
    cbn [fst snd] in Hs'. rewrite Hs', IH.
    unfold set_site_transfers. cbn. now rewrite insert_insert_eq.
Qed.

(** C5, amended.  When the site has no cached backend and every entry of
    its provider mapping constructs, the backend returned and cached on
    first resolution is the one made from the last entry that [items()]
    yields; the next resolution returns that cached backend. *)
Theorem get_object_storage_last_wins (w : world Ext) (site : string)
    (sites : gmap string site_config) (sc : site_config)
    (init : list (string * dict)) (key : string) (value : dict) (s : transfer) :
  site_transfers w !! site = None ->
  backup_sites (config w) = Some sites ->
  sites !! site = Some sc ->
  object_storage sc = Some (init ++ [(key, value)]) ->
  Forall constructs init ->
  get_object_storage_transfer key value = Ok s ->
  let w' := set_site_transfers (fun t => <[site := s]> t) w in
  get_object_storage site w = (Ok (Some s), w')
  /\ site_transfers w' !! site = Some s
  /\ get_object_storage site w' = (Ok (Some s), w').
Proof.
  intros Hmiss Hsites Hsite Hcfg Hinit Hlast w'.
  assert (Hhit : site_transfers w' !! site = Some s).
  { unfold w', set_site_transfers. cbn. apply lookup_insert_eq. }
  repeat split; [|exact Hhit|].
  - unfold get_object_storage. rewrite Hmiss, Hsites, Hsite, Hcfg. cbn [default].
    now apply get_object_storage_items_last.
  - unfold get_object_storage. now rewrite Hhit.
Qed.

(** C10.  For a site that has no cached backend and whose provider mapping
    is empty or absent, resolution returns [None] and leaves the agent as it
    was, so nothing is cached and every later call does the same; once the
    configuration has a provider for the site, the next call reads it. *)
Theorem get_object_storage_empty (w : world Ext) (site : string)
    (sites : gmap string site_config) (sc : site_config) :
  site_transfers w !! site = None ->
  backup_sites (config w) = Some sites ->
  sites !! site = Some sc ->
  default [] (object_storage sc) = [] ->
  get_object_storage site w = (Ok None, w)
  /\ (forall n : nat,
        Nat.iter n (fun w0 => (get_object_storage site w0).2) w = w)
  /\ forall key value s,
       get_object_storage_transfer key value = Ok s ->
       let reloaded :=
         set_config (Configuration
                       (Some (<[site := SiteConfig (Some [(key, value)])]> sites)))
           (get_object_storage site w).2 in
       (get_object_storage site reloaded).1 = Ok (Some s).
Proof.
  intros Hmiss Hsites Hsite Hcfg.
  assert (H : get_object_storage site w = (Ok None, w)).
  { unfold get_object_storage. now rewrite Hmiss, Hsites, Hsite, Hcfg. }
  repeat split; [exact H| |].
  - induction n as [|n IH]; [reflexivity|].
    rewrite Nat.iter_succ, IH. now rewrite H.
  - intros key value s Hs reloaded. unfold reloaded. rewrite H. cbn [snd].
    unfold get_object_storage. cbn [set_config site_transfers config backup_sites].
    rewrite Hmiss, lookup_insert_eq. cbn [object_storage default id].
    cbn [get_object_storage_items]. unfold bind, lift, modify, ret.
    now rewrite Hs.
Qed.

End Registry.

(** C5, as the spec has it, fails: with an s3 entry followed by a google
    entry the backend returned and cached is the google one, not the one
    made from the first entry. *)
Lemma get_object_storage_first_entry_loses :
  let w := init (Demo.config_of (Some [("s3", Demo.s3_config);
                                       ("google", Demo.google_config)]))
             [] [] ∅ ∅ Demo.up in
  exists first,
    get_object_storage_transfer "s3" Demo.s3_config = Ok first
    /\ (get_object_storage "db1" w).1 <> Ok (Some first)
    /\ site_transfers (get_object_storage "db1" w).2 !! "db1" <> Some first.
Proof.
  eexists. split; [reflexivity|]. split; vm_compute; discriminate.
Qed.

Lemma get_object_storage_last_wins_witness :
  let w := init (Demo.config_of (Some [("s3", Demo.s3_config);
                                       ("google", Demo.google_config)]))
             [] [] ∅ ∅ Demo.up in
  (get_object_storage "db1" w).1
  = Ok (Some (GoogleTransfer (VStr "proj") (VStr "pghoard") VNone)).
Proof.
  intros w.
  pose proof (get_object_storage_last_wins w "db1" _ _ [("s3", Demo.s3_config)]
                "google" Demo.google_config
                (GoogleTransfer (VStr "proj") (VStr "pghoard") VNone)
                eq_refl eq_refl eq_refl eq_refl) as H.
  destruct H as [H _].
  - constructor; [|constructor]. eexists. reflexivity.
  - reflexivity.
  - rewrite H. reflexivity.
Defined.

Lemma get_object_storage_empty_witness :
  let w := init (Demo.config_of (Some [])) [] [] ∅ ∅ Demo.up in
  get_object_storage "db1" w = (Ok None, w).
Proof.
  intros w.
  apply (get_object_storage_empty w "db1" _ _ eq_refl eq_refl eq_refl eq_refl).
Defined.

(** ** Running a computation step by step *)

Section Steps.
Context {Ext : Type} {collaborators : Collaborators Ext}.

Lemma bind_ok {A B} (m : M Ext A) (k : A -> M Ext B) (w w1 : world Ext) (a : A) :
  m w = (Ok a, w1) -> bind m k w = k a w1.
Proof. unfold bind. now intros ->. Qed.

Lemma bind_raise {A B} (m : M Ext A) (k : A -> M Ext B) (w w1 : world Ext) (e : exn) :
  m w = (Raise e, w1) -> bind m k w = (Raise e, w1).
Proof. unfold bind. now intros ->. Qed.

Lemma deref_ok (l : nat) (w : world Ext) (r : dict) :
  heap w !! l = Some r -> deref l w = (Ok r, w).
Proof. intros H. unfold deref. now rewrite (lookup_total_correct _ _ _ H). Qed.

Lemma getitem_ok (l : nat) (k : string) (w : world Ext) (r : dict) (v : value) :
  heap w !! l = Some r -> r !! k = Some v -> getitem l k w = (Ok v, w).
Proof.
  intros Hl Hk. unfold getitem.
  rewrite (bind_ok _ _ _ _ _ (deref_ok _ _ _ Hl)).
  unfold lift, subscript. now rewrite Hk.
Qed.

Lemma getitem_missing (l : nat) (k : string) (w : world Ext) (r : dict) :
  heap w !! l = Some r -> r !! k = None -> getitem l k w = (Raise (KeyError k), w).
Proof.
  intros Hl Hk. unfold getitem.
  rewrite (bind_ok _ _ _ _ _ (deref_ok _ _ _ Hl)).
  unfold lift, subscript. now rewrite Hk.
Qed.

Lemma contains_eval (l : nat) (k : string) (w : world Ext) (r : dict) :
  heap w !! l = Some r ->
  contains l k w = (Ok (bool_decide (is_Some (r !! k))), w).
Proof.
  intros Hl. unfold contains.
  now rewrite (bind_ok _ _ _ _ _ (deref_ok _ _ _ Hl)).
Qed.

Lemma lift_ok {A} (a : A) (w : world Ext) : lift (Ok a) w = (Ok a, w).
Proof. reflexivity. Qed.

Lemma logging_ok (lv : level) (msg : string) (w : world Ext) :
  logging lv msg w = (Ok tt, set_log (fun l => l ++ [(lv, msg)]) w).
Proof. reflexivity. Qed.

Lemma time_ok (w : world Ext) :
  time w = (Ok (time_time (ticks w)), set_ticks (S (ticks w)) w).
Proof. reflexivity. Qed.

Lemma deref_total (l : nat) (w : world Ext) : deref l w = (Ok (heap w !!! l), w).
Proof. reflexivity. Qed.

Lemma set_state_defaults_for_site_ok (site : string) (w : world Ext) :
  set_state_defaults_for_site site w
  = (Ok tt, set_state (fun st => with_defaults st site) w).
Proof. reflexivity. Qed.

Lemma state_leaf_set_ok (site oper ft : string) (lf : leaf) (w : world Ext) :
  state_leaf_set site oper ft lf w
  = (Ok tt, set_state (fun st => put_leaf st site oper ft lf) w).
Proof. reflexivity. Qed.

End Steps.

Tactic Notation "step" uconstr(H) := rewrite (bind_ok _ _ _ _ _ H).
Tactic Notation "step_raise" uconstr(H) := rewrite (bind_raise _ _ _ _ _ H).

(** ** The download handler *)

Section Download.
Context {Ext : Type} {collaborators : Collaborators Ext}.

(** The dict a request reference points to after [file_size] was set. *)
Lemma deref_setitem (h : gmap nat dict) (l : nat) (r : dict) (k : string) (v : value) :
  h !! l = Some r ->
  (<[l := <[k := v]> (h !!! l)]> h) !!! l = <[k := v]> r.
Proof.
  intros H. rewrite lookup_total_insert_eq. now rewrite (lookup_total_correct _ _ _ H).
Qed.

(** C7.  When the backend of the site is resolved and the fetch of the key
    raises the not-found error, the handler returns [{"success": False}],
    puts nothing on the compression queue and puts nothing back on the
    transfer queue; the request is left as it was and the miss is logged as
    a warning. *)
Theorem handle_download_not_found (w w0 : world Ext) (site key : string) (l : nat)
    (s : transfer) (x : Ext) :
  get_object_storage site w = (Ok (Some s), w0) ->
  get_contents_to_string s key (ext w0) = (Raise FileNotFoundFromStorageError, x) ->
  exists w',
    handle_download site key l w = (Ok failed, w')
    /\ compression_queue w' = compression_queue w
    /\ transfer_queue w' = transfer_queue w
    /\ heap w' = heap w
    /\ log w' = log w ++ [(WARNING, "%r not found from storage")].
Proof.
  intros Hres Hfetch.
  destruct (get_object_storage_frame _ _ _ _ Hres) as [t ->].
  unfold handle_download, try_except, download_try, bind.
  rewrite Hres. cbn [method]. unfold call. rewrite Hfetch.
  eexists. split; [reflexivity|]. now cbn.
Qed.

(** C9.  A download request without a [callback_queue] always fails: the
    handler returns [{"success": False}] and the compression queue is as
    before, whatever the backend answers. *)
Theorem handle_download_no_channel (w : world Ext) (site key : string) (l : nat)
    (r : dict) :
  heap w !! l = Some r ->
  r !! "callback_queue" = None ->
  exists w',
    handle_download site key l w = (Ok failed, w')
    /\ compression_queue w' = compression_queue w.
Proof.
  intros Hl Hno.
  unfold handle_download, try_except, download_try, bind.
  destruct (get_object_storage site w) as [[[s|]|e] w0] eqn:Hres;
    destruct (get_object_storage_frame _ _ _ _ Hres) as [t ->].
  - cbn [method]. unfold call.
    destruct (get_contents_to_string s key _) as [[[content metadata]|e] x] eqn:Hfetch.
    + unfold setitem, modify, getitem, bind, deref, lift.
      cbn [heap set_heap set_ext set_site_transfers].
      rewrite (deref_setitem _ _ _ _ _ Hl).
      unfold subscript. rewrite lookup_insert_ne by discriminate. rewrite Hno.
      eexists. split; [reflexivity|]. now cbn.
    + destruct e; eexists; (split; [reflexivity|]); now cbn.
  - cbn [method]. unfold raise. eexists. split; [reflexivity|]. now cbn.
  - destruct e; eexists; (split; [reflexivity|]); now cbn.
Qed.

(** A result with [call_callback] false is not pushed. *)
Lemma push_result_silent (result : dict) (l : nat) (w : world Ext) :
  result !! "call_callback" = Some (VBool false) ->
  push_result result l w = (Ok tt, w).
Proof.
  intros H. unfold push_result, contains, bind, deref, ret, dict_get.
  now rewrite H.
Qed.

(** C8, amended.  For a download request that carries a [callback_queue]
    and a [target_path], when the backend of the site is resolved and the
    fetch succeeds: the request's [file_size] becomes the length of the
    content; exactly one message is appended to the compression queue, with
    the content, the metadata, the target path as [local_path], the site,
    the request's callback queue and the type DECOMPRESSION; the result is
    success with [call_callback] false, and the worker pushes nothing to
    the callback queue for it. *)
Theorem handle_download_success (w w0 : world Ext) (site key : string) (l : nat)
    (r : dict) (s : transfer) (content : list Byte.byte)
    (metadata : gmap string string) (x : Ext) (callback_queue target_path : value) :
  heap w !! l = Some r ->
  r !! "callback_queue" = Some callback_queue ->
  r !! "target_path" = Some target_path ->
  get_object_storage site w = (Ok (Some s), w0) ->
  get_contents_to_string s key (ext w0) = (Ok (content, metadata), x) ->
  exists w',
    handle_download site key l w = (Ok forwarded, w')
    /\ heap w' = <[l := <["file_size" := VInt (Z.of_nat (length content))]> r]> (heap w)
    /\ compression_queue w'
       = compression_queue w
         ++ [decompression content metadata callback_queue target_path site]
    /\ transfer_queue w' = transfer_queue w
    /\ callback_queues w' = callback_queues w
    /\ push_result forwarded l w' = (Ok tt, w').
Proof.
  intros Hl Hcb Htp Hres Hfetch.
  destruct (get_object_storage_frame _ _ _ _ Hres) as [t ->].
  unfold handle_download, try_except, download_try, bind.
  rewrite Hres. cbn [method]. unfold call. rewrite Hfetch.
  unfold setitem, modify, getitem, bind, deref, lift.
  cbn [heap set_heap set_ext set_site_transfers].
  rewrite (deref_setitem _ _ _ _ _ Hl).
  unfold subscript. rewrite !lookup_insert_ne by discriminate. rewrite Hcb, Htp.
  eexists. split; [reflexivity|].
  cbn [heap set_heap set_ext set_site_transfers compression_queue_put modify
       set_compression_queue compression_queue transfer_queue callback_queues ret].
  rewrite (lookup_total_correct _ _ _ Hl).
  repeat split.
Qed.

End Download.

(** C8, as the spec has it, fails on a request without a result channel:
    the fetch succeeds, and yet the result is a failure and nothing is
    forwarded. *)
Lemma handle_download_needs_channel :
  let w := Demo.agent (delete "callback_queue" Demo.download_request) Demo.stocked in
  (forall s, get_contents_to_string s Demo.xlog_key (ext w)
             = (Ok (Demo.content, ∅), ext w))
  /\ (handle_download "db1" Demo.xlog_key 0 w).1 = Ok failed
  /\ compression_queue (handle_download "db1" Demo.xlog_key 0 w).2 = [].
Proof.
  split; [intros s; reflexivity|]. split; vm_compute; reflexivity.
Qed.

Lemma handle_download_not_found_witness :
  (handle_download "db1" Demo.xlog_key 0 (Demo.agent Demo.download_request Demo.up)).1
  = Ok failed.
Proof.
  destruct (handle_download_not_found
              (Demo.agent Demo.download_request Demo.up)
              (get_object_storage "db1" (Demo.agent Demo.download_request Demo.up)).2
              "db1" Demo.xlog_key 0
              (S3Transfer (VStr "AKIA") (VStr "secret") (VStr "") (VStr "backups")
                 VNone VNone (VBool false))
              Demo.up) as (w' & H & _);
    [vm_compute; reflexivity | vm_compute; reflexivity |].
  rewrite H. reflexivity.
Defined.

Lemma handle_download_no_channel_witness :
  (handle_download "db1" Demo.xlog_key 0
     (Demo.agent (delete "callback_queue" Demo.download_request) Demo.stocked)).1
  = Ok failed.
Proof.
  destruct (handle_download_no_channel
              (Demo.agent (delete "callback_queue" Demo.download_request) Demo.stocked)
              "db1" Demo.xlog_key 0 (delete "callback_queue" Demo.download_request))
    as (w' & H & _); [vm_compute; reflexivity | vm_compute; reflexivity |].
  rewrite H. reflexivity.
Defined.

Lemma handle_download_success_witness :
  (handle_download "db1" Demo.xlog_key 0 (Demo.agent Demo.download_request Demo.stocked)).1
  = Ok forwarded.
Proof.
  destruct (handle_download_success
              (Demo.agent Demo.download_request Demo.stocked)
              (get_object_storage "db1" (Demo.agent Demo.download_request Demo.stocked)).2
              "db1" Demo.xlog_key 0 Demo.download_request
              (S3Transfer (VStr "AKIA") (VStr "secret") (VStr "") (VStr "backups")
                 VNone VNone (VBool false))
              Demo.content ∅ Demo.stocked (VQueue 0)
              (VStr "/restore/000000010000000000000001")) as (w' & H & _);
    [vm_compute; reflexivity ..|].
  rewrite H. reflexivity.
Defined.

(** ** Frames: what a computation leaves alone *)

Section Frames.
Context {Ext : Type} {collaborators : Collaborators Ext}.
Context (R : world Ext -> world Ext -> Prop) `{!PreOrder R}.
Local Open Scope agent_scope.

Lemma keeps_ret {A} (a : A) : keeps R (ret a).
Proof. intros w o w' [= _ <-]. reflexivity. Qed.

Lemma keeps_raise {A} (e : exn) : keeps R (@raise Ext A e).
Proof. intros w o w' [= _ <-]. reflexivity. Qed.

Lemma keeps_lift {A} (o : outcome A) : keeps R (lift o).
Proof. intros w o' w' [= _ <-]. reflexivity. Qed.

Lemma keeps_bind {A B} (m : M Ext A) (k : A -> M Ext B) :
  keeps R m -> (forall a, keeps R (k a)) -> keeps R (bind m k).
Proof.
  intros Hm Hk w o w' H. unfold bind in H.
  destruct (m w) as [[a|e] w1] eqn:E.
  - transitivity w1; [exact (Hm _ _ _ E) | exact (Hk _ _ _ _ H)].
  - injection H as _ <-. exact (Hm _ _ _ E).
Qed.

Lemma keeps_try_except {A} (m : M Ext A) (h : exn -> M Ext A) :
  keeps R m -> (forall e, keeps R (h e)) -> keeps R (try_except m h).
Proof.
  intros Hm Hh w o w' H. unfold try_except in H.
  destruct (m w) as [[a|e] w1] eqn:E.
  - injection H as _ <-. exact (Hm _ _ _ E).
  - transitivity w1; [exact (Hm _ _ _ E) | exact (Hh _ _ _ _ H)].
Qed.

Lemma keeps_deref (l : nat) : keeps R (deref l).
Proof. intros w o w' [= _ <-]. reflexivity. Qed.

Lemma keeps_getitem (l : nat) (k : string) : keeps R (getitem l k).
Proof. apply keeps_bind; [apply keeps_deref | intros; apply keeps_lift]. Qed.

Lemma keeps_contains (l : nat) (k : string) : keeps R (contains l k).
Proof. apply keeps_bind; [apply keeps_deref | intros; apply keeps_ret]. Qed.

Lemma keeps_method {A} (storage : option transfer) (f : transfer -> M Ext A) :
  (forall s, keeps R (f s)) -> keeps R (method storage f).
Proof. intros H. destruct storage; [apply H | apply keeps_raise]. Qed.

End Frames.

Section UntouchedFrame.
Context {Ext : Type} {collaborators : Collaborators Ext}.
Local Open Scope agent_scope.

#[local] Instance untouched_preorder : PreOrder (@untouched Ext).
Proof.
  split.
  - intros w. now repeat split.
  - intros w1 w2 w3 H12 H23. unfold untouched in *.
    destruct H12 as (?&?&?&?&?&?&?&?), H23 as (?&?&?&?&?&?&?&?).
    repeat split; congruence.
Qed.

Lemma untouched_call {A} (f : Ext -> outcome A * Ext) : keeps (@untouched Ext) (call f).
Proof.
  intros w o w' H. unfold call in H. destruct (f (ext w)) as [o' x].
  injection H as _ <-. now repeat split.
Qed.

Lemma untouched_logging (lv : level) (msg : string) : keeps (@untouched Ext) (logging lv msg).
Proof. intros w o w' [= _ <-]. now repeat split. Qed.

Lemma untouched_get_object_storage (site : string) :
  keeps (@untouched Ext) (get_object_storage site).
Proof.
  intros w o w' H. destruct (get_object_storage_frame _ _ _ _ H) as [t ->].
  now repeat split.
Qed.

Ltac frame :=
  repeat first
    [ apply (keeps_getitem (@untouched Ext))
    | apply (keeps_contains (@untouched Ext))
    | apply (keeps_deref (@untouched Ext))
    | apply (keeps_bind (@untouched Ext)); [|intros ?]
    | apply (keeps_try_except (@untouched Ext)); [|intros ?]
    | apply (keeps_method (@untouched Ext)); intros ?
    | apply (keeps_ret (@untouched Ext))
    | apply (keeps_lift (@untouched Ext))
    | apply untouched_call
    | apply untouched_logging
    | apply untouched_get_object_storage
    | match goal with
      | |- keeps _ (if ?b then _ else _) => destruct b
      end ].

Lemma untouched_cleanup_try (l : nat) : keeps (@untouched Ext) (cleanup_try l).
Proof.
  unfold cleanup_try. frame.
  intros w o w' [= _ <-]. reflexivity.
Qed.

Lemma untouched_upload_try (site key : string) (l : nat) :
  keeps (@untouched Ext) (upload_try site key l).
Proof.
  unfold upload_try. frame.
  intros w o w' [= _ <-]. reflexivity.
Qed.

(** The only value the [try] block of [handle_upload] returns. *)
Lemma upload_try_returns (site key : string) (l : nat) (w w' : world Ext) (res : dict) :
  upload_try site key l w = (Ok res, w') -> res = succeeded.
Proof.
  unfold upload_try, bind.
  destruct (get_object_storage site w) as [[s|e] w0]; [|discriminate].
  destruct (contains l "blob" w0) as [[b|e] w1]; [|discriminate].
  match goal with
  | |- match ?m with _ => _ end = _ -> _ => destruct m as [[u|e] w2]; [|discriminate]
  end.
  now intros [= <- _].
Qed.

(** When the [try] block raises, the handler sleeps, puts the request back
    and reports a failure that is not to be pushed. *)
Lemma handle_upload_retry (w w1 : world Ext) (site key : string) (l : nat)
    (r : dict) (e : exn) :
  heap w !! l = Some r ->
  is_Some (r !! "local_path") ->
  upload_try site key l w = (Raise e, w1) ->
  exists w',
    handle_upload site key l w = (Ok requeued, w')
    /\ slept w' = slept w ++ [1 # 2]
    /\ transfer_queue w' = transfer_queue w ++ [l]
    /\ heap w' = heap w
    /\ state w' = state w
    /\ compression_queue w' = compression_queue w
    /\ callback_queues w' = callback_queues w
    /\ push_result requeued l w' = (Ok tt, w').
Proof.
  intros Hl [p Hp] Htry.
  destruct (untouched_upload_try _ _ _ _ _ _ Htry) as (Hh & Hst & Htq & Hcq & Hcb & _ & _ & Hsl).
  unfold handle_upload, try_except. rewrite Htry.
  unfold getitem, bind, deref, lift, subscript.
  rewrite Hh, (lookup_total_correct _ _ _ Hl), Hp.
  eexists. split; [reflexivity|].
  cbn [slept transfer_queue heap state compression_queue callback_queues
       sleep transfer_queue_put logging modify bind ret
       set_slept set_transfer_queue set_log].
  rewrite Hsl, Htq, Hh, Hst, Hcq, Hcb.
  repeat (split; [reflexivity|]).
  now apply push_result_silent.
Qed.

(** C2.  For an upload request (with its [local_path] and [metadata]) whose
    backend is resolved and whose store call, from memory when the request
    has a [blob] and from disk otherwise, raises: the handler sleeps the
    fixed half second, appends the very same request reference to the
    transfer queue with the request dict unchanged, and returns
    [{"success": False, "call_callback": False}], for which the worker
    pushes nothing to the callback queue. *)
Theorem handle_upload_store_fails (w w0 : world Ext) (site key : string) (l : nat)
    (r : dict) (s : transfer) (local_path metadata : value) (e : exn) (x : Ext) :
  heap w !! l = Some r ->
  r !! "local_path" = Some local_path ->
  r !! "metadata" = Some metadata ->
  get_object_storage site w = (Ok (Some s), w0) ->
  match r !! "blob" with
  | Some blob => store_file_from_memory s key blob metadata (ext w0)
  | None => store_file_from_disk s key local_path metadata (ext w0)
  end = (Raise e, x) ->
  exists w',
    handle_upload site key l w = (Ok requeued, w')
    /\ slept w' = slept w ++ [1 # 2]
    /\ transfer_queue w' = transfer_queue w ++ [l]
    /\ heap w' = heap w
    /\ heap w' !! l = Some r
    /\ callback_queues w' = callback_queues w
    /\ push_result requeued l w' = (Ok tt, w').
Proof.
  intros Hl Hp Hm Hres Hstore.
  assert (Htry : upload_try site key l w = (Raise e, set_ext x w0)).
  { destruct (get_object_storage_frame _ _ _ _ Hres) as [t Hw0].
    assert (Hl0 : heap w0 !! l = Some r) by now subst w0.
    unfold upload_try. step Hres. step (contains_eval l "blob" w0 r Hl0).
    cbn [method].
    destruct (r !! "blob") as [blob|] eqn:Hb.
    - rewrite bool_decide_eq_true_2 by eauto.
      apply bind_raise.
      step (getitem_ok l "blob" w0 r blob Hl0 Hb).
      step (getitem_ok l "metadata" w0 r metadata Hl0 Hm).
      unfold call. now rewrite Hstore.
    - rewrite bool_decide_eq_false_2 by (intros [? [=]]).
      apply bind_raise. apply bind_raise.
      step (getitem_ok l "local_path" w0 r local_path Hl0 Hp).
      step (getitem_ok l "metadata" w0 r metadata Hl0 Hm).
      unfold call. now rewrite Hstore. }
  destruct (handle_upload_retry w _ site key l r e Hl (ex_intro _ _ Hp) Htry)
    as (w' & H & Hsl & Htq & Hh & _ & _ & Hcb & Hpush).
  exists w'. repeat split; try assumption. now rewrite Hh.
Qed.

End UntouchedFrame.

Lemma handle_upload_store_fails_witness :
  let w := Demo.agent Demo.upload_request (Demo.down 1) in
  (handle_upload "db1" Demo.xlog_key 0 w).1 = Ok requeued
  /\ transfer_queue (handle_upload "db1" Demo.xlog_key 0 w).2 = [0%nat; 0%nat].
Proof.
  intros w.
  destruct (handle_upload_store_fails w (get_object_storage "db1" w).2
              "db1" Demo.xlog_key 0 Demo.upload_request
              (S3Transfer (VStr "AKIA") (VStr "secret") (VStr "") (VStr "backups")
                 VNone VNone (VBool false))
              (VStr Demo.xlog_path) (VDict ∅) (StorageError 503)
              (Demo.Outside ∅ 0 Demo.local_disk))
    as (w' & H & _ & Htq & _); [vm_compute; reflexivity ..|].
  rewrite H. split; [reflexivity | exact Htq].
Defined.

(** ** The statistics *)

Section Leaves.

Lemma site_ok_spec (by_oper : gmap string (gmap string leaf)) :
  site_ok by_oper = true <->
  forall oper, oper ∈ operations ->
    exists by_type, by_oper !! oper = Some by_type
      /\ forall ft, ft ∈ filetypes -> is_Some (by_type !! ft).
Proof.
  unfold site_ok. rewrite forallb_forall. split.
  - intros H oper Hin. apply list_elem_of_In in Hin. specialize (H oper Hin).
    destruct (by_oper !! oper) as [by_type|]; [|discriminate].
    exists by_type. split; [reflexivity|].
    intros ft Hft. rewrite forallb_forall in H.
    apply list_elem_of_In in Hft. exact (bool_decide_eq_true_1 _ (H ft Hft)).
  - intros H oper Hin. apply list_elem_of_In in Hin.
    destruct (H oper Hin) as (by_type & -> & Hall).
    apply forallb_forall. intros ft Hft. apply bool_decide_eq_true_2, Hall.
    now apply list_elem_of_In.
Qed.

Lemma site_defaults_ok : site_ok site_defaults = true.
Proof. reflexivity. Qed.

Lemma state_ok_has_leaf (st : stats) (site oper ft : string)
    (by_oper : gmap string (gmap string leaf)) :
  state_ok st -> st !! site = Some by_oper ->
  oper ∈ operations -> ft ∈ filetypes ->
  has_leaf st site oper ft.
Proof.
  intros Hok Hsite Hoper Hft.
  pose proof (proj1 (site_ok_spec _) (Hok _ _ Hsite)) as Hs.
  destruct (Hs oper Hoper) as (by_type & Hbt & Hall).
  destruct (Hall ft Hft) as [lf Hlf].
  now exists by_oper, by_type, lf.
Qed.

Lemma with_defaults_present (st : stats) (site : string) :
  is_Some (with_defaults st site !! site).
Proof.
  unfold with_defaults. destruct (st !! site) eqn:E; [now rewrite E|].
  rewrite lookup_insert_eq. eauto.
Qed.

Lemma with_defaults_ok (st : stats) (site : string) :
  state_ok st -> state_ok (with_defaults st site).
Proof.
  intros Hok. unfold with_defaults. destruct (st !! site) eqn:E; [exact Hok|].
  intros s by_oper. rewrite lookup_insert. case_decide.
  - intros [= <-]. apply site_defaults_ok.
  - apply Hok.
Qed.

(** A site that has just got its entry reads as it did before: zero. *)
Lemma stat_leaf_site_defaults (oper ft : string) :
  match site_defaults !! oper with
  | Some by_type => default EMPTY (by_type !! ft)
  | None => EMPTY
  end = EMPTY.
Proof.
  unfold site_defaults.
  assert (H : default EMPTY (filetype_defaults !! ft) = EMPTY).
  { unfold filetype_defaults.
    repeat (rewrite lookup_insert; case_decide; [reflexivity|]).
    now rewrite lookup_empty. }
  repeat (rewrite lookup_insert; case_decide; [exact H|]).
  now rewrite lookup_empty.
Qed.

Lemma stat_leaf_with_defaults (st : stats) (site s oper ft : string) :
  stat_leaf (with_defaults st site) s oper ft = stat_leaf st s oper ft.
Proof.
  unfold with_defaults. destruct (st !! site) eqn:E; [reflexivity|].
  unfold stat_leaf. rewrite lookup_insert. case_decide as Hs.
  - subst s. rewrite E. apply stat_leaf_site_defaults.
  - reflexivity.
Qed.

Lemma has_leaf_put (st : stats) (site oper ft : string) (lf : leaf) :
  has_leaf (put_leaf st site oper ft lf) site oper ft.
Proof.
  unfold has_leaf, put_leaf. do 3 eexists.
  split; [apply lookup_insert_eq|]. split; apply lookup_insert_eq.
Qed.

Lemma stat_leaf_has (st : stats) (site oper ft : string) :
  has_leaf st site oper ft ->
  exists by_oper by_type,
    st !! site = Some by_oper /\ by_oper !! oper = Some by_type
    /\ by_type !! ft = Some (stat_leaf st site oper ft).
Proof.
  intros (by_oper & by_type & lf & H1 & H2 & H3).
  exists by_oper, by_type. unfold stat_leaf. now rewrite H1, H2, H3.
Qed.

Lemma stat_leaf_put_same (st : stats) (site oper ft : string) (lf : leaf) :
  stat_leaf (put_leaf st site oper ft lf) site oper ft = lf.
Proof. unfold stat_leaf, put_leaf. now rewrite !lookup_insert_eq. Qed.

Lemma stat_leaf_put_other (st : stats) (site oper ft s o f : string) (lf : leaf) :
  (s, o, f) <> (site, oper, ft) ->
  stat_leaf (put_leaf st site oper ft lf) s o f = stat_leaf st s o f.
Proof.
  intros Hne. unfold stat_leaf, put_leaf.
  rewrite lookup_insert. case_decide as Hs; [subst s|reflexivity].
  rewrite lookup_insert. rewrite !lookup_total_alt.
  case_decide as Ho; [subst o|].
  - rewrite lookup_insert_ne by congruence.
    destruct (st !! site) as [by_oper|]; simpl.
    + destruct (by_oper !! oper); simpl; [reflexivity|].
      now rewrite lookup_empty.
    + rewrite !lookup_empty. simpl. now rewrite lookup_empty.
  - destruct (st !! site) as [by_oper|]; simpl; [reflexivity|].
    now rewrite lookup_empty.
Qed.

Lemma put_leaf_ok (st : stats) (site oper ft : string) (lf : leaf) :
  state_ok st -> has_leaf st site oper ft ->
  state_ok (put_leaf st site oper ft lf).
Proof.
  intros Hok (by_oper & by_type & lf0 & H1 & H2 & H3).
  intros s bo. unfold put_leaf. rewrite lookup_insert. case_decide; [|apply Hok].
  intros [= <-]. apply site_ok_spec. intros o Ho.
  rewrite (lookup_total_correct _ _ _ H1), (lookup_total_correct _ _ _ H2).
  pose proof (proj1 (site_ok_spec _) (Hok _ _ H1)) as Hs.
  rewrite lookup_insert. case_decide as Eo.
  - subst o. eexists. split; [reflexivity|].
    intros f Hf. rewrite lookup_insert. case_decide; [eauto|].
    destruct (Hs oper Ho) as (bt & Hbt & Hall).
    rewrite H2 in Hbt. injection Hbt as <-. now apply Hall.
  - apply (Hs o Ho).
Qed.

End Leaves.

Section Accounting.
Context {Ext : Type} {collaborators : Collaborators Ext}.

Lemma state_leaf_eval (w : world Ext) (site oper ft : string) :
  has_leaf (state w) site oper ft ->
  state_leaf site oper ft w = (Ok (stat_leaf (state w) site oper ft), w).
Proof.
  intros H. destruct (stat_leaf_has _ _ _ _ H) as (by_oper & by_type & H1 & H2 & H3).
  unfold state_leaf. now rewrite H1, H2, H3.
Qed.

Lemma add_int_shift (n m : Z) (v : value) :
  add_int 0 v = Ok m -> add_int n v = Ok (n + m).
Proof. destruct v; cbn; intros [= <-]; reflexivity. Qed.

Lemma size_ok_number (r : dict) :
  size_ok (r !! "file_size") = true ->
  exists n, add_int 0 (dict_get r "file_size" (VInt 0)) = Ok n.
Proof.
  unfold dict_get. destruct (r !! "file_size") as [[]|]; cbn; try discriminate; eauto.
Qed.

(** What the statistics block does to the world, for a result whose
    [success] is a boolean and a size that is a number. *)
Lemma update_statistics_run (w : world Ext) (site oper ft : string) (result : dict)
    (l : nat) (start : Q) (b : bool) (n : Z) :
  state_ok (state w) ->
  oper ∈ operations -> ft ∈ filetypes ->
  result !! "success" = Some (VBool b) ->
  add_int 0 (dict_get (heap w !!! l) "file_size" (VInt 0)) = Ok n ->
  exists w',
    update_statistics site oper ft result l start w
    = (Ok (dict_get (heap w !!! l) "file_size" (VInt 0)), w')
    /\ state_ok (state w')
    /\ stat_leaf (state w') site oper ft
       = (let old := stat_leaf (state w) site oper ft in
          if b then
            Leaf (data old + n) (count old + 1)
              (time_taken old + (time_time (ticks w) - start))%Q (failures old)
          else Leaf (data old) (count old) (time_taken old) (failures old + 1))
    /\ (forall s o f, (s, o, f) <> (site, oper, ft) ->
          stat_leaf (state w') s o f = stat_leaf (state w) s o f)
    /\ heap w' = heap w
    /\ transfer_queue w' = transfer_queue w
    /\ compression_queue w' = compression_queue w
    /\ callback_queues w' = callback_queues w
    /\ ticks w' = (if b then S (ticks w) else ticks w).
Proof.
  intros Hok Hoper Hft Hsucc Hsize.
  set (st1 := with_defaults (state w) site).
  assert (Hok1 : state_ok st1) by now apply with_defaults_ok.
  assert (Hleaf1 : has_leaf st1 site oper ft).
  { destruct (with_defaults_present (state w) site) as [by_oper Hs].
    now apply (state_ok_has_leaf _ _ _ _ by_oper). }
  assert (Hold : stat_leaf st1 site oper ft = stat_leaf (state w) site oper ft)
    by apply stat_leaf_with_defaults.
  unfold update_statistics.
  step (set_state_defaults_for_site_ok site w).
  step (deref_total l (set_state (fun st => with_defaults st site) w)).
  cbn [heap set_state].
  unfold subscript. rewrite Hsucc.
  rewrite (bind_ok _ _ _ _ _ (lift_ok _ _)). cbn [truthy].
  destruct b.
  - eexists. split.
    + eapply eq_trans; [apply bind_ok|reflexivity].
      step (state_leaf_eval (set_state (fun st => with_defaults st site) w)
              site oper ft Hleaf1).
      step (state_leaf_set_ok _ _ _ _ _).
      match goal with
      | |- bind (state_leaf _ _ _) _ ?w1 = _ =>
          step (state_leaf_eval w1 site oper ft (has_leaf_put _ _ _ _ _))
      end.
      cbn [state set_state]. rewrite stat_leaf_put_same. cbn [data count time_taken failures].
      rewrite (add_int_shift _ _ _ Hsize).
      rewrite (bind_ok _ _ _ _ _ (lift_ok _ _)).
      step (state_leaf_set_ok _ _ _ _ _).
      match goal with
      | |- bind (state_leaf _ _ _) _ ?w1 = _ =>
          step (state_leaf_eval w1 site oper ft (has_leaf_put _ _ _ _ _))
      end.
      cbn [state set_state]. rewrite stat_leaf_put_same. cbn [data count time_taken failures].
      step (time_ok _).
      reflexivity.
    + cbn [state set_state set_ticks heap transfer_queue compression_queue
           callback_queues ticks state_leaf_set modify fst snd].
      fold st1. rewrite Hold.
      repeat split.
      * repeat (apply put_leaf_ok; [|first [exact Hleaf1 | apply has_leaf_put]]).
        exact Hok1.
      * now rewrite stat_leaf_put_same.
      * intros s o f Hne. rewrite !stat_leaf_put_other by exact Hne.
        apply stat_leaf_with_defaults.
  - eexists. split.
    + eapply eq_trans; [apply bind_ok|reflexivity].
      step (state_leaf_eval (set_state (fun st => with_defaults st site) w)
              site oper ft Hleaf1).
      reflexivity.
    + cbn [state set_state set_ticks heap transfer_queue compression_queue
           callback_queues ticks state_leaf_set modify fst snd].
      fold st1. rewrite Hold.
      repeat split.
      * apply put_leaf_ok; [exact Hok1 | exact Hleaf1].
      * now rewrite stat_leaf_put_same.
      * intros s o f Hne. rewrite !stat_leaf_put_other by exact Hne.
        apply stat_leaf_with_defaults.
Qed.

(** A size that is a number is not negative exactly when [size_nonneg]
    says so. *)
Lemma add_int_nonneg (v : value) (n : Z) :
  add_int 0 v = Ok n -> (0 <= n <-> size_nonneg v = true).
Proof.
  destruct v as [|b|z| | | |]; cbn; try discriminate; intros [= <-].
  - split; [reflexivity | intros _; destruct b; cbn; lia].
  - split; [intros H; apply Z.leb_le; lia | intros H%Z.leb_le; lia].
Qed.

(** C3, amended.  For a request whose operation and filetype have a leaf and
    whose [file_size], if it has one, is a number: on a result with success
    true the leaf of (site, operation, filetype) gets its count raised by
    one, its bytes raised by the size ([file_size], or 0 without one) and its
    time raised by the present clock reading less the one at the start, and
    keeps its failures; the bytes added are not negative exactly when the
    size is not, and the time added is not negative exactly when the clock
    has not gone back since the start.  On a result with success false the
    leaf gets its failures raised by one and keeps count, bytes and time.
    Every other leaf reads as before. *)
Theorem update_statistics_spec (w : world Ext) (site oper ft : string) (result : dict)
    (l : nat) (start : Q) (b : bool) :
  state_ok (state w) ->
  oper ∈ operations -> ft ∈ filetypes ->
  result !! "success" = Some (VBool b) ->
  size_ok ((heap w !!! l) !! "file_size") = true ->
  exists w' oper_size,
    update_statistics site oper ft result l start w = (Ok oper_size, w')
    /\ oper_size = dict_get (heap w !!! l) "file_size" (VInt 0)
    /\ (let old := stat_leaf (state w) site oper ft in
        let new := stat_leaf (state w') site oper ft in
        if b then
          exists (n : Z) (elapsed : Q),
            add_int 0 oper_size = Ok n
            /\ elapsed = (time_time (ticks w) - start)%Q
            /\ new = Leaf (data old + n) (count old + 1)
                       (time_taken old + elapsed)%Q (failures old)
            /\ (0 <= n <-> size_nonneg oper_size = true)
            /\ ((0 <= elapsed)%Q <-> (start <= time_time (ticks w))%Q)
        else
          new = Leaf (data old) (count old) (time_taken old) (failures old + 1))
    /\ forall s o f, (s, o, f) <> (site, oper, ft) ->
         stat_leaf (state w') s o f = stat_leaf (state w) s o f.
Proof.
  intros Hok Hoper Hft Hsucc Hsize.
  destruct (size_ok_number _ Hsize) as (n & Hn).
  destruct (update_statistics_run w site oper ft result l start b n
              Hok Hoper Hft Hsucc Hn) as (w' & Hrun & _ & Hleaf & Hothers & _).
  exists w', (dict_get (heap w !!! l) "file_size" (VInt 0)).
  split; [exact Hrun|]. split; [reflexivity|]. split; [|exact Hothers].
  cbv zeta in *. rewrite Hleaf. destruct b; [|reflexivity].
  exists n, (time_time (ticks w) - start)%Q.
  split; [exact Hn|]. split; [reflexivity|]. split; [reflexivity|].
  split; [now apply add_int_nonneg|].
  symmetry. exact (Qle_minus_iff start (time_time (ticks w))).
Qed.

End Accounting.

(** C3, as the spec has it, fails: nothing in the code keeps [file_size]
    from being negative, and an upload that succeeds with a [file_size] of
    -5 takes five bytes off the leaf while it adds one to its count. *)
Lemma update_statistics_negative_size :
  let r := <["file_size" := VInt (-5)]> Demo.upload_request in
  let w := Demo.agent r Demo.up in
  request_ok r = true
  /\ (run_iteration w).1 = Ok Continue
  /\ data (stat_leaf (state w) "db1" "upload" "xlog") = 0
  /\ data (stat_leaf (state (run_iteration w).2) "db1" "upload" "xlog") = -5
  /\ count (stat_leaf (state (run_iteration w).2) "db1" "upload" "xlog") = 1.
Proof. repeat split; vm_compute; reflexivity. Qed.

Lemma update_statistics_spec_witness :
  exists w' oper_size,
    update_statistics "db1" "upload" "xlog" succeeded 0 0%Q
      (Demo.agent Demo.upload_request Demo.up) = (Ok oper_size, w')
    /\ count (stat_leaf (state w') "db1" "upload" "xlog") = 1.
Proof.
  destruct (update_statistics_spec (Demo.agent Demo.upload_request Demo.up)
              "db1" "upload" "xlog" succeeded 0 0%Q true)
    as (w' & oper_size & Hrun & _ & (n & elapsed & _ & _ & Hleaf & _) & _).
  - intros site by_oper H. vm_compute in H. discriminate H.
  - vm_compute. apply list_elem_of_here.
  - vm_compute. apply list_elem_of_further, list_elem_of_here.
  - reflexivity.
  - vm_compute. reflexivity.
  - exists w', oper_size. split; [exact Hrun|].
    rewrite Hleaf. reflexivity.
Defined.

(** ** The run loop *)

Section Handlers.
Context {Ext : Type} {collaborators : Collaborators Ext}.
Local Open Scope agent_scope.

Lemma sized_lookup (r r' : dict) (k : string) :
  sized r r' -> k <> "file_size" -> r' !! k = r !! k.
Proof.
  intros [->|[n ->]] Hk; [reflexivity|]. now rewrite lookup_insert_ne.
Qed.

Lemma sized_size_ok (r r' : dict) :
  sized r r' -> size_ok (r !! "file_size") = true -> size_ok (r' !! "file_size") = true.
Proof.
  intros [->|[n ->]] H; [exact H|]. now rewrite lookup_insert_eq.
Qed.

Lemma sized_request_ok (r r' : dict) :
  sized r r' -> request_ok r = true -> request_ok r' = true.
Proof.
  intros Hs. unfold request_ok.
  rewrite (sized_lookup r r' "type" Hs), (sized_lookup r r' "local_path" Hs),
    (sized_lookup r r' "site" Hs), !(sized_lookup r r' "filetype" Hs),
    (sized_lookup r r' "callback_queue" Hs) by discriminate.
  destruct (r !! "type") as [[]|]; try discriminate.
  destruct (String.eqb s "QUIT"); [reflexivity|]. cbn [orb].
  destruct (is_str (r !! "local_path") && is_str (r !! "site")
            && is_str (r !! "filetype")); [|discriminate].
  cbn [andb]. destruct (getattr _); [|reflexivity].
  intros [[H1 H2]%andb_true_iff H3]%andb_true_iff.
  now rewrite H1, H3, (sized_size_ok _ _ Hs H2).
Qed.

(** The upload handler always returns, with one of its two results. *)
Lemma handle_upload_total (w : world Ext) (site key : string) (l : nat) (r : dict) :
  heap w !! l = Some r ->
  is_Some (r !! "local_path") ->
  exists res w',
    handle_upload site key l w = (Ok res, w')
    /\ (res = succeeded \/ res = requeued)
    /\ heap w' = heap w
    /\ state w' = state w
    /\ (transfer_queue w' = transfer_queue w
        \/ transfer_queue w' = transfer_queue w ++ [l]).
Proof.
  intros Hl Hp.
  destruct (upload_try site key l w) as [[res|e] w1] eqn:Htry.
  - exists res, w1.
    destruct (untouched_upload_try _ _ _ _ _ _ Htry) as (Hh & Hst & Htq & _).
    pose proof (upload_try_returns _ _ _ _ _ _ Htry) as ->.
    unfold handle_upload, try_except. rewrite Htry.
    repeat (split; [auto|]). now left.
  - destruct (handle_upload_retry w w1 site key l r e Hl Hp Htry)
      as (w' & H & _ & Htq & Hh & Hst & _).
    exists requeued, w'. repeat (split; [auto|]). now right.
Qed.

(** The download handler always returns, with one of its two results, and
    at most sets [file_size] on the request. *)
Lemma handle_download_total (w : world Ext) (site key : string) (l : nat) (r : dict) :
  heap w !! l = Some r ->
  exists res w' r',
    handle_download site key l w = (Ok res, w')
    /\ (res = forwarded \/ res = failed)
    /\ sized r r'
    /\ heap w' = <[l := r']> (heap w)
    /\ state w' = state w
    /\ transfer_queue w' = transfer_queue w.
Proof.
  intros Hl.
  assert (Hid : heap w = <[l := r]> (heap w)) by (symmetry; now apply insert_id).
  unfold handle_download, try_except, download_try.
  destruct (get_object_storage site w) as [[[s|]|e] w0] eqn:Hres;
    destruct (get_object_storage_frame _ _ _ _ Hres) as [t Hw0].
  - step Hres. cbn [method]. unfold call at 1.
    destruct (get_contents_to_string s key (ext w0)) as [[[content metadata]|e] x] eqn:Hfetch.
    + unfold bind at 1. unfold call. rewrite Hfetch.
      unfold setitem, modify. unfold bind at 1.
      assert (Hl' : heap (set_heap (fun h => <[l := <["file_size" :=
                       VInt (Z.of_nat (length content))]> (h !!! l)]> h) (set_ext x w0)) !! l
                    = Some (<["file_size" := VInt (Z.of_nat (length content))]> r)).
      { subst w0. cbn [heap set_heap set_ext set_site_transfers].
        rewrite lookup_insert_eq. now rewrite (lookup_total_correct _ _ _ Hl). }
      assert (Hheap : heap (set_heap (fun h => <[l := <["file_size" :=
                       VInt (Z.of_nat (length content))]> (h !!! l)]> h) (set_ext x w0))
                      = <[l := <["file_size" := VInt (Z.of_nat (length content))]> r]> (heap w)).
      { subst w0. cbn [heap set_heap set_ext set_site_transfers].
        now rewrite (lookup_total_correct _ _ _ Hl). }
      assert (Hk : forall k, k <> "file_size" ->
                (<["file_size" := VInt (Z.of_nat (length content))]> r) !! k = r !! k).
      { intros k Hne. now rewrite lookup_insert_ne. }
      destruct (r !! "callback_queue") as [cb|] eqn:Hcb.
      * step (getitem_ok l "callback_queue" _ _ cb Hl'
                (eq_trans (Hk "callback_queue" ltac:(discriminate)) Hcb)).
        destruct (r !! "target_path") as [tp|] eqn:Htp.
        -- step (getitem_ok l "target_path" _ _ tp Hl'
                   (eq_trans (Hk "target_path" ltac:(discriminate)) Htp)).
           do 3 eexists. split; [reflexivity|].
           split; [now left|]. split; [right; eauto|].
           subst w0. cbn. rewrite (lookup_total_correct _ _ _ Hl). auto.
        -- step_raise (getitem_missing l "target_path" _ _ Hl'
                         (eq_trans (Hk "target_path" ltac:(discriminate)) Htp)).
           do 3 eexists. split; [reflexivity|].
           split; [now right|]. split; [right; eauto|].
           subst w0. cbn. rewrite (lookup_total_correct _ _ _ Hl). auto.
      * step_raise (getitem_missing l "callback_queue" _ _ Hl'
                      (eq_trans (Hk "callback_queue" ltac:(discriminate)) Hcb)).
        do 3 eexists. split; [reflexivity|].
        split; [now right|]. split; [right; eauto|].
        subst w0. cbn. rewrite (lookup_total_correct _ _ _ Hl). auto.
    + unfold bind at 1. unfold call. rewrite Hfetch.
      exists failed, (match e with
                      | FileNotFoundFromStorageError =>
                          set_log (fun l0 => l0 ++ [(WARNING, "%r not found from storage")])
                            (set_ext x w0)
                      | _ => set_log (fun l0 => l0 ++
                               [(ERROR, "Problem happened when downloading: %r, %r")])
                               (set_ext x w0)
                      end), r.
      subst w0. destruct e; (split; [reflexivity|]); (split; [now right|]);
        (split; [now left|]); cbn; auto.
  - step Hres. cbn [method]. unfold raise, bind at 1.
    do 2 eexists. exists r. split; [reflexivity|].
    subst w0. split; [now right|]. split; [now left|]. cbn. auto.
  - step_raise Hres.
    exists failed, (match e with
                    | FileNotFoundFromStorageError =>
                        set_log (fun l0 => l0 ++ [(WARNING, "%r not found from storage")]) w0
                    | _ => set_log (fun l0 => l0 ++
                             [(ERROR, "Problem happened when downloading: %r, %r")]) w0
                    end), r.
    subst w0. destruct e; (split; [reflexivity|]); (split; [now right|]);
      (split; [now left|]); cbn; auto.
Qed.

End Handlers.

Section Loop.
Context {Ext : Type} {collaborators : Collaborators Ext}.
Local Open Scope agent_scope.

Lemma getattr_handle (o : string) (h : handler) :
  getattr ("handle_" +:+ o) = Some h -> o ∈ operations.
Proof.
  unfold getattr, operations.
  destruct (String.eqb_spec ("handle_" +:+ o) "handle_download") as [E|_].
  - intros _. rewrite !PyStrFacts.append_cons, PyStrFacts.append_nil in E.
    injection E as E. subst o. apply list_elem_of_further, list_elem_of_here.
  - destruct (String.eqb_spec ("handle_" +:+ o) "handle_upload") as [E|_]; [|discriminate].
    intros _. rewrite !PyStrFacts.append_cons, PyStrFacts.append_nil in E.
    injection E as E. subst o. apply list_elem_of_here.
Qed.

Lemma result_success (res : dict) :
  res = succeeded \/ res = requeued \/ res = forwarded \/ res = failed ->
  exists b, res !! "success" = Some (VBool b).
Proof. intros [-> | [-> | [-> | ->]]]; eexists; reflexivity. Qed.

(** Pushing a result never raises when the channel, if any, is a queue. *)
Lemma push_result_total (result : dict) (l : nat) (w : world Ext) (r : dict) :
  heap w !! l = Some r ->
  channel_ok (r !! "callback_queue") = true ->
  exists w',
    push_result result l w = (Ok tt, w')
    /\ heap w' = heap w /\ state w' = state w
    /\ transfer_queue w' = transfer_queue w.
Proof.
  intros Hl Hch. unfold push_result.
  step (contains_eval l "callback_queue" w r Hl).
  destruct (truthy (dict_get result "call_callback" (VBool true))); cbn [andb];
    [|exists w; auto].
  destruct (r !! "callback_queue") as [cb|] eqn:Hcb.
  - rewrite bool_decide_eq_true_2 by eauto.
    step (getitem_ok l "callback_queue" w r cb Hl Hcb).
    destruct cb; try discriminate Hch.
    eexists. split; [reflexivity|]. now cbn.
  - rewrite bool_decide_eq_false_2 by (intros [? [=]]). exists w. auto.
Qed.

(** The turn of the loop from the statistics on. *)
Lemma run_tail (w : world Ext) (l : nat) (r : dict) (t site oper ft : string)
    (result : dict) (start : Q) :
  heap w !! l = Some r ->
  r !! "type" = Some (VStr t) ->
  size_ok (r !! "file_size") = true ->
  channel_ok (r !! "callback_queue") = true ->
  state_ok (state w) ->
  oper ∈ operations -> ft ∈ filetypes ->
  (result = succeeded \/ result = requeued \/ result = forwarded \/ result = failed) ->
  exists w',
    (oper_size <- update_statistics site oper ft result l start ;;
     push_result result l ;;;
     getitem l "type" ;;;
     lift (subscript result "success") ;;;
     time ;;;
     logging INFO "%r %stransfer of key: %r, size: %r, took %.3fs" ;;;
     ret Continue) w = (Ok Continue, w')
    /\ state_ok (state w') /\ heap w' = heap w
    /\ transfer_queue w' = transfer_queue w.
Proof.
  intros Hl Ht Hsize Hch Hok Hoper Hft Hres.
  destruct (result_success _ Hres) as [b Hb].
  destruct (size_ok_number _ Hsize) as [n Hn].
  rewrite <- (lookup_total_correct _ _ _ Hl) in Hn.
  destruct (update_statistics_run w site oper ft result l start b n
              Hok Hoper Hft Hb Hn) as (w1 & Hrun & Hok1 & _ & _ & Hh1 & Htq1 & _).
  step Hrun.
  assert (Hl1 : heap w1 !! l = Some r) by now rewrite Hh1.
  destruct (push_result_total result l w1 r Hl1 Hch) as (w2 & Hpush & Hh2 & Hst2 & Htq2).
  step Hpush.
  assert (Hl2 : heap w2 !! l = Some r) by now rewrite Hh2.
  step (getitem_ok l "type" w2 r (VStr t) Hl2 Ht).
  unfold subscript. rewrite Hb. step (lift_ok _ _).
  step (time_ok _). step (logging_ok _ _ _).
  eexists. split; [reflexivity|]. cbn.
  rewrite Hst2, Hh2, Hh1, Htq2, Htq1. auto.
Qed.

Lemma request_ok_inv (r : dict) :
  request_ok r = true ->
  exists t, r !! "type" = Some (VStr t)
    /\ (t = "QUIT"
        \/ (t <> "QUIT"
            /\ exists p s ft,
                r !! "local_path" = Some (VStr p) /\ r !! "site" = Some (VStr s)
                /\ r !! "filetype" = Some (VStr ft)
                /\ forall h, getattr ("handle_" +:+ PyStr.lower t) = Some h ->
                     ft ∈ filetypes /\ size_ok (r !! "file_size") = true
                     /\ channel_ok (r !! "callback_queue") = true)).
Proof.
  unfold request_ok.
  destruct (r !! "type") as [[|?|?|t|?|?|?]|]; try discriminate.
  intros H. exists t. split; [reflexivity|].
  destruct (String.eqb t "QUIT") eqn:E;
    [apply String.eqb_eq in E; now left | apply String.eqb_neq in E; right].
  split; [exact E|]. cbn [orb] in H.
  destruct (r !! "local_path") as [[|?|?|p|?|?|?]|]; try discriminate.
  destruct (r !! "site") as [[|?|?|s|?|?|?]|]; try discriminate.
  destruct (r !! "filetype") as [[|?|?|ft|?|?|?]|]; try discriminate.
  exists p, s, ft. do 3 (split; [reflexivity|]).
  intros h Hh. rewrite Hh in H. cbn [is_str andb] in H.
  apply andb_true_iff in H as [[H1 H2]%andb_true_iff H3].
  split; [now apply bool_decide_eq_true_1 in H1 | split; assumption].
Qed.

Lemma queue_ok_insert (h : gmap nat dict) (q : list nat) (l : nat) (r' : dict) :
  Forall (fun l' => exists r, h !! l' = Some r /\ request_ok r = true) q ->
  request_ok r' = true ->
  Forall (fun l' => exists r, <[l := r']> h !! l' = Some r /\ request_ok r = true) q.
Proof.
  intros Hq Hr. eapply Forall_impl; [exact Hq|].
  intros l' (r & Hl' & Hok). cbn. rewrite lookup_insert. case_decide; eauto.
Qed.

(** One turn of the loop on a well-formed world returns, and leaves a
    well-formed world; it breaks the loop exactly on a QUIT request. *)
Lemma run_iteration_ok (w : world Ext) :
  world_ok w ->
  exists f w',
    run_iteration w = (Ok f, w') /\ world_ok w'
    /\ (f = Break <->
        exists l rest r, transfer_queue w = l :: rest /\ heap w !! l = Some r
                         /\ r !! "type" = Some (VStr "QUIT")).
Proof.
  intros [Hst Hq]. unfold run_iteration.
  destruct (transfer_queue w) as [|l rest] eqn:Hqueue.
  - assert (Hget : transfer_queue_get w = (Ok None, w)).
    { unfold transfer_queue_get. now rewrite Hqueue. }
    step Hget. exists Continue, w. split; [reflexivity|].
    split; [split; [exact Hst | now rewrite Hqueue]|].
    split; [discriminate | intros (? & ? & ? & [=] & _)].
  - apply Forall_cons in Hq as [(r & Hl & Hr) Hrest].
    assert (Hget : transfer_queue_get w
                   = (Ok (Some l), set_transfer_queue (fun _ => rest) w)).
    { unfold transfer_queue_get. now rewrite Hqueue. }
    step Hget.
    set (wa := set_transfer_queue (fun _ => rest) w).
    assert (Hla : heap wa !! l = Some r) by exact Hl.
    destruct (request_ok_inv r Hr) as (t & Ht & Hcase).
    step (getitem_ok l "type" wa r (VStr t) Hla Ht). cbn [eq_str].
    destruct Hcase as [->|(Hne & p & s & ft & Hp & Hs & Hft & Hh)].
    + cbn [String.eqb Ascii.eqb Bool.eqb andb].
      exists Break, wa. split; [reflexivity|].
      split; [split; [exact Hst | exact Hrest]|].
      split; [intros _; exists l, rest, r; auto | reflexivity].
    + rewrite (proj2 (String.eqb_neq _ _) Hne).
      assert (Hnobreak : forall f, f = Continue ->
                (f = Break <-> exists l0 rest0 r0, l :: rest = l0 :: rest0
                                 /\ heap w !! l0 = Some r0
                                 /\ r0 !! "type" = Some (VStr "QUIT"))).
      { intros f ->. split; [discriminate|].
        intros (l0 & rest0 & r0 & [= <- <-] & Hl0 & Ht0).
        rewrite Hl in Hl0. injection Hl0 as <-. congruence. }
      step (getitem_ok l "type" wa r (VStr t) Hla Ht).
      step (getitem_ok l "local_path" wa r (VStr p) Hla Hp).
      step (logging_ok _ _ _). step (time_ok _).
      match goal with |- context [bind (deref l) _ ?w0] => set (wb := w0) end.
      assert (Hlb : heap wb !! l = Some r) by exact Hl.
      step (deref_ok l wb r Hlb).
      rewrite (form_key_path_eval r s ft p Hs Hft Hp).
      match goal with |- context [lift (Ok ?k)] => set (key := k) end.
      step (lift_ok _ _).
      step (getitem_ok l "type" wb r (VStr t) Hlb Ht).
      cbn [lower]. step (lift_ok _ _). cbn [str_add]. step (lift_ok _ _).
      destruct (getattr ("handle_" +:+ PyStr.lower t)) as [h|] eqn:Hattr.
      * destruct (Hh h eq_refl) as (Hftok & Hsize & Hch).
        pose proof (getattr_handle _ _ Hattr) as Hoper.
        step (getitem_ok l "site" wb r (VStr s) Hlb Hs).
        step (getitem_ok l "filetype" wb r (VStr ft) Hlb Hft).
        cbn [as_str]. do 3 step (lift_ok _ _).
        assert (Hhandled : exists res wh r',
                   oper_func h s key l wb = (Ok res, wh)
                   /\ (res = succeeded \/ res = requeued \/ res = forwarded \/ res = failed)
                   /\ sized r r'
                   /\ heap wh = <[l := r']> (heap w)
                   /\ state wh = state w
                   /\ (transfer_queue wh = rest \/ transfer_queue wh = rest ++ [l])).
        { destruct h; cbn [oper_func].
          - destruct (handle_download_total wb s key l r Hlb)
              as (res & wh & r' & H & Hres & Hsz & Hheap & Hstate & Htq).
            exists res, wh, r'. split; [exact H|].
            split; [destruct Hres; auto|]. repeat (split; [assumption|]). now left.
          - destruct (handle_upload_total wb s key l r Hlb (ex_intro _ _ Hp))
              as (res & wh & H & Hres & Hheap & Hstate & Htq).
            exists res, wh, r. split; [exact H|].
            split; [destruct Hres; auto|]. split; [now left|].
            split; [rewrite Hheap; symmetry; now apply insert_id|].
            split; [exact Hstate|exact Htq]. }
        destruct Hhandled as (res & wh & r' & H & Hres & Hsz & Hheap & Hstate & Htq).
        step H.
        assert (Hlh : heap wh !! l = Some r') by (rewrite Hheap; apply lookup_insert_eq).
        assert (Hr' : request_ok r' = true) by now apply (sized_request_ok r).
        destruct (run_tail wh l r' t s (PyStr.lower t) ft res (time_time (ticks w)) Hlh)
          as (w' & Hrun & Hok' & Hheap' & Htq'); try assumption.
        -- now rewrite (sized_lookup r r' "type" Hsz).
        -- now apply (sized_size_ok r).
        -- now rewrite (sized_lookup r r' "callback_queue" Hsz).
        -- now rewrite Hstate.
        -- exists Continue, w'. split; [exact Hrun|].
           split; [|now apply Hnobreak].
           split; [exact Hok'|]. rewrite Hheap', Hheap, Htq'.
              destruct Htq as [-> | ->].
              ** now apply queue_ok_insert.
              ** apply Forall_app. split; [now apply queue_ok_insert|].
                 constructor; [|constructor].
                 exists r'. rewrite lookup_insert_eq. auto.
      * step (getitem_ok l "type" wb r (VStr t) Hlb Ht).
        step (logging_ok _ _ _).
        eexists Continue, _. split; [reflexivity|].
        split; [split; [exact Hst | exact Hrest]|].
        now apply Hnobreak.
Qed.

End Loop.

(** ** Scenarios

    The agent run on the concrete world of [Demo]. *)

(** An upload of an xlog file to a backend that is up: one callback with
    success, the leaf (db1, upload, xlog) counts one transfer of three
    bytes, the file and its metadata sidecar are gone, and the object is in
    the store. *)
Example upload_scenario :
  let w' := (run_iteration (Demo.agent Demo.upload_request Demo.up)).2 in
  callback_queues w' !! 0%nat = Some [succeeded]
  /\ stat_leaf (state w') "db1" "upload" "xlog" = Leaf 3 1 (0 + (1 - 0))%Q 0
  /\ Demo.files (ext w') = ∅
  /\ Demo.objects (ext w') !! Demo.xlog_key = Some (Demo.content, ∅)
  /\ transfer_queue w' = [].
Proof. vm_compute. repeat split. Qed.

(** A backend that refuses two store calls and then accepts: the request goes
    round the queue twice, nothing is lost, and the caller hears of it once,
    when it has succeeded. *)
Example retry_scenario :
  let w' := (run 3 (Demo.agent Demo.upload_request (Demo.down 2))).2 in
  callback_queues w' !! 0%nat = Some [succeeded]
  /\ stat_leaf (state w') "db1" "upload" "xlog" = Leaf 3 1 (0 + (7 - 6))%Q 2
  /\ slept w' = [1 # 2; 1 # 2]
  /\ Demo.objects (ext w') !! Demo.xlog_key = Some (Demo.content, ∅)
  /\ transfer_queue w' = [].
Proof. vm_compute. repeat split. Qed.

(** A download of a key the store does not have: a callback with failure,
    nothing on the compression queue, one failure counted. *)
Example download_missing_scenario :
  let w' := (run_iteration (Demo.agent Demo.download_request Demo.up)).2 in
  callback_queues w' !! 0%nat = Some [failed]
  /\ compression_queue w' = []
  /\ stat_leaf (state w') "db1" "download" "xlog" = Leaf 0 0 0 1
  /\ transfer_queue w' = [].
Proof. vm_compute. repeat split. Qed.

(** A download of a key the store has: the message goes on, the caller is
    not told by this agent, three bytes are counted. *)
Example download_scenario :
  let w' := (run_iteration (Demo.agent Demo.download_request Demo.stocked)).2 in
  callback_queues w' !! 0%nat = None
  /\ compression_queue w'
     = [decompression Demo.content ∅ (VQueue 0)
          (VStr "/restore/000000010000000000000001") "db1"]
  /\ count (stat_leaf (state w') "db1" "download" "xlog") = 1
  /\ data (stat_leaf (state w') "db1" "download" "xlog") = 3.
Proof. vm_compute. repeat split. Qed.

(** A request with an operation the agent does not have is dropped. *)
Example unknown_operation_scenario :
  let r := run_iteration (Demo.agent (<["type" := VStr "RESTORE"]> Demo.upload_request) Demo.up) in
  r.1 = Ok Continue /\ state r.2 = ∅ /\ transfer_queue r.2 = [].
Proof. vm_compute. repeat split. Qed.

(** A QUIT request ends the loop. *)
Example quit_scenario :
  (run 10 (Demo.agent (<["type" := VStr "QUIT"]> ∅) Demo.up)).1 = Ok (Some tt).
Proof. vm_compute. reflexivity. Qed.

(** * More on the module *)

(** ** Key naming: what the name can be *)

Module KeyFacts.
Import PyStr OsPath PyStrFacts OsPathFacts.

Lemma rfind_none (c : ascii) (s : string) : rfind c s < 0 -> rfind c s = -1.
Proof. pose proof (rfind_lower c s). lia. Qed.

(** What follows the last [c] has no [c]. *)
Lemma drop_after_last (c : ascii) (s : string) :
  has_char c (drop (Z.to_nat (rfind c s + 1)) s) = false.
Proof.
  induction s as [|a s IH]; [reflexivity|].
  cbn [rfind]. destruct (0 <=? rfind c s) eqn:E.
  - apply Z.leb_le in E.
    replace (Z.to_nat (rfind c s + 1 + 1)) with (S (Z.to_nat (rfind c s + 1))) by lia.
    exact IH.
  - apply Z.leb_gt in E. rewrite (rfind_none _ _ E) in IH.
    change (Z.to_nat (-1 + 1)) with 0%nat in IH.
    assert (Hs : has_char c s = false) by (destruct s; exact IH).
    destruct (Ascii.eqb a c) eqn:Ea.
    + change (Z.to_nat (0 + 1)) with 1%nat. cbn [drop]. destruct s; exact Hs.
    + change (Z.to_nat (-1 + 1)) with 0%nat. cbn [drop has_char].
      now rewrite Ea, Hs.
Qed.

Lemma basename_no_slash (p : string) : has_char slash (basename p) = false.
Proof. apply drop_after_last. Qed.

Lemma take_no_char (c : ascii) (n : nat) (s : string) :
  has_char c s = false -> has_char c (take n s) = false.
Proof.
  revert n. induction s as [|a s IH]; intros [|n] H; try reflexivity.
  cbn [take has_char] in *. apply orb_false_iff in H as [Ha Hs].
  now rewrite Ha, (IH n Hs).
Qed.

Lemma splitext_loop_some (p : string) (d fi n : nat) (r : string * string) :
  splitext_loop p d fi n = Some r -> r = (take d p, drop d p).
Proof.
  revert fi. induction n as [|n IH]; intros fi; [discriminate|].
  cbn [splitext_loop]. destruct (negb _); [now intros [= <-] | apply IH].
Qed.

(** The root [splitext] returns is the path or a prefix of it. *)
Lemma splitext_root (p : string) :
  (splitext p).1 = p \/ exists n, (splitext p).1 = take n p.
Proof.
  unfold splitext. destruct (rfind slash p <? rfind dot p); [|now left].
  destruct (splitext_loop _ _ _ _) as [r|] eqn:E; [|now left].
  right. rewrite (splitext_loop_some _ _ _ _ _ E). eauto.
Qed.

Lemma splitext_no_slash (b : string) :
  has_char slash b = false -> has_char slash (splitext b).1 = false.
Proof.
  intros H. destruct (splitext_root b) as [-> | [n ->]]; [exact H|].
  now apply take_no_char.
Qed.

Lemma all_char_snoc (c : ascii) (s : string) :
  all_char c s = true -> String c s = s +:+ String c "".
Proof.
  induction s as [|a s IH]; [reflexivity|].
  cbn [all_char]. intros [Ha Hs]%andb_true_iff. apply Ascii.eqb_eq in Ha. subst a.
  rewrite append_cons. now rewrite <- (IH Hs).
Qed.

(** A name that has dots only at its start has no extension. *)
Lemma splitext_leading_dots (dots rest : string) :
  all_char dot dots = true -> has_char slash rest = false ->
  has_char dot rest = false ->
  splitext (dots +:+ rest) = (dots +:+ rest, "").
Proof.
  intros Hdots Hslash Hdot. destruct dots as [|a d1].
  - rewrite append_nil. now apply splitext_plain.
  - cbn [all_char] in Hdots. apply andb_true_iff in Hdots as [Ha Hd1].
    apply Ascii.eqb_eq in Ha. subst a.
    rewrite (all_char_snoc _ _ Hd1), append_assoc, append_cons, append_nil.
    unfold splitext. rewrite (rfind_last _ _ _ Hdot).
    assert (Hnone : has_char slash (d1 +:+ String dot rest) = false).
    { rewrite has_char_app. cbn [has_char]. rewrite Hslash.
      assert (H : forall s, all_char dot s = true -> has_char slash s = false).
      { induction s as [|a s IH]; [reflexivity|]. cbn [all_char has_char].
        intros [Ha Hs]%andb_true_iff. apply Ascii.eqb_eq in Ha. subst a.
        now rewrite (IH Hs). }
      now rewrite (H _ Hd1). }
    rewrite (rfind_absent slash _ Hnone).
    replace (-1 <? Z.of_nat (String.length d1)) with true
      by (symmetry; apply Z.ltb_lt; lia).
    cbv zeta. rewrite Nat2Z.id. change (Z.to_nat (-1 + 1)) with 0%nat.
    rewrite Nat.sub_0_r.
    pose proof (splitext_loop_scan "" d1 (String dot rest) (String.length d1)) as H.
    rewrite append_nil in H. change (String.length "") with 0%nat in H.
    now rewrite H, Hd1.
Qed.

Lemma dirname_plain (p : string) : has_char slash p = false -> dirname p = "".
Proof.
  intros H. unfold dirname. rewrite (rfind_absent _ _ H).
  change (Z.to_nat (-1 + 1)) with 0%nat. now destruct p.
Qed.

Lemma rstrip_no_char (c : ascii) (s : string) :
  has_char c s = false -> rstrip c s = s.
Proof.
  induction s as [|a s IH]; [reflexivity|].
  cbn [has_char rstrip]. intros [Ha Hs]%orb_false_iff.
  rewrite (IH Hs), Ha. now destruct s.
Qed.

End KeyFacts.

Section KeyNames.
Import PyStr OsPath PyStrFacts OsPathFacts KeyFacts.

(** X1.  The name that [form_key_path] puts after site and filetype never
    has a slash in it. *)
Theorem form_key_path_name_no_slash (r : dict) (site filetype local_path : string) :
  r !! "site" = Some (VStr site) ->
  r !! "filetype" = Some (VStr filetype) ->
  r !! "local_path" = Some (VStr local_path) ->
  exists name,
    form_key_path r = Ok (site +:+ "/" +:+ filetype +:+ "/" +:+ name)
    /\ has_char slash name = false.
Proof.
  intros Hs Hf Hp. rewrite (form_key_path_eval r _ _ _ Hs Hf Hp).
  eexists. split; [reflexivity|].
  destruct (String.eqb filetype "basebackup").
  - apply basename_no_slash.
  - apply splitext_no_slash, basename_no_slash.
Qed.

Lemma form_key_path_name_no_slash_witness :
  exists name,
    form_key_path Demo.upload_request = Ok ("db1/xlog/" +:+ name)
    /\ has_char slash name = false.
Proof.
  destruct (form_key_path_name_no_slash Demo.upload_request "db1" "xlog" Demo.xlog_path
              eq_refl eq_refl eq_refl) as (name & H & Hname).
  exists name. split; [exact H | exact Hname].
Defined.

Ltac finish :=
  repeat split; intros;
  first [ discriminate | reflexivity
        | match goal with H : exists _, _ |- _ => destruct H; discriminate end
        | match goal with H : is_Some None |- _ => destruct H; discriminate end
        | eauto ].

(** X2.  [form_key_path] returns a key only if [filetype], [local_path]
    and [site] are all there.  A missing [filetype] is the first thing it
    reports, whatever else is missing; then a missing [local_path], whatever
    the filetype is; then, for a local path that is a string, a missing
    [site]. *)
Theorem form_key_path_missing_field (r : dict) :
  (forall key, form_key_path r = Ok key ->
     is_Some (r !! "filetype") /\ is_Some (r !! "local_path")
     /\ is_Some (r !! "site"))
  /\ (r !! "filetype" = None -> form_key_path r = Raise (KeyError "filetype"))
  /\ (is_Some (r !! "filetype") -> r !! "local_path" = None ->
      form_key_path r = Raise (KeyError "local_path"))
  /\ (is_Some (r !! "filetype") -> is_str (r !! "local_path") = true ->
      r !! "site" = None -> form_key_path r = Raise (KeyError "site")).
Proof.
  unfold form_key_path, subscript.
  destruct (r !! "filetype") as [vf|]; cbn [obind is_str].
  2:{ finish. }
  set (name := if eq_str vf "basebackup" then _ else _).
  assert (Hname : match r !! "local_path" with
                  | None => name = Raise (KeyError "local_path")
                  | Some (VStr p) => exists n, name = Ok (VStr n)
                  | Some (VBytes b) => exists n, name = Ok (VBytes n)
                  | Some _ => name = Raise TypeError
                  end).
  { subst name. destruct (r !! "local_path") as [[]|], (eq_str vf "basebackup");
      cbn [obind os_path_call]; eauto. }
  clearbody name.
  destruct (r !! "local_path") as [vp|]; cbn [is_str].
  2:{ rewrite Hname. cbn [obind]. finish. }
  destruct vp; first [rewrite Hname | destruct Hname as [n ->]]; cbn [obind is_str];
    try (finish; fail).
  all: destruct (r !! "site") as [vs|]; cbn [obind is_str andb]; try (finish; fail).
Qed.

Lemma form_key_path_missing_field_witness :
  form_key_path (delete "filetype" Demo.upload_request) = Raise (KeyError "filetype").
Proof.
  destruct (form_key_path_missing_field (delete "filetype" Demo.upload_request))
    as (_ & H & _).
  apply H. reflexivity.
Defined.

(** X3.  For a filetype other than basebackup, a file name with no dot, or
    with dots only at its start, is the name in the key as it is, with or
    without a directory in front. *)
Theorem form_key_path_no_extension (r : dict) (site filetype d dots rest : string) :
  r !! "site" = Some (VStr site) ->
  r !! "filetype" = Some (VStr filetype) ->
  filetype <> "basebackup" ->
  all_char dot dots = true ->
  has_char slash rest = false -> has_char dot rest = false ->
  form_key_path (<["local_path" := VStr (d +:+ "/" +:+ dots +:+ rest)]> r)
  = Ok (site +:+ "/" +:+ filetype +:+ "/" +:+ dots +:+ rest)
  /\ form_key_path (<["local_path" := VStr (dots +:+ rest)]> r)
     = Ok (site +:+ "/" +:+ filetype +:+ "/" +:+ dots +:+ rest).
Proof.
  intros Hs Hf Hne Hdots Hslash Hdot. apply String.eqb_neq in Hne.
  assert (Hname : has_char slash (dots +:+ rest) = false).
  { rewrite has_char_app, Hslash, orb_false_r.
    clear -Hdots. induction dots as [|a s IH]; [reflexivity|].
    cbn [all_char has_char] in *. apply andb_true_iff in Hdots as [Ha Hd].
    apply Ascii.eqb_eq in Ha. subst a. now rewrite (IH Hd). }
  split.
  - rewrite (form_key_path_eval _ site filetype (d +:+ "/" +:+ dots +:+ rest));
      rewrite ?lookup_insert_eq, ?lookup_insert_ne by discriminate; try done.
    rewrite Hne, (basename_join _ _ Hname).
    now rewrite (splitext_leading_dots _ _ Hdots Hslash Hdot).
  - rewrite (form_key_path_eval _ site filetype (dots +:+ rest));
      rewrite ?lookup_insert_eq, ?lookup_insert_ne by discriminate; try done.
    rewrite Hne, (basename_plain _ Hname).
    now rewrite (splitext_leading_dots _ _ Hdots Hslash Hdot).
Qed.

Lemma form_key_path_no_extension_witness :
  form_key_path (<["local_path" := VStr "/data/000000010000000000000001"]> Demo.upload_request)
  = Ok "db1/xlog/000000010000000000000001".
Proof.
  destruct (form_key_path_no_extension Demo.upload_request "db1" "xlog" "/data" ""
              "000000010000000000000001" eq_refl eq_refl) as [H _];
    [discriminate | reflexivity | reflexivity | reflexivity |].
  exact H.
Defined.

(** X4.  For a basebackup whose local path has no directory to name it, a
    bare file name or a file directly under the root, the name in the key is
    empty. *)
Theorem form_key_path_basebackup_no_directory (r : dict) (site f : string) :
  r !! "site" = Some (VStr site) ->
  r !! "filetype" = Some (VStr "basebackup") ->
  has_char slash f = false ->
  form_key_path (<["local_path" := VStr f]> r) = Ok (site +:+ "/basebackup/")
  /\ form_key_path (<["local_path" := VStr ("/" +:+ f)]> r)
     = Ok (site +:+ "/basebackup/").
Proof.
  intros Hs Hf Hslash. split.
  - rewrite (form_key_path_eval _ site "basebackup" f);
      rewrite ?lookup_insert_eq, ?lookup_insert_ne by discriminate; try done.
    cbn [String.eqb Ascii.eqb Bool.eqb]. now rewrite (dirname_plain _ Hslash).
  - rewrite (form_key_path_eval _ site "basebackup" ("/" +:+ f));
      rewrite ?lookup_insert_eq, ?lookup_insert_ne by discriminate; try done.
    cbn [String.eqb Ascii.eqb Bool.eqb].
    change ("/" +:+ f) with ("" +:+ "/" +:+ f).
    now rewrite (dirname_join "" f Hslash).
Qed.

Lemma form_key_path_basebackup_no_directory_witness :
  form_key_path (<["local_path" := VStr "base.tar.gz"]>
                   (<["filetype" := VStr "basebackup"]> Demo.upload_request))
  = Ok "db1/basebackup/".
Proof.
  destruct (form_key_path_basebackup_no_directory
              (<["filetype" := VStr "basebackup"]> Demo.upload_request)
              "db1" "base.tar.gz") as [H _]; [vm_compute; reflexivity ..|].
  exact H.
Defined.

End KeyNames.

(** ** The factory and the cache: what else they do *)

Section FactoryMore.

Ltac in_list :=
  repeat first [apply list_elem_of_here | apply list_elem_of_further].

(** X5.  A key that the provider neither requires nor reads with a default
    makes no difference to the factory: the outcome is the same with or
    without it, whatever its value. *)
Theorem get_object_storage_transfer_ignores (key k : string) (v : value) (value : dict) :
  k ∉ required_keys key -> k ∉ optional_keys key ->
  get_object_storage_transfer key (<[k := v]> value)
  = get_object_storage_transfer key value.
Proof.
  unfold get_object_storage_transfer, required_keys, optional_keys, subscript, dict_get.
  intros Hreq Hopt.
  destruct (String.eqb key "azure");
    [|destruct (String.eqb key "google"); [|destruct (String.eqb key "s3")]];
    repeat (rewrite lookup_insert_ne;
            [|intros ->; solve [apply Hreq; in_list | apply Hopt; in_list]]);
    reflexivity.
Qed.

Lemma get_object_storage_transfer_ignores_witness :
  get_object_storage_transfer "s3" (<["bucket" := VStr "typo"]> Demo.s3_config)
  = get_object_storage_transfer "s3" Demo.s3_config.
Proof.
  apply get_object_storage_transfer_ignores.
  - vm_compute. intros H. repeat (apply elem_of_cons in H as [H|H]; [discriminate H|]).
    now apply elem_of_nil in H.
  - vm_compute. intros H. repeat (apply elem_of_cons in H as [H|H]; [discriminate H|]).
    now apply elem_of_nil in H.
Defined.

End FactoryMore.

Section RegistryMore.
Context {Ext : Type} {collaborators : Collaborators Ext}.

Lemma get_object_storage_items_app (site : string) (a b : list (string * dict)) :
  forall storage (w : world Ext),
    get_object_storage_items site (a ++ b) storage w
    = match get_object_storage_items site a storage w with
      | (Ok storage', w1) => get_object_storage_items site b storage' w1
      | (Raise e, w1) => (Raise e, w1)
      end.
Proof.
  induction a as [|[k v] a IH]; intros storage w; [reflexivity|].
  cbn [app get_object_storage_items]. unfold bind, lift, modify.
  destruct (get_object_storage_transfer k v); [apply IH | reflexivity].
Qed.

Lemma get_object_storage_items_others (site site' : string)
    (items : list (string * dict)) :
  site' <> site ->
  forall storage (w : world Ext) o w',
    get_object_storage_items site items storage w = (o, w') ->
    site_transfers w' !! site' = site_transfers w !! site'.
Proof.
  intros Hne. induction items as [|[k v] items IH]; intros storage w o w' H.
  - now injection H as _ <-.
  - cbn [get_object_storage_items] in H. unfold bind, lift, modify in H.
    destruct (get_object_storage_transfer k v) as [s|e].
    + rewrite (IH _ _ _ _ H). cbn. now apply lookup_insert_ne.
    + now injection H as _ <-.
Qed.

Lemma get_object_storage_items_cached (site : string) (items : list (string * dict)) :
  forall storage (w : world Ext) s w',
    get_object_storage_items site items storage w = (Ok (Some s), w') ->
    (items = [] /\ storage = Some s) \/ site_transfers w' !! site = Some s.
Proof.
  induction items as [|[k v] items IH]; intros storage w s w' H.
  - injection H as -> _. now left.
  - right. cbn [get_object_storage_items] in H. unfold bind, lift, modify in H.
    destruct (get_object_storage_transfer k v) as [s1|e]; [|discriminate].
    destruct (IH _ _ _ _ H) as [[-> [= <-]] | Hc]; [|exact Hc].
    injection H as <-. cbn. apply lookup_insert_eq.
Qed.

(** X6.  A backend that a resolution returns is the one in the cache from
    then on: whatever the configuration becomes, the next resolution of the
    site returns the same backend and changes nothing. *)
Theorem get_object_storage_cached (w w' : world Ext) (site : string) (s : transfer) :
  get_object_storage site w = (Ok (Some s), w') ->
  site_transfers w' !! site = Some s
  /\ forall c : configuration,
       get_object_storage site (set_config c w') = (Ok (Some s), set_config c w').
Proof.
  intros H.
  assert (Hc : site_transfers w' !! site = Some s).
  { unfold get_object_storage in H.
    destruct (site_transfers w !! site) as [s0|] eqn:E.
    - now injection H as <- <-.
    - destruct (backup_sites (config w)) as [sites|]; [|discriminate].
      destruct (sites !! site) as [sc|]; [|discriminate].
      destruct (get_object_storage_items_cached _ _ _ _ _ _ H) as [[_ [=]] | Hc].
      exact Hc. }
  split; [exact Hc|]. intros c. unfold get_object_storage.
  cbn [site_transfers set_config]. now rewrite Hc.
Qed.

(** X7.  When an entry of the provider mapping fails to construct after
    others have constructed, the resolution raises that entry's error, but
    the backend of the entry just before it stays in the cache: the next
    resolution returns that backend and raises nothing. *)
Theorem get_object_storage_partial_failure (w : world Ext) (site : string)
    (sites : gmap string site_config) (sc : site_config)
    (init rest : list (string * dict)) (k0 k : string) (v0 v : dict)
    (s0 : transfer) (e : exn) :
  site_transfers w !! site = None ->
  backup_sites (config w) = Some sites ->
  sites !! site = Some sc ->
  object_storage sc = Some (init ++ [(k0, v0)] ++ (k, v) :: rest) ->
  Forall constructs init ->
  get_object_storage_transfer k0 v0 = Ok s0 ->
  get_object_storage_transfer k v = Raise e ->
  let w' := set_site_transfers (fun t => <[site := s0]> t) w in
  get_object_storage site w = (Raise e, w')
  /\ get_object_storage site w' = (Ok (Some s0), w').
Proof.
  intros Hmiss Hsites Hsite Hcfg Hinit Hk0 Hk w'. split.
  - unfold get_object_storage. rewrite Hmiss, Hsites, Hsite, Hcfg. cbn [default id].
    rewrite app_assoc, get_object_storage_items_app.
    rewrite (get_object_storage_items_last site init k0 v0 s0 Hinit Hk0).
    cbn [get_object_storage_items]. unfold bind, lift. now rewrite Hk.
  - unfold get_object_storage.
    replace (site_transfers w' !! site) with (Some s0); [reflexivity|].
    symmetry. apply lookup_insert_eq.
Qed.

(** X8.  Resolving a site changes the cache entry of that site at most: the
    cached backend of every other site, and everything else in the agent, is
    as before, whether the resolution returns or raises. *)
Theorem get_object_storage_other_sites (w w' : world Ext) (site : string)
    (o : outcome (option transfer)) :
  get_object_storage site w = (o, w') ->
  (forall site', site' <> site ->
     site_transfers w' !! site' = site_transfers w !! site')
  /\ w' = set_site_transfers (fun _ => site_transfers w') w.
Proof.
  intros H. split.
  - intros site' Hne. unfold get_object_storage in H.
    destruct (site_transfers w !! site); [now injection H as _ <-|].
    destruct (backup_sites (config w)) as [sites|]; [|now injection H as _ <-].
    destruct (sites !! site) as [sc|]; [|now injection H as _ <-].
    now apply (get_object_storage_items_others site site' _ Hne _ _ _ _ H).
  - destruct (get_object_storage_frame _ _ _ _ H) as [t ->]. reflexivity.
Qed.

End RegistryMore.

Lemma get_object_storage_cached_witness :
  let w := Demo.agent Demo.upload_request Demo.up in
  get_object_storage "db1"
    (set_config (Configuration None) (get_object_storage "db1" w).2)
  = (Ok (Some (S3Transfer (VStr "AKIA") (VStr "secret") (VStr "") (VStr "backups")
                 VNone VNone (VBool false))),
     set_config (Configuration None) (get_object_storage "db1" w).2).
Proof.
  intros w.
  destruct (get_object_storage_cached w (get_object_storage "db1" w).2 "db1"
              (S3Transfer (VStr "AKIA") (VStr "secret") (VStr "") (VStr "backups")
                 VNone VNone (VBool false))) as [_ H];
    [vm_compute; reflexivity|].
  apply H.
Defined.

Lemma get_object_storage_partial_failure_witness :
  let w := init (Demo.config_of (Some [("s3", Demo.s3_config); ("swift", ∅)]))
             [] [] ∅ ∅ Demo.up in
  (get_object_storage "db1" w).1 = Raise (InvalidConfigurationError "swift")
  /\ (get_object_storage "db1" (get_object_storage "db1" w).2).1
     = Ok (Some (S3Transfer (VStr "AKIA") (VStr "secret") (VStr "") (VStr "backups")
                   VNone VNone (VBool false))).
Proof.
  intros w.
  destruct (get_object_storage_partial_failure w "db1"
              (<["db1" := SiteConfig (Some [("s3", Demo.s3_config); ("swift", ∅)])]> ∅)
              (SiteConfig (Some [("s3", Demo.s3_config); ("swift", ∅)]))
              [] [] "s3" "swift" Demo.s3_config ∅
              (S3Transfer (VStr "AKIA") (VStr "secret") (VStr "") (VStr "backups")
                 VNone VNone (VBool false))
              (InvalidConfigurationError "swift")) as [H1 H2];
    try (vm_compute; reflexivity); [constructor|].
  rewrite H1. cbn [fst snd]. rewrite H2. split; reflexivity.
Defined.

Lemma get_object_storage_other_sites_witness :
  let w := Demo.agent Demo.upload_request Demo.up in
  site_transfers (get_object_storage "db1" w).2 !! "db2" = None.
Proof.
  intros w.
  destruct (get_object_storage_other_sites w (get_object_storage "db1" w).2 "db1"
              (get_object_storage "db1" w).1) as [H _].
  - now destruct (get_object_storage "db1" w).
  - rewrite (H "db2"); [reflexivity | discriminate].
Defined.

(** ** Frames by view: what a computation does not change *)

Section SameFrames.
Context {Ext X : Type} {collaborators : Collaborators Ext}.
Context (view : world Ext -> X).

#[global] Instance same_preorder : PreOrder (same view).
Proof.
  split.
  - intros w. reflexivity.
  - intros w1 w2 w3 H12 H23. unfold same in *. congruence.
Qed.

Lemma same_modify (f : world Ext -> world Ext) :
  (forall w, view (f w) = view w) -> keeps (same view) (modify f).
Proof. intros H w o w' [= _ <-]. apply H. Qed.

Lemma same_pure {A} (g : world Ext -> outcome A) :
  keeps (same view) (fun w => (g w, w)).
Proof. intros w o w' [= _ <-]. reflexivity. Qed.

Lemma same_state_leaf (site oper ft : string) :
  keeps (same view) (state_leaf site oper ft).
Proof.
  intros w o w' H. unfold state_leaf in H.
  destruct (state w !! site) as [by_oper|]; [|now injection H as _ <-].
  destruct (by_oper !! oper) as [by_type|]; [|now injection H as _ <-].
  destruct (by_type !! ft); now injection H as _ <-.
Qed.

Lemma same_call {A} (f : Ext -> outcome A * Ext) :
  (forall x w, view (set_ext x w) = view w) -> keeps (same view) (call f).
Proof.
  intros H w o w' E. unfold call in E. destruct (f (ext w)) as [o' x].
  injection E as _ <-. apply H.
Qed.

Lemma same_time :
  (forall n w, view (set_ticks n w) = view w) -> keeps (same view) time.
Proof. intros H w o w' [= _ <-]. apply H. Qed.

Lemma same_get_object_storage (site : string) :
  (forall t w, view (set_site_transfers (fun _ => t) w) = view w) ->
  keeps (same view) (get_object_storage site).
Proof.
  intros H w o w' E. destruct (get_object_storage_frame _ _ _ _ E) as [t ->].
  apply H.
Qed.

Lemma same_transfer_queue_get :
  (forall q w, view (set_transfer_queue (fun _ => q) w) = view w) ->
  keeps (same view) transfer_queue_get.
Proof.
  intros H w o w' E. unfold transfer_queue_get in E.
  destruct (transfer_queue w); injection E as _ <-; [reflexivity | apply H].
Qed.

Lemma same_put (queue : value) (item : dict) :
  (forall f w, view (set_callback_queues f w) = view w) ->
  keeps (same view) (put queue item).
Proof.
  intros H. destruct queue; try apply (keeps_raise (same view)).
  apply same_modify. intros w. apply H.
Qed.

End SameFrames.

(** Proves [keeps (same view) m] for a computation made of the operations of
    the agent, when none of them writes what [view] shows. *)
Ltac same_frame :=
  repeat
    match goal with
    | |- keeps ?R _ =>
        first
          [ apply (keeps_ret R) | apply (keeps_raise R) | apply (keeps_lift R)
          | apply same_pure | apply same_state_leaf
          | apply same_modify; intros; reflexivity
          | apply same_call; intros; reflexivity
          | apply same_time; intros; reflexivity
          | apply same_get_object_storage; intros; reflexivity
          | apply same_transfer_queue_get; intros; reflexivity
          | apply same_put; intros; reflexivity
          | apply (keeps_method R); intros ?
          | apply (keeps_try_except R); [|intros ?]
          | apply (keeps_bind R); [|intros ?] ]
    | |- keeps _ (if ?b then _ else _) => destruct b
    | |- keeps _ (match ?x with _ => _ end) => destruct x
    end.

Section SameHandlers.
Context {Ext : Type} {collaborators : Collaborators Ext}.

Lemma handle_upload_same_ticks (site key : string) (l : nat) :
  keeps (same (@ticks Ext)) (handle_upload site key l).
Proof. unfold handle_upload, upload_try, cleanup_try. same_frame. Qed.

Lemma handle_download_same_ticks (site key : string) (l : nat) :
  keeps (same (@ticks Ext)) (handle_download site key l).
Proof. unfold handle_download, download_try. same_frame. Qed.

End SameHandlers.

(** ** The statistics entry of a site *)

Section DefaultsMore.
Context {Ext : Type} {collaborators : Collaborators Ext}.

(** X9.  [set_state_defaults_for_site] never resets a counter: every leaf
    reads after it as it read before (zero for a site not yet seen).  On
    well-shaped statistics it leaves well-shaped statistics in which the site
    has a leaf for both operations and all three filetypes, and calling it
    again changes nothing. *)
Theorem set_state_defaults_for_site_keeps (w : world Ext) (site : string) :
  state_ok (state w) ->
  let w' := (set_state_defaults_for_site site w).2 in
  (set_state_defaults_for_site site w).1 = Ok tt
  /\ state_ok (state w')
  /\ (forall oper ft, oper ∈ operations -> ft ∈ filetypes ->
        has_leaf (state w') site oper ft)
  /\ (forall s o f, stat_leaf (state w') s o f = stat_leaf (state w) s o f)
  /\ (set_state_defaults_for_site site w').2 = w'.
Proof.
  intros Hok w'. subst w'. rewrite set_state_defaults_for_site_ok. cbn [fst snd].
  split; [reflexivity|]. cbn [state set_state].
  split; [now apply with_defaults_ok|].
  split; [|split].
  - intros oper ft Ho Hf.
    destruct (with_defaults_present (state w) site) as [by_oper Hs].
    apply (state_ok_has_leaf _ _ _ _ by_oper); auto using with_defaults_ok.
  - intros s o f. apply stat_leaf_with_defaults.
  - rewrite set_state_defaults_for_site_ok. cbn [snd].
    unfold set_state. cbn. f_equal.
    unfold with_defaults at 1.
    destruct (with_defaults_present (state w) site) as [by_oper Hs]. now rewrite Hs.
Qed.

End DefaultsMore.

Lemma set_state_defaults_for_site_keeps_witness :
  let w := Demo.agent Demo.upload_request Demo.up in
  has_leaf (state (set_state_defaults_for_site "db1" w).2) "db1" "upload" "xlog".
Proof.
  intros w.
  destruct (set_state_defaults_for_site_keeps w "db1") as (_ & _ & H & _).
  - intros site by_oper E. vm_compute in E. discriminate E.
  - apply H.
    + apply list_elem_of_here.
    + apply list_elem_of_further, list_elem_of_here.
Defined.

(** ** The loop: what it leaves alone, and how it ends *)

Section RunMore.
Context {Ext : Type} {collaborators : Collaborators Ext}.
Local Open Scope agent_scope.

Lemma run_iteration_same_flags : keeps (same flags) run_iteration.
Proof.
  unfold run_iteration, update_statistics, push_result, getitem, contains,
    logging, state_leaf_set, set_state_defaults_for_site.
  same_frame.
  all: match goal with |- keeps _ (oper_func ?h _ _ _) => destruct h end.
  all: unfold oper_func, handle_download, download_try, handle_upload, upload_try,
         cleanup_try, getitem, contains, logging, setitem, compression_queue_put,
         sleep, transfer_queue_put.
  all: same_frame.
Qed.

(** X10.  Nothing in [run] writes the [running] flag or the configuration:
    however the loop ends, by QUIT, by the flag, by an exception or by being
    cut short, both are as they were at the start.  In particular a QUIT
    request leaves [running] true. *)
Theorem run_keeps_flags (fuel : nat) :
  forall (w w' : world Ext) (o : outcome (option unit)),
    run fuel w = (o, w') -> running w' = running w /\ config w' = config w.
Proof.
  assert (Hquit : forall (w w' : world Ext) (o : outcome (option unit)),
            (logging INFO "Quitting TransferAgent" ;;; ret (Some tt)) w = (o, w') ->
            running w' = running w /\ config w' = config w).
  { intros w w' o [= _ <-]. split; reflexivity. }
  induction fuel as [|fuel IH]; intros w w' o; cbn [run].
  - destruct (running w) eqn:Hr; intros H.
    + injection H as _ <-. now rewrite Hr.
    + destruct (Hquit _ _ _ H) as [E1 E2]. now rewrite E1, E2, Hr.
  - destruct (running w) eqn:Hr.
    2:{ intros H. destruct (Hquit _ _ _ H) as [E1 E2]. now rewrite E1, E2, Hr. }
    destruct (run_iteration w) as [[[]|e] w1] eqn:Hit; intros H;
      pose proof (run_iteration_same_flags _ _ _ Hit) as [= Hr1 Hc1].
    + destruct (IH _ _ _ H) as [E1 E2]. now rewrite E1, E2, Hr1, Hc1, Hr.
    + destruct (Hquit _ _ _ H) as [E1 E2]. now rewrite E1, E2, Hr1, Hc1, Hr.
    + injection H as _ <-. now rewrite Hr1, Hc1, Hr.
Qed.

(** X11.  With nothing on the transfer queue the loop idles: a turn returns
    without touching anything, not even the clock or the log, and [run] goes
    on for as long as it is let. *)
Theorem run_idle (fuel : nat) (w : world Ext) :
  running w = true -> transfer_queue w = [] ->
  run_iteration w = (Ok Continue, w) /\ run fuel w = (Ok None, w).
Proof.
  intros Hr Hq.
  assert (Hit : run_iteration w = (Ok Continue, w)).
  { unfold run_iteration, bind, transfer_queue_get. now rewrite Hq. }
  split; [exact Hit|].
  induction fuel as [|fuel IH]; cbn [run]; rewrite Hr; [reflexivity|].
  now rewrite Hit.
Qed.

(** X12.  A cleared [running] flag ends [run] before anything is taken from
    the queue, whatever is on it: [run] logs that it quits and returns.  With
    the flag set, a QUIT request at the head of the queue ends [run] at
    once: the requests behind it stay on the queue in their order, and the
    statistics, the request dicts, the callback and compression queues, the
    clock and the surroundings are not touched.  QUIT needs no other
    field. *)
Theorem run_quit (fuel : nat) (w : world Ext) :
  let bye := set_log (fun lg => lg ++ [(INFO, "Quitting TransferAgent")]) in
  (running w = false -> run fuel w = (Ok (Some tt), bye w))
  /\ (forall (l : nat) (rest : list nat) (r : dict),
        running w = true ->
        transfer_queue w = l :: rest ->
        heap w !! l = Some r ->
        r !! "type" = Some (VStr "QUIT") ->
        run (S fuel) w
        = (Ok (Some tt), bye (set_transfer_queue (fun _ => rest) w))).
Proof.
  intros bye. split.
  - intros Hr. destruct fuel; cbn [run]; now rewrite Hr.
  - intros l rest r Hr Hq Hl Ht. cbn [run]. rewrite Hr.
    assert (Hit : run_iteration w = (Ok Break, set_transfer_queue (fun _ => rest) w)).
    { unfold run_iteration.
      assert (Hget : transfer_queue_get w
                     = (Ok (Some l), set_transfer_queue (fun _ => rest) w)).
      { unfold transfer_queue_get. now rewrite Hq. }
      step Hget.
      step (getitem_ok l "type" (set_transfer_queue (fun _ => rest) w) r
              (VStr "QUIT") Hl Ht).
      reflexivity. }
    now rewrite Hit.
Qed.

(** A turn of the loop on a request whose operation the agent does not
    have. *)
Lemma run_iteration_invalid (w : world Ext) (l : nat) (rest : list nat)
    (r : dict) (t p s ft : string) :
  transfer_queue w = l :: rest ->
  heap w !! l = Some r ->
  r !! "type" = Some (VStr t) -> t <> "QUIT" ->
  r !! "local_path" = Some (VStr p) ->
  r !! "site" = Some (VStr s) ->
  r !! "filetype" = Some (VStr ft) ->
  getattr ("handle_" +:+ PyStr.lower t) = None ->
  exists w',
    run_iteration w = (Ok Continue, w')
    /\ transfer_queue w' = rest
    /\ state w' = state w /\ heap w' = heap w
    /\ callback_queues w' = callback_queues w
    /\ compression_queue w' = compression_queue w
    /\ site_transfers w' = site_transfers w
    /\ ext w' = ext w
    /\ log w' = log w ++ [(DEBUG, "Starting to %r %r, size: %r");
                           (WARNING, "Invalid operation %r")].
Proof.
  intros Hq Hl Ht Hne Hp Hs Hft Hattr. unfold run_iteration.
  assert (Hget : transfer_queue_get w
                 = (Ok (Some l), set_transfer_queue (fun _ => rest) w)).
  { unfold transfer_queue_get. now rewrite Hq. }
  step Hget.
  set (wa := set_transfer_queue (fun _ => rest) w).
  assert (Hla : heap wa !! l = Some r) by exact Hl.
  step (getitem_ok l "type" wa r (VStr t) Hla Ht). cbn [eq_str].
  rewrite (proj2 (String.eqb_neq _ _) Hne).
  step (getitem_ok l "type" wa r (VStr t) Hla Ht).
  step (getitem_ok l "local_path" wa r (VStr p) Hla Hp).
  step (logging_ok _ _ _). step (time_ok _).
  match goal with |- context [bind (deref l) _ ?w0] => set (wb := w0) end.
  assert (Hlb : heap wb !! l = Some r) by exact Hl.
  step (deref_ok l wb r Hlb).
  rewrite (form_key_path_eval r s ft p Hs Hft Hp). step (lift_ok _ _).
  step (getitem_ok l "type" wb r (VStr t) Hlb Ht).
  cbn [lower]. step (lift_ok _ _). cbn [str_add]. step (lift_ok _ _).
  rewrite Hattr.
  step (getitem_ok l "type" wb r (VStr t) Hlb Ht).
  step (logging_ok _ _ _).
  eexists. split; [reflexivity|]. cbn.
  repeat (split; [reflexivity|]). now rewrite <- app_assoc.
Qed.

(** X13.  A request whose operation the agent does not have is dropped when
    its other fields are strings: the turn returns, the request is off the
    queue, and it is neither counted in the statistics nor reported to its
    callback queue, nor does the backend or the file system see anything of
    it. *)
Theorem run_iteration_unknown_operation (w : world Ext) (l : nat) (rest : list nat)
    (r : dict) (t p s ft : string) :
  transfer_queue w = l :: rest ->
  heap w !! l = Some r ->
  r !! "type" = Some (VStr t) -> t <> "QUIT" ->
  r !! "local_path" = Some (VStr p) ->
  r !! "site" = Some (VStr s) ->
  r !! "filetype" = Some (VStr ft) ->
  getattr ("handle_" +:+ PyStr.lower t) = None ->
  exists w',
    run_iteration w = (Ok Continue, w')
    /\ transfer_queue w' = rest
    /\ state w' = state w /\ heap w' = heap w
    /\ callback_queues w' = callback_queues w
    /\ compression_queue w' = compression_queue w
    /\ site_transfers w' = site_transfers w
    /\ ext w' = ext w
    /\ log w' = log w ++ [(DEBUG, "Starting to %r %r, size: %r");
                           (WARNING, "Invalid operation %r")].
Proof. apply run_iteration_invalid. Qed.

End RunMore.

Lemma run_keeps_flags_witness :
  running (run 3 (Demo.agent (<["type" := VStr "QUIT"]> ∅) Demo.up)).2 = true.
Proof.
  destruct (run_keeps_flags 3 (Demo.agent (<["type" := VStr "QUIT"]> ∅) Demo.up)
              (run 3 (Demo.agent (<["type" := VStr "QUIT"]> ∅) Demo.up)).2
              (run 3 (Demo.agent (<["type" := VStr "QUIT"]> ∅) Demo.up)).1) as [H _].
  - now destruct (run 3 _).
  - rewrite H. reflexivity.
Defined.

Lemma run_idle_witness :
  let w := init (Demo.config_of None) [] [] ∅ ∅ Demo.up in
  run 7 w = (Ok None, w).
Proof.
  intros w. destruct (run_idle 7 w eq_refl eq_refl) as [_ H]. exact H.
Defined.

Lemma run_quit_witness :
  let w := init (Demo.config_of None) [] [0; 1]%nat
             (<[0%nat := <["type" := VStr "QUIT"]> ∅]> ∅) ∅ Demo.up in
  transfer_queue (run 1 w).2 = [1%nat].
Proof.
  intros w.
  destruct (run_quit 0 w) as [_ H].
  rewrite (H 0%nat [1%nat] (<["type" := VStr "QUIT"]> ∅)); reflexivity.
Defined.

Lemma run_iteration_unknown_operation_witness :
  let w := Demo.agent (<["type" := VStr "RESTORE"]> Demo.upload_request) Demo.up in
  callback_queues (run_iteration w).2 = ∅.
Proof.
  intros w.
  destruct (run_iteration_unknown_operation w 0 []
              (<["type" := VStr "RESTORE"]> Demo.upload_request)
              "RESTORE" Demo.xlog_path "db1" "xlog")
    as (w' & H & _ & _ & _ & Hcb & _);
    [vm_compute; reflexivity | vm_compute; reflexivity | vm_compute; reflexivity
    | discriminate | vm_compute; reflexivity | vm_compute; reflexivity
    | vm_compute; reflexivity | vm_compute; reflexivity |].
  rewrite H. exact Hcb.
Defined.

(** ** The handlers: every way they end *)

Section UploadMore.
Context {Ext : Type} {collaborators : Collaborators Ext}.
Local Open Scope agent_scope.

Lemma handle_upload_bystanders (site key : string) (l : nat) :
  keeps (same bystanders) (handle_upload site key l).
Proof. unfold handle_upload, upload_try, cleanup_try. same_frame. Qed.

Lemma handle_download_bystanders (site key : string) (l : nat) :
  keeps (same bystanders) (handle_download site key l).
Proof. unfold handle_download, download_try. same_frame. Qed.

(** The two ways [handle_upload] ends. *)
Lemma handle_upload_ends (w : world Ext) (site key : string) (l : nat) (r : dict) :
  heap w !! l = Some r ->
  is_Some (r !! "local_path") ->
  exists res w',
    handle_upload site key l w = (Ok res, w')
    /\ heap w' = heap w /\ state w' = state w
    /\ compression_queue w' = compression_queue w
    /\ callback_queues w' = callback_queues w
    /\ ticks w' = ticks w
    /\ ((res = succeeded /\ transfer_queue w' = transfer_queue w
         /\ slept w' = slept w)
        \/ (res = requeued /\ transfer_queue w' = transfer_queue w ++ [l]
            /\ slept w' = slept w ++ [1 # 2])).
Proof.
  intros Hl Hp.
  destruct (upload_try site key l w) as [[res|e] w1] eqn:Htry.
  - exists res, w1.
    destruct (untouched_upload_try _ _ _ _ _ _ Htry)
      as (Hh & Hst & Htq & Hcq & Hcb & _ & _ & Hsl).
    pose proof (upload_try_returns _ _ _ _ _ _ Htry) as ->.
    assert (H : handle_upload site key l w = (Ok succeeded, w1)).
    { unfold handle_upload, try_except. now rewrite Htry. }
    pose proof (handle_upload_bystanders _ _ _ _ _ _ H) as [= _ _ Ht _ _].
    repeat (split; [assumption|]). left. auto.
  - destruct (handle_upload_retry w w1 site key l r e Hl Hp Htry)
      as (w' & H & Hsl & Htq & Hh & Hst & Hcq & Hcb & _).
    pose proof (handle_upload_bystanders _ _ _ _ _ _ H) as [= _ _ Ht _ _].
    exists requeued, w'. repeat (split; [assumption|]). right. auto.
Qed.

(** X14.  [handle_upload] on a request that has a [local_path] never raises.
    It returns [{"success": True}], with the transfer queue and the record of
    sleeps as they were, or [{"success": False, "call_callback": False}],
    with the request appended to the transfer queue after one sleep of half
    a second.  Either way it writes neither the request dicts nor the
    statistics, the compression queue, the callback queues or the clock. *)
Theorem handle_upload_outcomes (w : world Ext) (site key : string) (l : nat) (r : dict) :
  heap w !! l = Some r ->
  is_Some (r !! "local_path") ->
  exists res w',
    handle_upload site key l w = (Ok res, w')
    /\ heap w' = heap w /\ state w' = state w
    /\ compression_queue w' = compression_queue w
    /\ callback_queues w' = callback_queues w
    /\ ticks w' = ticks w
    /\ ((res = succeeded /\ transfer_queue w' = transfer_queue w
         /\ slept w' = slept w)
        \/ (res = requeued /\ transfer_queue w' = transfer_queue w ++ [l]
            /\ slept w' = slept w ++ [1 # 2])).
Proof. apply handle_upload_ends. Qed.

(** The inner [try] of [handle_upload] never lets an exception out. *)
Lemma cleanup_swallowed (w : world Ext) (l : nat) (r : dict) :
  heap w !! l = Some r ->
  is_Some (r !! "local_path") ->
  exists w',
    try_except (cleanup_try l)
      (fun _ => getitem l "local_path" ;;; logging ERROR "Problem in deleting file: %r") w
    = (Ok tt, w')
    /\ untouched w w'.
Proof.
  intros Hl [p Hp]. unfold try_except.
  destruct (cleanup_try l w) as [[[]|e] w1] eqn:Hc;
    pose proof (untouched_cleanup_try _ _ _ _ Hc) as Hu.
  - exists w1. auto.
  - assert (Hl1 : heap w1 !! l = Some r).
    { destruct Hu as (Hh & _). now rewrite Hh. }
    step (getitem_ok l "local_path" w1 r p Hl1 Hp).
    eexists. split; [reflexivity|].
    destruct Hu as (?&?&?&?&?&?&?&?). now repeat split.
Qed.

(** X15.  Once the store from disk has succeeded the upload has succeeded:
    whatever the removal of the local files does, fail or not, the handler
    returns [{"success": True}] and neither sleeps nor puts the request back
    on the queue. *)
Theorem handle_upload_cleanup_failure (w w0 : world Ext) (site key : string) (l : nat)
    (r : dict) (s : transfer) (local_path metadata : value) (x : Ext) :
  heap w !! l = Some r ->
  r !! "blob" = None ->
  r !! "local_path" = Some local_path ->
  r !! "metadata" = Some metadata ->
  get_object_storage site w = (Ok (Some s), w0) ->
  store_file_from_disk s key local_path metadata (ext w0) = (Ok tt, x) ->
  exists w',
    handle_upload site key l w = (Ok succeeded, w')
    /\ transfer_queue w' = transfer_queue w
    /\ slept w' = slept w
    /\ heap w' = heap w.
Proof.
  intros Hl Hb Hp Hm Hres Hstore.
  destruct (get_object_storage_frame _ _ _ _ Hres) as [t Hw0].
  assert (Hl0 : heap w0 !! l = Some r) by now subst w0.
  assert (Hl1 : heap (set_ext x w0) !! l = Some r) by exact Hl0.
  destruct (cleanup_swallowed (set_ext x w0) l r Hl1 (ex_intro _ _ Hp))
    as (w2 & Hclean & Hu).
  assert (Htry : upload_try site key l w = (Ok succeeded, w2)).
  { unfold upload_try. step Hres. step (contains_eval l "blob" w0 r Hl0).
    rewrite Hb, bool_decide_eq_false_2 by (intros [? [=]]).
    cbn [method].
    assert (Hst : (local_path0 <- getitem l "local_path" ;;
                   metadata0 <- getitem l "metadata" ;;
                   call (store_file_from_disk s key local_path0 metadata0)) w0
                  = (Ok tt, set_ext x w0)).
    { step (getitem_ok l "local_path" w0 r local_path Hl0 Hp).
      step (getitem_ok l "metadata" w0 r metadata Hl0 Hm).
      unfold call. now rewrite Hstore. }
    eapply eq_trans; [apply bind_ok; step Hst; exact Hclean | reflexivity]. }
  exists w2. unfold handle_upload, try_except. rewrite Htry.
  split; [reflexivity|].
  destruct Hu as (Hh & _ & Htq & _ & _ & _ & _ & Hsl).
  subst w0. cbn in *. auto.
Qed.

(** X16.  An upload from memory touches no local file: when the store
    succeeds the handler returns [{"success": True}] in the world the
    resolution of the site left, with the surroundings as the store call
    left them; nothing is unlinked or removed. *)
Theorem handle_upload_from_memory (w w0 : world Ext) (site key : string) (l : nat)
    (r : dict) (s : transfer) (blob metadata : value) (x : Ext) :
  heap w !! l = Some r ->
  r !! "blob" = Some blob ->
  r !! "metadata" = Some metadata ->
  get_object_storage site w = (Ok (Some s), w0) ->
  store_file_from_memory s key blob metadata (ext w0) = (Ok tt, x) ->
  handle_upload site key l w = (Ok succeeded, set_ext x w0).
Proof.
  intros Hl Hb Hm Hres Hstore.
  destruct (get_object_storage_frame _ _ _ _ Hres) as [t Hw0].
  assert (Hl0 : heap w0 !! l = Some r) by now subst w0.
  unfold handle_upload, try_except, upload_try.
  step Hres. step (contains_eval l "blob" w0 r Hl0).
  rewrite Hb, bool_decide_eq_true_2 by eauto. cbn [method].
  assert (Hst : (blob0 <- getitem l "blob" ;;
                 metadata0 <- getitem l "metadata" ;;
                 call (store_file_from_memory s key blob0 metadata0)) w0
                = (Ok tt, set_ext x w0)).
  { step (getitem_ok l "blob" w0 r blob Hl0 Hb).
    step (getitem_ok l "metadata" w0 r metadata Hl0 Hm).
    unfold call. now rewrite Hstore. }
  now step Hst.
Qed.

(** X17.  An upload whose site has no backend, because the resolution raises
    (a site that the configuration does not have, a provider that does not
    construct) or because the site has no provider at all, is not dropped
    and not reported: it is put back on the queue like any failed upload. *)
Theorem handle_upload_no_backend (w w0 : world Ext) (site key : string) (l : nat)
    (r : dict) (o : outcome (option transfer)) :
  heap w !! l = Some r ->
  is_Some (r !! "local_path") ->
  get_object_storage site w = (o, w0) ->
  (forall s, o <> Ok (Some s)) ->
  exists w',
    handle_upload site key l w = (Ok requeued, w')
    /\ transfer_queue w' = transfer_queue w ++ [l]
    /\ slept w' = slept w ++ [1 # 2]
    /\ ext w' = ext w.
Proof.
  intros Hl Hp Hres Hno.
  destruct (get_object_storage_frame _ _ _ _ Hres) as [t Hw0].
  assert (Hl0 : heap w0 !! l = Some r) by now subst w0.
  assert (Htry : exists e, upload_try site key l w = (Raise e, w0)).
  { unfold upload_try. destruct o as [[s|]|e].
    - now destruct (Hno s).
    - exists AttributeError. step Hres. step (contains_eval l "blob" w0 r Hl0).
      now destruct (bool_decide _).
    - exists e. now step_raise Hres. }
  destruct Htry as [e Htry].
  destruct (handle_upload_retry w w0 site key l r e Hl Hp Htry)
    as (w' & H & Hsl & Htq & _).
  exists w'. repeat (split; [assumption|]).
  unfold handle_upload, try_except in H. rewrite Htry in H.
  destruct Hp as [p Hp].
  rewrite (bind_ok _ _ _ _ _ (getitem_ok l "local_path" w0 r p Hl0 Hp)) in H.
  injection H as <-. now subst w0.
Qed.

Lemma cleanup_try_ext (w : world Ext) (l : nat) (r : dict) (filetype : value)
    (p : string) :
  heap w !! l = Some r ->
  r !! "filetype" = Some filetype ->
  r !! "local_path" = Some (VStr p) ->
  ext (try_except (cleanup_try l)
         (fun _ => getitem l "local_path" ;;;
                   logging ERROR "Problem in deleting file: %r") w).2
  = cleaned filetype p (ext w).
Proof.
  intros Hl Hf Hp. unfold try_except, cleanup_try, cleaned.
  step (getitem_ok l "filetype" w r filetype Hl Hf).
  destruct (eq_str filetype "basebackup").
  - step (getitem_ok l "local_path" w r (VStr p) Hl Hp).
    cbn [os_path_call]. step (lift_ok _ _). step (logging_ok _ _ _).
    match goal with |- context [bind (getitem l "local_path") _ ?w0] => set (w1 := w0) end.
    assert (Hl1 : heap w1 !! l = Some r) by exact Hl.
    step (getitem_ok l "local_path" w1 r (VStr p) Hl1 Hp).
    cbn [os_path_call]. step (lift_ok _ _). unfold call. cbn [ext w1 set_log].
    destruct (shutil_rmtree (VStr (OsPath.dirname p)) (ext w)) as [[[]|e] x']; cbn [snd].
    + reflexivity.
    + match goal with |- context [bind (getitem l "local_path") _ ?w0] => set (w2 := w0) end.
      assert (Hl2 : heap w2 !! l = Some r) by exact Hl.
      now step (getitem_ok l "local_path" w2 r (VStr p) Hl2 Hp).
  - step (getitem_ok l "local_path" w r (VStr p) Hl Hp).
    step (logging_ok _ _ _).
    match goal with |- context [bind (getitem l "local_path") _ ?w0] => set (w1 := w0) end.
    assert (Hl1 : heap w1 !! l = Some r) by exact Hl.
    step (getitem_ok l "local_path" w1 r (VStr p) Hl1 Hp).
    unfold call at 1. unfold bind at 1. cbn [ext w1 set_log].
    destruct (os_unlink (VStr p) (ext w)) as [[[]|e] x'].
    + match goal with |- context [bind (getitem l "local_path") _ ?w0] => set (w2 := w0) end.
      assert (Hl2 : heap w2 !! l = Some r) by exact Hl.
      step (getitem_ok l "local_path" w2 r (VStr p) Hl2 Hp).
      cbn [add_str]. step (lift_ok _ _). unfold bind at 1. cbn [ext w2 set_ext].
      destruct (os_path_exists (VStr (p +:+ ".metadata")) x').
      * unfold call. change (ext w2) with x'.
        destruct (os_unlink (VStr (p +:+ ".metadata")) x') as [[[]|e] x'']; cbn [snd].
        -- reflexivity.
        -- match goal with |- context [bind (getitem l "local_path") _ ?w0] =>
             set (w3 := w0) end.
           assert (Hl3 : heap w3 !! l = Some r) by exact Hl.
           now step (getitem_ok l "local_path" w3 r (VStr p) Hl3 Hp).
      * reflexivity.
    + match goal with |- context [bind (getitem l "local_path") _ ?w0] => set (w2 := w0) end.
      assert (Hl2 : heap w2 !! l = Some r) by exact Hl.
      now step (getitem_ok l "local_path" w2 r (VStr p) Hl2 Hp).
Qed.

(** X18.  After a store from disk that succeeded, the local files are
    removed by these calls and no others: for a basebackup one [rmtree] of
    the directory of the local path; otherwise one [unlink] of the local path
    and then, only if that went well and the sidecar exists, one [unlink] of
    the local path with [.metadata] appended.  The store's own effect apart,
    the surroundings are what these calls leave. *)
Theorem handle_upload_removes (w w0 : world Ext) (site key : string) (l : nat)
    (r : dict) (s : transfer) (filetype metadata : value) (p : string) (x : Ext) :
  heap w !! l = Some r ->
  r !! "blob" = None ->
  r !! "filetype" = Some filetype ->
  r !! "local_path" = Some (VStr p) ->
  r !! "metadata" = Some metadata ->
  get_object_storage site w = (Ok (Some s), w0) ->
  store_file_from_disk s key (VStr p) metadata (ext w0) = (Ok tt, x) ->
  (handle_upload site key l w).1 = Ok succeeded
  /\ ext (handle_upload site key l w).2 = cleaned filetype p x.
Proof.
  intros Hl Hb Hf Hp Hm Hres Hstore.
  destruct (get_object_storage_frame _ _ _ _ Hres) as [t Hw0].
  assert (Hl0 : heap w0 !! l = Some r) by now subst w0.
  assert (Hl1 : heap (set_ext x w0) !! l = Some r) by exact Hl0.
  destruct (cleanup_swallowed (set_ext x w0) l r Hl1 (ex_intro _ _ Hp))
    as (w2 & Hclean & _).
  pose proof (cleanup_try_ext (set_ext x w0) l r filetype p Hl1 Hf Hp) as Hext.
  rewrite Hclean in Hext. cbn [snd ext set_ext] in Hext.
  assert (Htry : upload_try site key l w = (Ok succeeded, w2)).
  { unfold upload_try. step Hres. step (contains_eval l "blob" w0 r Hl0).
    rewrite Hb, bool_decide_eq_false_2 by (intros [? [=]]).
    cbn [method].
    assert (Hst : (local_path0 <- getitem l "local_path" ;;
                   metadata0 <- getitem l "metadata" ;;
                   call (store_file_from_disk s key local_path0 metadata0)) w0
                  = (Ok tt, set_ext x w0)).
    { step (getitem_ok l "local_path" w0 r (VStr p) Hl0 Hp).
      step (getitem_ok l "metadata" w0 r metadata Hl0 Hm).
      unfold call. now rewrite Hstore. }
    eapply eq_trans; [apply bind_ok; step Hst; exact Hclean | reflexivity]. }
  unfold handle_upload, try_except. rewrite Htry. now split.
Qed.

End UploadMore.

Section DownloadMore.
Context {Ext : Type} {collaborators : Collaborators Ext}.
Local Open Scope agent_scope.

Lemma handle_download_retry_record (site key : string) (l : nat) :
  keeps (same retry_record) (handle_download site key l).
Proof. unfold handle_download, download_try. same_frame. Qed.

(** The two ways [handle_download] ends. *)
Lemma handle_download_cases (w : world Ext) (site key : string) (l : nat) (r : dict) :
  heap w !! l = Some r ->
  exists w',
    (handle_download site key l w = (Ok failed, w')
     /\ compression_queue w' = compression_queue w
     /\ exists r', sized r r' /\ heap w' = <[l := r']> (heap w))
    \/ (exists content metadata callback_queue target_path,
          handle_download site key l w = (Ok forwarded, w')
          /\ r !! "callback_queue" = Some callback_queue
          /\ r !! "target_path" = Some target_path
          /\ compression_queue w'
             = compression_queue w
               ++ [decompression content metadata callback_queue target_path site]
          /\ heap w'
             = <[l := <["file_size" := VInt (Z.of_nat (length content))]> r]> (heap w)).
Proof.
  intros Hl.
  assert (Hid : heap w = <[l := r]> (heap w)) by (symmetry; now apply insert_id).
  assert (Hk : forall (k : string) (n : Z) (o : option value), k <> "file_size" ->
            r !! k = o -> (<["file_size" := VInt n]> r) !! k = o).
  { intros k n o Hne <-. now apply lookup_insert_ne. }
  destruct (get_object_storage site w) as [[[s|]|e] w0] eqn:Hres;
    destruct (get_object_storage_frame _ _ _ _ Hres) as [t Hw0].
  - destruct (get_contents_to_string s key (ext w0)) as [[[content metadata]|e] x] eqn:Hfetch.
    + destruct (r !! "callback_queue") as [cb|] eqn:Hcb.
      * destruct (r !! "target_path") as [tp|] eqn:Htp.
        -- eexists. right. exists content, metadata, cb, tp.
           unfold handle_download, try_except, download_try.
           step Hres. cbn [method]. unfold call at 1. unfold bind at 1.
           rewrite Hfetch. unfold setitem, modify. unfold bind at 1.
           match goal with |- context [bind (getitem l "callback_queue") _ ?w1] =>
             set (wa := w1) end.
           assert (Hla : heap wa !! l
                         = Some (<["file_size" := VInt (Z.of_nat (length content))]> r)).
           { subst wa w0. cbn [heap set_heap set_ext set_site_transfers].
             rewrite lookup_insert_eq. now rewrite (lookup_total_correct _ _ _ Hl). }
           step (getitem_ok l "callback_queue" wa _ cb Hla
                   (Hk "callback_queue" _ _ ltac:(discriminate) Hcb)).
           step (getitem_ok l "target_path" wa _ tp Hla
                   (Hk "target_path" _ _ ltac:(discriminate) Htp)).
           split; [reflexivity|]. do 2 (split; [reflexivity|]).
           subst wa w0. cbn. split; [reflexivity|].
           now rewrite (lookup_total_correct _ _ _ Hl).
        -- eexists. left.
           unfold handle_download, try_except, download_try.
           step Hres. cbn [method]. unfold call at 1. unfold bind at 1.
           rewrite Hfetch. unfold setitem, modify. unfold bind at 1.
           match goal with |- context [bind (getitem l "callback_queue") _ ?w1] =>
             set (wa := w1) end.
           assert (Hla : heap wa !! l
                         = Some (<["file_size" := VInt (Z.of_nat (length content))]> r)).
           { subst wa w0. cbn [heap set_heap set_ext set_site_transfers].
             rewrite lookup_insert_eq. now rewrite (lookup_total_correct _ _ _ Hl). }
           step (getitem_ok l "callback_queue" wa _ cb Hla
                   (Hk "callback_queue" _ _ ltac:(discriminate) Hcb)).
           step_raise (getitem_missing l "target_path" wa _ Hla
                         (Hk "target_path" _ _ ltac:(discriminate) Htp)).
           split; [reflexivity|]. split; [now subst wa w0|].
           eexists. split; [right; eauto|].
           subst wa w0. cbn. now rewrite (lookup_total_correct _ _ _ Hl).
      * eexists. left.
        unfold handle_download, try_except, download_try.
        step Hres. cbn [method]. unfold call at 1. unfold bind at 1.
        rewrite Hfetch. unfold setitem, modify. unfold bind at 1.
        match goal with |- context [bind (getitem l "callback_queue") _ ?w1] =>
          set (wa := w1) end.
        assert (Hla : heap wa !! l
                      = Some (<["file_size" := VInt (Z.of_nat (length content))]> r)).
        { subst wa w0. cbn [heap set_heap set_ext set_site_transfers].
          rewrite lookup_insert_eq. now rewrite (lookup_total_correct _ _ _ Hl). }
        step_raise (getitem_missing l "callback_queue" wa _ Hla
                      (Hk "callback_queue" _ _ ltac:(discriminate) Hcb)).
        split; [reflexivity|]. split; [now subst wa w0|].
        eexists. split; [right; eauto|].
        subst wa w0. cbn. now rewrite (lookup_total_correct _ _ _ Hl).
    + assert (H : exists w', handle_download site key l w = (Ok failed, w')
                   /\ compression_queue w' = compression_queue w
                   /\ heap w' = heap w).
      { unfold handle_download, try_except, download_try.
        step Hres. cbn [method]. unfold call at 1. unfold bind at 1. rewrite Hfetch.
        subst w0. destruct e; eexists; (split; [reflexivity|]); now cbn. }
      destruct H as (w' & H & Hcq & Hh). exists w'. left.
      split; [exact H|]. split; [exact Hcq|].
      exists r. split; [now left|]. now rewrite Hh.
  - eexists. left.
    unfold handle_download, try_except, download_try.
    step Hres. cbn [method]. unfold raise, bind at 1.
    split; [reflexivity|]. subst w0. split; [reflexivity|].
    exists r. split; [now left | exact Hid].
  - assert (H : exists w', handle_download site key l w = (Ok failed, w')
                 /\ compression_queue w' = compression_queue w
                 /\ heap w' = heap w).
    { unfold handle_download, try_except, download_try.
      step_raise Hres.
      subst w0. destruct e; eexists; (split; [reflexivity|]); now cbn. }
    destruct H as (w' & H & Hcq & Hh). exists w'. left.
    split; [exact H|]. split; [exact Hcq|].
    exists r. split; [now left|]. now rewrite Hh.
Qed.

(** X19.  [handle_download] never raises and never retries: it writes
    neither the transfer queue nor the record of sleeps, nor the statistics,
    the callback queues or the clock.  It returns success, with
    [call_callback] false, exactly when it has put one DECOMPRESSION message
    on the compression queue, and then the request had a [callback_queue] and
    a [target_path]; otherwise it returns [{"success": False}] and the
    compression queue is as before.  Of the request dicts it writes at most
    the [file_size] of its own request. *)
Theorem handle_download_outcomes (w : world Ext) (site key : string) (l : nat) (r : dict) :
  heap w !! l = Some r ->
  exists res w' r',
    handle_download site key l w = (Ok res, w')
    /\ transfer_queue w' = transfer_queue w /\ slept w' = slept w
    /\ state w' = state w /\ callback_queues w' = callback_queues w
    /\ ticks w' = ticks w
    /\ sized r r' /\ heap w' = <[l := r']> (heap w)
    /\ ((res = failed /\ compression_queue w' = compression_queue w)
        \/ (res = forwarded
            /\ is_Some (r !! "callback_queue") /\ is_Some (r !! "target_path")
            /\ exists msg, compression_queue w' = compression_queue w ++ [msg]
                            /\ msg !! "type" = Some (VStr "DECOMPRESSION"))).
Proof.
  intros Hl.
  destruct (handle_download_cases w site key l r Hl)
    as [w' [(H & Hcq & r' & Hsz & Hh)
           | (content & metadata & cb & tp & H & Hcb & Htp & Hcq & Hh)]];
    pose proof (handle_download_bystanders _ _ _ _ _ _ H) as [= Hst Hcbq Ht _ _];
    pose proof (handle_download_retry_record _ _ _ _ _ _ H) as [= Htq Hsl].
  - exists failed, w', r'. repeat (split; [assumption|]). now left.
  - exists forwarded, w', (<["file_size" := VInt (Z.of_nat (length content))]> r).
    repeat (split; [assumption|]). split; [right; eauto|]. split; [assumption|].
    right. split; [reflexivity|]. split; [eauto|]. split; [eauto|].
    eexists. split; [exact Hcq|]. reflexivity.
Qed.

(** X20.  A download that cannot fetch, because the resolution of the site
    raises, because the site has no backend, or because the fetch raises
    whatever exception, returns [{"success": False}] and leaves it at that:
    nothing is forwarded, nothing is put back on the transfer queue, there is
    no sleep, and the request is not written.  The log gets a warning for a
    missing object and an error otherwise. *)
Theorem handle_download_failure (w w0 : world Ext) (site key : string) (l : nat)
    (o : outcome (option transfer)) (ex : exn) :
  get_object_storage site w = (o, w0) ->
  match o with
  | Raise e => ex = e
  | Ok None => ex = AttributeError
  | Ok (Some s) => exists x, get_contents_to_string s key (ext w0) = (Raise ex, x)
  end ->
  exists w',
    handle_download site key l w = (Ok failed, w')
    /\ compression_queue w' = compression_queue w
    /\ transfer_queue w' = transfer_queue w
    /\ slept w' = slept w
    /\ heap w' = heap w
    /\ log w' = log w ++ [download_log ex].
Proof.
  intros Hres Hex.
  destruct (get_object_storage_frame _ _ _ _ Hres) as [t Hw0].
  unfold handle_download, try_except, download_try.
  destruct o as [[s|]|e].
  - destruct Hex as [x Hfetch].
    step Hres. cbn [method]. unfold call at 1. unfold bind at 1. rewrite Hfetch.
    subst w0. destruct ex; eexists; (split; [reflexivity|]); now cbn.
  - subst ex. step Hres. cbn [method]. unfold raise, bind at 1.
    subst w0. eexists. split; [reflexivity|]. now cbn.
  - subst ex. step_raise Hres.
    subst w0. destruct e; eexists; (split; [reflexivity|]); now cbn.
Qed.

(** X21.  A download request with a [callback_queue] but no [target_path]
    fails after the fetch has succeeded: nothing is forwarded and the result
    is [{"success": False}], yet the request's [file_size] has already been
    set to the length of what was fetched. *)
Theorem handle_download_no_target (w w0 : world Ext) (site key : string) (l : nat)
    (r : dict) (s : transfer) (content : list Byte.byte)
    (metadata : gmap string string) (x : Ext) :
  heap w !! l = Some r ->
  is_Some (r !! "callback_queue") ->
  r !! "target_path" = None ->
  get_object_storage site w = (Ok (Some s), w0) ->
  get_contents_to_string s key (ext w0) = (Ok (content, metadata), x) ->
  exists w',
    handle_download site key l w = (Ok failed, w')
    /\ compression_queue w' = compression_queue w
    /\ heap w' = <[l := <["file_size" := VInt (Z.of_nat (length content))]> r]> (heap w).
Proof.
  intros Hl [cb Hcb] Htp Hres Hfetch.
  destruct (get_object_storage_frame _ _ _ _ Hres) as [t Hw0].
  assert (Hk : forall (k : string) (n : Z) (o : option value), k <> "file_size" ->
            r !! k = o -> (<["file_size" := VInt n]> r) !! k = o).
  { intros k n o Hne <-. now apply lookup_insert_ne. }
  eexists.
  unfold handle_download, try_except, download_try.
  step Hres. cbn [method]. unfold call at 1. unfold bind at 1.
  rewrite Hfetch. unfold setitem, modify. unfold bind at 1.
  match goal with |- context [bind (getitem l "callback_queue") _ ?w1] =>
    set (wa := w1) end.
  assert (Hla : heap wa !! l
                = Some (<["file_size" := VInt (Z.of_nat (length content))]> r)).
  { subst wa w0. cbn [heap set_heap set_ext set_site_transfers].
    rewrite lookup_insert_eq. now rewrite (lookup_total_correct _ _ _ Hl). }
  step (getitem_ok l "callback_queue" wa _ cb Hla
          (Hk "callback_queue" _ _ ltac:(discriminate) Hcb)).
  step_raise (getitem_missing l "target_path" wa _ Hla
                (Hk "target_path" _ _ ltac:(discriminate) Htp)).
  split; [reflexivity|]. split; [now subst wa w0|].
  subst wa w0. cbn. now rewrite (lookup_total_correct _ _ _ Hl).
Qed.

End DownloadMore.

Lemma handle_upload_outcomes_witness :
  let w := Demo.agent Demo.upload_request Demo.up in
  exists res w', handle_upload "db1" Demo.xlog_key 0 w = (Ok res, w')
                 /\ heap w' = heap w.
Proof.
  intros w.
  destruct (handle_upload_outcomes w "db1" Demo.xlog_key 0 Demo.upload_request)
    as (res & w' & H & Hh & _);
    [vm_compute; reflexivity
    | exists (VStr Demo.xlog_path); vm_compute; reflexivity |].
  exists res, w'. split; [exact H | exact Hh].
Defined.

Lemma handle_upload_cleanup_failure_witness :
  let w := Demo.agent Demo.upload_request Demo.up in
  (handle_upload "db1" Demo.xlog_key 0 w).1 = Ok succeeded.
Proof.
  intros w.
  destruct (handle_upload_cleanup_failure w (get_object_storage "db1" w).2
              "db1" Demo.xlog_key 0 Demo.upload_request
              (S3Transfer (VStr "AKIA") (VStr "secret") (VStr "") (VStr "backups")
                 VNone VNone (VBool false))
              (VStr Demo.xlog_path) (VDict ∅)
              (Demo.store Demo.xlog_key Demo.content (VDict ∅) Demo.up).2)
    as (w' & H & _); [vm_compute; reflexivity ..|].
  rewrite H. reflexivity.
Defined.

Lemma handle_upload_from_memory_witness :
  let w := Demo.agent (<["blob" := VBytes Demo.content]> Demo.upload_request) Demo.up in
  (handle_upload "db1" Demo.xlog_key 0 w).1 = Ok succeeded
  /\ Demo.files (ext (handle_upload "db1" Demo.xlog_key 0 w).2) = Demo.local_disk.
Proof.
  intros w.
  rewrite (handle_upload_from_memory w (get_object_storage "db1" w).2
             "db1" Demo.xlog_key 0
             (<["blob" := VBytes Demo.content]> Demo.upload_request)
             (S3Transfer (VStr "AKIA") (VStr "secret") (VStr "") (VStr "backups")
                VNone VNone (VBool false))
             (VBytes Demo.content) (VDict ∅)
             (Demo.store Demo.xlog_key Demo.content (VDict ∅) Demo.up).2);
    [split; reflexivity | vm_compute; reflexivity ..].
Defined.

Lemma handle_upload_no_backend_witness :
  let w := Demo.agent Demo.upload_request Demo.up in
  (handle_upload "db2" Demo.xlog_key 0 w).1 = Ok requeued.
Proof.
  intros w.
  destruct (handle_upload_no_backend w (get_object_storage "db2" w).2
              "db2" Demo.xlog_key 0 Demo.upload_request
              (get_object_storage "db2" w).1)
    as (w' & H & _);
    [vm_compute; reflexivity
    | exists (VStr Demo.xlog_path); vm_compute; reflexivity
    | apply surjective_pairing
    | intros s; vm_compute; discriminate |].
  rewrite H. reflexivity.
Defined.

Lemma handle_upload_removes_witness :
  let w := Demo.agent Demo.upload_request Demo.up in
  Demo.files (ext (handle_upload "db1" Demo.xlog_key 0 w).2) = ∅.
Proof.
  intros w.
  destruct (handle_upload_removes w (get_object_storage "db1" w).2
              "db1" Demo.xlog_key 0 Demo.upload_request
              (S3Transfer (VStr "AKIA") (VStr "secret") (VStr "") (VStr "backups")
                 VNone VNone (VBool false))
              (VStr "xlog") (VDict ∅) Demo.xlog_path
              (Demo.store Demo.xlog_key Demo.content (VDict ∅) Demo.up).2)
    as [_ H]; [vm_compute; reflexivity ..|].
  rewrite H. vm_compute. reflexivity.
Defined.

Lemma handle_download_outcomes_witness :
  let w := Demo.agent Demo.download_request Demo.stocked in
  exists res w', handle_download "db1" Demo.xlog_key 0 w = (Ok res, w')
                 /\ transfer_queue w' = [0%nat].
Proof.
  intros w.
  destruct (handle_download_outcomes w "db1" Demo.xlog_key 0 Demo.download_request)
    as (res & w' & r' & H & Htq & _); [vm_compute; reflexivity |].
  exists res, w'. split; [exact H | exact Htq].
Defined.

Lemma handle_download_failure_witness :
  let w := Demo.agent Demo.download_request Demo.up in
  (handle_download "db1" Demo.xlog_key 0 w).1 = Ok failed.
Proof.
  intros w.
  destruct (handle_download_failure w (get_object_storage "db1" w).2
              "db1" Demo.xlog_key 0
              (Ok (Some (S3Transfer (VStr "AKIA") (VStr "secret") (VStr "")
                           (VStr "backups") VNone VNone (VBool false))))
              FileNotFoundFromStorageError)
    as (w' & H & _);
    [vm_compute; reflexivity | exists Demo.up; vm_compute; reflexivity |].
  rewrite H. reflexivity.
Defined.

Lemma handle_download_no_target_witness :
  let w := Demo.agent (delete "target_path" Demo.download_request) Demo.stocked in
  (handle_download "db1" Demo.xlog_key 0 w).1 = Ok failed.
Proof.
  intros w.
  destruct (handle_download_no_target w (get_object_storage "db1" w).2
              "db1" Demo.xlog_key 0 (delete "target_path" Demo.download_request)
              (S3Transfer (VStr "AKIA") (VStr "secret") (VStr "") (VStr "backups")
                 VNone VNone (VBool false))
              Demo.content ∅ Demo.stocked)
    as (w' & H & _);
    [vm_compute; reflexivity
    | exists (VQueue 0); vm_compute; reflexivity
    | vm_compute; reflexivity ..|].
  rewrite H. reflexivity.
Defined.

(** ** A turn of the loop on an upload or a download *)

Section Turn.
Context {Ext : Type} {collaborators : Collaborators Ext}.
Local Open Scope agent_scope.

Lemma requeued_differs (res : dict) :
  res = succeeded \/ res = forwarded \/ res = failed -> res <> requeued.
Proof.
  intros [-> | [-> | ->]] E.
  - apply (f_equal (fun m : dict => m !! "success")) in E. discriminate E.
  - apply (f_equal (fun m : dict => m !! "success")) in E. discriminate E.
  - apply (f_equal (fun m : dict => m !! "call_callback")) in E. discriminate E.
Qed.

(** What [push_result] does to the callback queues. *)
Lemma push_result_pushed (result : dict) (l : nat) (w : world Ext) (r : dict) :
  heap w !! l = Some r ->
  channel_ok (r !! "callback_queue") = true ->
  exists w',
    push_result result l w = (Ok tt, w')
    /\ callback_queues w' = pushed result r (callback_queues w)
    /\ same (fun w0 => (heap w0, state w0, transfer_queue w0, compression_queue w0,
                        ticks w0)) w w'.
Proof.
  intros Hl Hch. unfold push_result, pushed.
  step (contains_eval l "callback_queue" w r Hl).
  destruct (truthy (dict_get result "call_callback" (VBool true))); cbn [andb];
    [|exists w; now repeat split].
  destruct (r !! "callback_queue") as [cb|] eqn:Hcb.
  - rewrite bool_decide_eq_true_2 by eauto.
    step (getitem_ok l "callback_queue" w r cb Hl Hcb).
    destruct cb; try discriminate Hch.
    eexists. split; [reflexivity|]. now cbn.
  - rewrite bool_decide_eq_false_2 by (intros [? [=]]). exists w. now repeat split.
Qed.

(** The way a handler ends, as the loop sees it. *)
Lemma oper_func_ends (h : handler) (w : world Ext) (site key : string) (l : nat)
    (r : dict) :
  heap w !! l = Some r ->
  is_Some (r !! "local_path") ->
  exists res wh r',
    oper_func h site key l w = (Ok res, wh)
    /\ (res = succeeded \/ res = requeued \/ res = forwarded \/ res = failed)
    /\ sized r r' /\ heap wh = <[l := r']> (heap w)
    /\ state wh = state w /\ callback_queues wh = callback_queues w
    /\ ticks wh = ticks w
    /\ ((res = requeued /\ transfer_queue wh = transfer_queue w ++ [l])
        \/ (res <> requeued /\ transfer_queue wh = transfer_queue w))
    /\ match h with
       | HandleUpload =>
           r' = r /\ compression_queue wh = compression_queue w
           /\ (res = succeeded \/ res = requeued)
       | HandleDownload =>
           (res = failed /\ compression_queue wh = compression_queue w)
           \/ (res = forwarded
               /\ exists content metadata callback_queue target_path,
                    r !! "callback_queue" = Some callback_queue
                    /\ r !! "target_path" = Some target_path
                    /\ r' = <["file_size" := VInt (Z.of_nat (length content))]> r
                    /\ compression_queue wh
                       = compression_queue w
                         ++ [decompression content metadata callback_queue
                               target_path site])
       end.
Proof.
  intros Hl Hp. destruct h; cbn [oper_func].
  - destruct (handle_download_cases w site key l r Hl)
      as [w' [(H & Hcq & r' & Hsz & Hh)
             | (content & metadata & cb & tp & H & Hcb & Htp & Hcq & Hh)]];
      pose proof (handle_download_bystanders _ _ _ _ _ _ H) as [= Hst Hcbq Ht _ _];
      pose proof (handle_download_retry_record _ _ _ _ _ _ H) as [= Htq Hsl].
    + exists failed, w', r'. split; [exact H|]. split; [auto|].
      repeat (split; [assumption|]).
      split; [right; split; [|assumption]; apply requeued_differs; auto|].
      left. auto.
    + exists forwarded, w', (<["file_size" := VInt (Z.of_nat (length content))]> r).
      split; [exact H|]. split; [auto|]. split; [right; eauto|].
      repeat (split; [assumption|]).
      split; [right; split; [|assumption]; apply requeued_differs; auto|].
      right. split; [reflexivity|]. exists content, metadata, cb, tp. auto.
  - destruct (handle_upload_ends w site key l r Hl Hp)
      as (res & w' & H & Hh & Hst & Hcq & Hcbq & Ht & Hcase).
    exists res, w', r. split; [exact H|].
    split; [destruct Hcase as [(-> & _) | (-> & _)]; auto|].
    split; [now left|].
    split; [rewrite Hh; symmetry; now apply insert_id|].
    repeat (split; [assumption|]).
    destruct Hcase as [(-> & Htq & _) | (-> & Htq & _)].
    + split; [right; split; [|assumption]; apply requeued_differs; auto|]. auto.
    + split; [left; auto|]. auto.
Qed.

(** A turn of the loop on a well-formed upload or download request: how it
    ends, and what it has done to the queues, the request and the
    statistics. *)
Lemma run_iteration_ends (w : world Ext) (l : nat) (rest : list nat) (r : dict)
    (t p s ft : string) (h : handler) :
  state_ok (state w) ->
  transfer_queue w = l :: rest ->
  heap w !! l = Some r ->
  r !! "type" = Some (VStr t) -> t <> "QUIT" ->
  r !! "local_path" = Some (VStr p) ->
  r !! "site" = Some (VStr s) ->
  r !! "filetype" = Some (VStr ft) ->
  getattr ("handle_" +:+ PyStr.lower t) = Some h ->
  ft ∈ filetypes ->
  size_ok (r !! "file_size") = true ->
  channel_ok (r !! "callback_queue") = true ->
  exists res r' w' (b : bool) (n : Z),
    run_iteration w = (Ok Continue, w')
    /\ (res = succeeded \/ res = requeued \/ res = forwarded \/ res = failed)
    /\ res !! "success" = Some (VBool b)
    /\ sized r r' /\ heap w' = <[l := r']> (heap w)
    /\ add_int 0 (dict_get r' "file_size" (VInt 0)) = Ok n
    /\ ((res = requeued /\ transfer_queue w' = rest ++ [l])
        \/ (res <> requeued /\ transfer_queue w' = rest))
    /\ callback_queues w' = pushed res r (callback_queues w)
    /\ state_ok (state w')
    /\ stat_leaf (state w') s (PyStr.lower t) ft
       = (let old := stat_leaf (state w) s (PyStr.lower t) ft in
          if b then
            Leaf (data old + n) (count old + 1)
              (time_taken old + (time_time (S (ticks w)) - time_time (ticks w)))%Q
              (failures old)
          else Leaf (data old) (count old) (time_taken old) (failures old + 1))
    /\ (forall s' o f, (s', o, f) <> (s, PyStr.lower t, ft) ->
          stat_leaf (state w') s' o f = stat_leaf (state w) s' o f)
    /\ ticks w' = (if b then 3 + ticks w else 2 + ticks w)%nat
    /\ match h with
       | HandleUpload =>
           r' = r /\ compression_queue w' = compression_queue w
           /\ (res = succeeded \/ res = requeued)
       | HandleDownload =>
           (res = failed /\ compression_queue w' = compression_queue w)
           \/ (res = forwarded
               /\ exists content metadata callback_queue target_path,
                    r !! "callback_queue" = Some callback_queue
                    /\ r !! "target_path" = Some target_path
                    /\ r' = <["file_size" := VInt (Z.of_nat (length content))]> r
                    /\ compression_queue w'
                       = compression_queue w
                         ++ [decompression content metadata callback_queue
                               target_path s])
       end.
Proof.
  intros Hst Hq Hl Ht Hne Hp Hs Hft Hattr Hftok Hsize Hch.
  pose proof (getattr_handle _ _ Hattr) as Hoper.
  unfold run_iteration.
  assert (Hget : transfer_queue_get w
                 = (Ok (Some l), set_transfer_queue (fun _ => rest) w)).
  { unfold transfer_queue_get. now rewrite Hq. }
  step Hget.
  set (wa := set_transfer_queue (fun _ => rest) w).
  assert (Hla : heap wa !! l = Some r) by exact Hl.
  step (getitem_ok l "type" wa r (VStr t) Hla Ht). cbn [eq_str].
  rewrite (proj2 (String.eqb_neq _ _) Hne).
  step (getitem_ok l "type" wa r (VStr t) Hla Ht).
  step (getitem_ok l "local_path" wa r (VStr p) Hla Hp).
  step (logging_ok _ _ _). step (time_ok _).
  match goal with |- context [bind (deref l) _ ?w0] => set (wb := w0) end.
  assert (Hlb : heap wb !! l = Some r) by exact Hl.
  step (deref_ok l wb r Hlb).
  rewrite (form_key_path_eval r s ft p Hs Hft Hp).
  match goal with |- context [lift (Ok ?k)] => set (key := k) end.
  step (lift_ok _ _).
  step (getitem_ok l "type" wb r (VStr t) Hlb Ht).
  cbn [lower]. step (lift_ok _ _). cbn [str_add]. step (lift_ok _ _).
  rewrite Hattr.
  step (getitem_ok l "site" wb r (VStr s) Hlb Hs).
  step (getitem_ok l "filetype" wb r (VStr ft) Hlb Hft).
  cbn [as_str]. do 3 step (lift_ok _ _).
  destruct (oper_func_ends h wb s key l r Hlb (ex_intro _ _ Hp))
    as (res & wh & r' & H & Hres & Hsz & Hheap & Hstate & Hcbq & Hticks & Htq & Hcase).
  step H.
  assert (Hlh : heap wh !! l = Some r') by (rewrite Hheap; apply lookup_insert_eq).
  destruct (result_success _ Hres) as [b Hb].
  destruct (size_ok_number _ (sized_size_ok _ _ Hsz Hsize)) as [n Hn].
  assert (Hn' : add_int 0 (dict_get (heap wh !!! l) "file_size" (VInt 0)) = Ok n)
    by now rewrite (lookup_total_correct _ _ _ Hlh).
  assert (Hokh : state_ok (state wh)) by now rewrite Hstate.
  destruct (update_statistics_run wh s (PyStr.lower t) ft res l (time_time (ticks wa)) b n
              Hokh Hoper Hftok Hb Hn')
    as (w1 & Hrun & Hok1 & Hleaf & Hothers & Hh1 & Htq1 & Hcq1 & Hcb1 & Hticks1).
  step Hrun.
  assert (Hl1 : heap w1 !! l = Some r') by now rewrite Hh1.
  assert (Hch' : channel_ok (r' !! "callback_queue") = true)
    by now rewrite (sized_lookup r r' "callback_queue" Hsz).
  destruct (push_result_pushed res l w1 r' Hl1 Hch') as (w2 & Hpush & Hcb2 & Hsame2).
  injection Hsame2 as Hh2 Hst2 Htq2 Hcq2 Ht2.
  step Hpush.
  assert (Hl2 : heap w2 !! l = Some r') by now rewrite Hh2.
  assert (Ht' : r' !! "type" = Some (VStr t))
    by now rewrite (sized_lookup r r' "type" Hsz).
  step (getitem_ok l "type" w2 r' (VStr t) Hl2 Ht').
  unfold subscript. rewrite Hb. step (lift_ok _ _).
  step (time_ok _). step (logging_ok _ _ _).
  exists res, r', (set_log (fun lg => lg ++
                     [(INFO, "%r %stransfer of key: %r, size: %r, took %.3fs")])
                     (set_ticks (S (ticks w2)) w2)), b, n.
  split; [reflexivity|]. split; [exact Hres|]. split; [exact Hb|].
  split; [exact Hsz|].
  cbn [heap state transfer_queue callback_queues compression_queue ticks
       set_log set_ticks].
  split; [now rewrite Hh2, Hh1, Hheap|].
  split; [exact Hn|].
  split; [rewrite Htq2, Htq1; exact Htq|].
  split.
  { rewrite Hcb2, Hcb1, Hcbq. unfold pushed.
    now rewrite (sized_lookup r r' "callback_queue" Hsz). }
  rewrite Hst2. split; [exact Hok1|].
  rewrite Hstate, Hticks in Hleaf. rewrite Hstate in Hothers.
  split; [exact Hleaf|]. split; [exact Hothers|].
  rewrite Ht2, Hticks1, Hticks. split; [now destruct b|].
  rewrite Hcq2, Hcq1. exact Hcase.
Qed.

(** A result without [call_callback] is pushed on the request's queue, when
    it has one; a result whose [call_callback] is false is not. *)
Lemma pushed_reported (res r : dict) (qs : gmap nat (list dict)) :
  res = succeeded \/ res = failed ->
  pushed res r qs
  = match r !! "callback_queue" with
    | Some (VQueue q) => <[q := default [] (qs !! q) ++ [res]]> qs
    | _ => qs
    end.
Proof. intros [-> | ->]; reflexivity. Qed.

Lemma pushed_silent (res r : dict) (qs : gmap nat (list dict)) :
  res = requeued \/ res = forwarded -> pushed res r qs = qs.
Proof. intros [-> | ->]; reflexivity. Qed.

Lemma lower_not_quit (t oper : string) :
  PyStr.lower t = oper -> oper <> "quit" -> t <> "QUIT".
Proof. intros <- Hne ->. now apply Hne. Qed.

(** X22.  A turn of the loop on a well-formed upload request ends in one of
    two ways and never raises.  Either the upload is done: the request has
    left the transfer queue, [{"success": True}] is put once on the request's
    callback queue, when it has one, and the site's upload leaf for the
    filetype gains the request's [file_size], one count and the time between
    the two clock readings.  Or the upload is retried: the request is at the
    back of the transfer queue, behind the requests that were waiting, nothing
    is put on any callback queue, and the leaf gains one failure.  The request
    dicts and the compression queue are as before either way. *)
Theorem run_iteration_upload (w : world Ext) (l : nat) (rest : list nat) (r : dict)
    (t p s ft : string) :
  state_ok (state w) ->
  transfer_queue w = l :: rest ->
  heap w !! l = Some r ->
  r !! "type" = Some (VStr t) -> PyStr.lower t = "upload" ->
  r !! "local_path" = Some (VStr p) ->
  r !! "site" = Some (VStr s) ->
  r !! "filetype" = Some (VStr ft) ->
  ft ∈ filetypes ->
  size_ok (r !! "file_size") = true ->
  channel_ok (r !! "callback_queue") = true ->
  exists w' (n : Z),
    run_iteration w = (Ok Continue, w')
    /\ heap w' = heap w
    /\ compression_queue w' = compression_queue w
    /\ add_int 0 (dict_get r "file_size" (VInt 0)) = Ok n
    /\ let old := stat_leaf (state w) s "upload" ft in
       (transfer_queue w' = rest
        /\ callback_queues w'
           = match r !! "callback_queue" with
             | Some (VQueue q) =>
                 <[q := default [] (callback_queues w !! q) ++ [succeeded]]>
                   (callback_queues w)
             | _ => callback_queues w
             end
        /\ stat_leaf (state w') s "upload" ft
           = Leaf (data old + n) (count old + 1)
               (time_taken old + (time_time (S (ticks w)) - time_time (ticks w)))%Q
               (failures old))
       \/ (transfer_queue w' = rest ++ [l]
           /\ callback_queues w' = callback_queues w
           /\ stat_leaf (state w') s "upload" ft
              = Leaf (data old) (count old) (time_taken old) (failures old + 1)).
Proof.
  intros Hst Hq Hl Ht Hlow Hp Hs Hft Hftok Hsize Hch.
  assert (Hattr : getattr ("handle_" +:+ PyStr.lower t) = Some HandleUpload)
    by now rewrite Hlow.
  assert (Hne : t <> "QUIT") by (apply (lower_not_quit _ _ Hlow); discriminate).
  destruct (run_iteration_ends w l rest r t p s ft HandleUpload
              Hst Hq Hl Ht Hne Hp Hs Hft Hattr Hftok Hsize Hch)
    as (res & r' & w' & b & n & Hrun & _ & Hb & _ & Hheap & Hn & Htq & Hcbq & _
        & Hleaf & _ & _ & -> & Hcq & Hres).
  rewrite Hlow in Hleaf.
  exists w', n. split; [exact Hrun|].
  split; [now rewrite Hheap, insert_id|].
  split; [exact Hcq|]. split; [exact Hn|].
  cbn zeta. destruct Hres as [-> | ->].
  - left. destruct Htq as [[E _] | [_ Htq]].
    { exfalso. eapply requeued_differs; [|exact E]. auto. }
    split; [exact Htq|].
    split; [now rewrite Hcbq, pushed_reported by auto|].
    vm_compute in Hb. injection Hb as <-. exact Hleaf.
  - right. destruct Htq as [[_ Htq] | [E _]]; [|now destruct E].
    split; [exact Htq|].
    split; [now rewrite Hcbq, pushed_silent by auto|].
    vm_compute in Hb. injection Hb as <-. exact Hleaf.
Qed.

(** X23.  A turn of the loop on a well-formed download request never raises
    and never puts the request back: it leaves the transfer queue with the
    requests that were waiting.  Either the object was fetched: one
    DECOMPRESSION message with the content, the metadata, the request's
    callback queue and target path and the site goes on the compression
    queue, the request's [file_size] becomes the length of the content,
    nothing is put on a callback queue, and the site's download leaf for the
    filetype gains that length, one count and the time between the two clock
    readings.  Or the download failed: [{"success": False}] is put once on the
    request's callback queue, when it has one, the compression queue is as
    before, and the leaf gains one failure. *)
Theorem run_iteration_download (w : world Ext) (l : nat) (rest : list nat) (r : dict)
    (t p s ft : string) :
  state_ok (state w) ->
  transfer_queue w = l :: rest ->
  heap w !! l = Some r ->
  r !! "type" = Some (VStr t) -> PyStr.lower t = "download" ->
  r !! "local_path" = Some (VStr p) ->
  r !! "site" = Some (VStr s) ->
  r !! "filetype" = Some (VStr ft) ->
  ft ∈ filetypes ->
  size_ok (r !! "file_size") = true ->
  channel_ok (r !! "callback_queue") = true ->
  exists w',
    run_iteration w = (Ok Continue, w')
    /\ transfer_queue w' = rest
    /\ let old := stat_leaf (state w) s "download" ft in
       (exists content metadata callback_queue target_path,
          r !! "callback_queue" = Some callback_queue
          /\ r !! "target_path" = Some target_path
          /\ compression_queue w'
             = compression_queue w
               ++ [decompression content metadata callback_queue target_path s]
          /\ heap w'
             = <[l := <["file_size" := VInt (Z.of_nat (length content))]> r]> (heap w)
          /\ callback_queues w' = callback_queues w
          /\ stat_leaf (state w') s "download" ft
             = Leaf (data old + Z.of_nat (length content)) (count old + 1)
                 (time_taken old + (time_time (S (ticks w)) - time_time (ticks w)))%Q
                 (failures old))
       \/ (compression_queue w' = compression_queue w
           /\ callback_queues w'
              = match r !! "callback_queue" with
                | Some (VQueue q) =>
                    <[q := default [] (callback_queues w !! q) ++ [failed]]>
                      (callback_queues w)
                | _ => callback_queues w
                end
           /\ stat_leaf (state w') s "download" ft
              = Leaf (data old) (count old) (time_taken old) (failures old + 1)).
Proof.
  intros Hst Hq Hl Ht Hlow Hp Hs Hft Hftok Hsize Hch.
  assert (Hattr : getattr ("handle_" +:+ PyStr.lower t) = Some HandleDownload)
    by now rewrite Hlow.
  assert (Hne : t <> "QUIT") by (apply (lower_not_quit _ _ Hlow); discriminate).
  destruct (run_iteration_ends w l rest r t p s ft HandleDownload
              Hst Hq Hl Ht Hne Hp Hs Hft Hattr Hftok Hsize Hch)
    as (res & r' & w' & b & n & Hrun & _ & Hb & _ & Hheap & Hn & Htq & Hcbq & _
        & Hleaf & _ & _ & Hcase).
  rewrite Hlow in Hleaf.
  exists w'. split; [exact Hrun|].
  assert (Hrest : transfer_queue w' = rest).
  { destruct Htq as [[-> _] | [_ Htq]]; [|exact Htq].
    destruct Hcase as [[E _] | [E _]];
      exfalso; (eapply requeued_differs; [|symmetry; exact E]); auto. }
  split; [exact Hrest|]. cbn zeta.
  destruct Hcase as [[-> Hcq] | [-> (content & metadata & cb & tp & Hcb & Htp & -> & Hcq)]].
  - right. split; [exact Hcq|].
    split; [now rewrite Hcbq, pushed_reported by auto|].
    vm_compute in Hb. injection Hb as <-. exact Hleaf.
  - left. exists content, metadata, cb, tp.
    split; [exact Hcb|]. split; [exact Htp|]. split; [exact Hcq|].
    split; [exact Hheap|].
    split; [now rewrite Hcbq, pushed_silent by auto|].
    vm_compute in Hb. injection Hb as <-.
    unfold dict_get in Hn. rewrite lookup_insert_eq in Hn. cbn in Hn.
    injection Hn as <-. exact Hleaf.
Qed.

(** X24.  A turn of the loop on a well-formed upload or download request is
    counted once and in one place: in the leaf of the request's site,
    operation and filetype either the count or the failures go up by one, not
    both; a failure changes neither the bytes nor the time; every other leaf
    of the statistics reads as before; and every site of the statistics still
    has all its leaves.  The clock is read three times in a turn that
    succeeds and twice in one that fails. *)
Theorem run_iteration_counts_once (w : world Ext) (l : nat) (rest : list nat)
    (r : dict) (t p s ft : string) (h : handler) :
  state_ok (state w) ->
  transfer_queue w = l :: rest ->
  heap w !! l = Some r ->
  r !! "type" = Some (VStr t) -> t <> "QUIT" ->
  r !! "local_path" = Some (VStr p) ->
  r !! "site" = Some (VStr s) ->
  r !! "filetype" = Some (VStr ft) ->
  getattr ("handle_" +:+ PyStr.lower t) = Some h ->
  ft ∈ filetypes ->
  size_ok (r !! "file_size") = true ->
  channel_ok (r !! "callback_queue") = true ->
  exists w',
    run_iteration w = (Ok Continue, w')
    /\ state_ok (state w')
    /\ (forall s' o f, (s', o, f) <> (s, PyStr.lower t, ft) ->
          stat_leaf (state w') s' o f = stat_leaf (state w) s' o f)
    /\ let old := stat_leaf (state w) s (PyStr.lower t) ft in
       let new := stat_leaf (state w') s (PyStr.lower t) ft in
       (count new = count old + 1 /\ failures new = failures old
        /\ ticks w' = (3 + ticks w)%nat)
       \/ (failures new = failures old + 1 /\ count new = count old
           /\ data new = data old /\ time_taken new = time_taken old
           /\ ticks w' = (2 + ticks w)%nat).
Proof.
  intros Hst Hq Hl Ht Hne Hp Hs Hft Hattr Hftok Hsize Hch.
  destruct (run_iteration_ends w l rest r t p s ft h
              Hst Hq Hl Ht Hne Hp Hs Hft Hattr Hftok Hsize Hch)
    as (res & r' & w' & b & n & Hrun & _ & _ & _ & _ & _ & _ & _ & Hok
        & Hleaf & Hothers & Hticks & _).
  exists w'. split; [exact Hrun|]. split; [exact Hok|]. split; [exact Hothers|].
  cbn zeta in *. rewrite Hleaf. destruct b; cbn [count failures data time_taken].
  - left. auto.
  - right. auto.
Qed.

End Turn.

Lemma run_iteration_upload_witness :
  let w := Demo.agent Demo.upload_request Demo.up in
  (run_iteration w).1 = Ok Continue.
Proof.
  intros w.
  destruct (run_iteration_upload w 0 [] Demo.upload_request
              "UPLOAD" Demo.xlog_path "db1" "xlog")
    as (w' & n & H & _);
    [intros site by_oper E; vm_compute in E; discriminate E
    | vm_compute; reflexivity | vm_compute; reflexivity | vm_compute; reflexivity
    | vm_compute; reflexivity | vm_compute; reflexivity | vm_compute; reflexivity
    | vm_compute; reflexivity | repeat constructor
    | vm_compute; reflexivity | vm_compute; reflexivity |].
  rewrite H. reflexivity.
Defined.

Lemma run_iteration_download_witness :
  let w := Demo.agent Demo.download_request Demo.stocked in
  transfer_queue (run_iteration w).2 = [].
Proof.
  intros w.
  destruct (run_iteration_download w 0 [] Demo.download_request
              "DOWNLOAD" Demo.xlog_path "db1" "xlog")
    as (w' & H & Htq & _);
    [intros site by_oper E; vm_compute in E; discriminate E
    | vm_compute; reflexivity | vm_compute; reflexivity | vm_compute; reflexivity
    | vm_compute; reflexivity | vm_compute; reflexivity | vm_compute; reflexivity
    | vm_compute; reflexivity | repeat constructor
    | vm_compute; reflexivity | vm_compute; reflexivity |].
  rewrite H. exact Htq.
Defined.

Lemma run_iteration_counts_once_witness :
  let w := Demo.agent Demo.upload_request (Demo.down 1) in
  (run_iteration w).1 = Ok Continue.
Proof.
  intros w.
  destruct (run_iteration_counts_once w 0 [] Demo.upload_request
              "UPLOAD" Demo.xlog_path "db1" "xlog" HandleUpload)
    as (w' & H & _);
    [intros site by_oper E; vm_compute in E; discriminate E
    | vm_compute; reflexivity | vm_compute; reflexivity | vm_compute; reflexivity
    | discriminate
    | vm_compute; reflexivity | vm_compute; reflexivity | vm_compute; reflexivity
    | vm_compute; reflexivity | repeat constructor
    | vm_compute; reflexivity | vm_compute; reflexivity |].
  rewrite H. reflexivity.
Defined.
(** ** The loop: when it returns, and that it never raises *)

Section LoopEnds.
Context {Ext : Type} {collaborators : Collaborators Ext}.
Local Open Scope agent_scope.

(** On a well-formed world [run] never raises and never writes the flag; it
    returns exactly when the flag was cleared at the start or one of its
    turns found a QUIT request next on the queue. *)
Lemma run_returns (fuel : nat) :
  forall w : world Ext,
    world_ok w ->
    exists o w',
      run fuel w = (Ok o, w') /\ world_ok w' /\ running w' = running w
      /\ (o = Some tt <->
          running w = false
          \/ exists k wk, (k < fuel)%nat /\ turns k w = Some wk /\ quit_next wk).
Proof.
  assert (Hstop : forall (n : nat) (w : world Ext), world_ok w -> running w = false ->
            exists o w',
              run n w = (Ok o, w') /\ world_ok w' /\ running w' = running w
              /\ (o = Some tt <->
                  running w = false
                  \/ exists k wk, (k < n)%nat /\ turns k w = Some wk /\ quit_next wk)).
  { intros n w Hw Hr. exists (Some tt). eexists. split.
    - destruct n; cbn [run]; rewrite Hr; reflexivity.
    - split; [exact Hw|]. split; [reflexivity|]. split; [now left | reflexivity]. }
  induction fuel as [|fuel IH]; intros w Hw;
    (assert (Hcase : running w = true \/ running w = false)
       by (destruct (running w); auto);
     destruct Hcase as [Hr|Hr]; [|now apply Hstop]).
  - assert (E0 : run 0 w = (Ok None, w)) by (cbn [run]; now rewrite Hr).
    exists None, w. split; [exact E0|].
    split; [exact Hw|]. split; [reflexivity|].
    split; [discriminate|]. intros [E | (k & wk & Hk & _)]; [congruence | lia].
  - destruct (run_iteration_ok w Hw) as (f & w1 & Hit & Hw1 & Hbreak).
    pose proof (run_iteration_same_flags _ _ _ Hit) as [= Hr1 _].
    assert (Estep : run (S fuel) w
                    = match f with
                      | Continue => run fuel w1
                      | Break =>
                          (logging INFO "Quitting TransferAgent" ;;; ret (Some tt)) w1
                      end)
      by (cbn [run]; rewrite Hr, Hit; now destruct f).
    rewrite Estep. destruct f.
    + destruct (IH w1 Hw1) as (o & w' & Hrun & Hw' & Hr' & Hiff).
      exists o, w'. split; [exact Hrun|]. split; [exact Hw'|].
      split; [now rewrite Hr', Hr1|].
      rewrite Hiff. split.
      * intros [E | (k & wk & Hk & Hturns & Hquit)]; [congruence|].
        right. exists (S k), wk. split; [lia|]. cbn [turns]. now rewrite Hit.
      * intros [E | (k & wk & Hk & Hturns & Hquit)]; [congruence|].
        right. destruct k as [|k].
        -- injection Hturns as <-. apply Hbreak in Hquit. discriminate Hquit.
        -- cbn [turns] in Hturns. rewrite Hit in Hturns.
           exists k, wk. split; [lia | now split].
    + exists (Some tt). eexists. split; [reflexivity|].
      split; [exact Hw1|]. split; [exact Hr1|].
      split; [|reflexivity]. intros _. right. exists 0%nat, w.
      split; [lia|]. split; [reflexivity|]. now apply Hbreak.
Qed.

(** C1, amended.  While the statistics have their shape and every request on
    the transfer queue is well formed ([request_ok]: a string [type] and,
    unless it is QUIT, string [local_path], [site] and [filetype], and for an
    upload or a download a known filetype, a numeric [file_size] if any and a
    queue as [callback_queue] if any):
    - a turn of the loop never raises, whatever the backend and the file
      system do, leaves such a world and the flag as it was, and leaves the
      loop exactly when the request taken is a QUIT;
    - each handler, on a request that has a [local_path], returns one of the
      four result dicts and never raises;
    - a request with an unknown operation is logged, with a warning, and
      dropped: it is off the queue, and the statistics, the request dicts,
      the callback and compression queues and the surroundings are as
      before;
    - [run] never ends by an exception and never writes the flag, and it
      returns exactly when the flag was cleared or one of its turns found a
      QUIT request next on the queue. *)
Theorem run_never_raises (w : world Ext) :
  world_ok w ->
  (exists f w',
     run_iteration w = (Ok f, w') /\ world_ok w' /\ running w' = running w
     /\ (f = Break <->
         exists l rest r, transfer_queue w = l :: rest /\ heap w !! l = Some r
                          /\ r !! "type" = Some (VStr "QUIT")))
  /\ (forall (h : handler) (site key : string) (l : nat) (r : dict),
        heap w !! l = Some r -> is_Some (r !! "local_path") ->
        exists res w',
          oper_func h site key l w = (Ok res, w')
          /\ (res = succeeded \/ res = requeued \/ res = forwarded \/ res = failed))
  /\ (forall (l : nat) (rest : list nat) (r : dict) (t : string),
        transfer_queue w = l :: rest -> heap w !! l = Some r ->
        r !! "type" = Some (VStr t) -> t <> "QUIT" ->
        getattr ("handle_" +:+ PyStr.lower t) = None ->
        exists w',
          run_iteration w = (Ok Continue, w')
          /\ transfer_queue w' = rest
          /\ log w' = log w ++ [(DEBUG, "Starting to %r %r, size: %r");
                                 (WARNING, "Invalid operation %r")]
          /\ state w' = state w /\ heap w' = heap w
          /\ callback_queues w' = callback_queues w
          /\ compression_queue w' = compression_queue w
          /\ ext w' = ext w)
  /\ (forall fuel, exists o w',
        run fuel w = (Ok o, w') /\ world_ok w' /\ running w' = running w
        /\ (o = Some tt <->
            running w = false
            \/ exists k wk, (k < fuel)%nat /\ turns k w = Some wk
                             /\ quit_next wk)).
Proof.
  intros Hw. split; [|split; [|split]].
  - destruct (run_iteration_ok w Hw) as (f & w' & Hit & Hw' & Hbreak).
    pose proof (run_iteration_same_flags _ _ _ Hit) as [= Hr _].
    exists f, w'. auto.
  - intros h site key l r Hl Hp.
    destruct (oper_func_ends h w site key l r Hl Hp) as (res & w' & _ & H & Hres & _).
    exists res, w'. split; [exact H | exact Hres].
  - intros l rest r t Hq Hl Ht Hne Hattr.
    destruct Hw as [_ Hqueue]. rewrite Hq in Hqueue.
    apply Forall_cons in Hqueue as [(r0 & Hl0 & Hr0) _].
    rewrite Hl in Hl0. injection Hl0 as <-.
    destruct (request_ok_inv r Hr0) as (t0 & Ht0 & Hcase).
    rewrite Ht in Ht0. injection Ht0 as <-.
    destruct Hcase as [-> | (_ & p & s & ft & Hp & Hs & Hft & _)]; [now destruct Hne|].
    destruct (run_iteration_invalid w l rest r t p s ft Hq Hl Ht Hne Hp Hs Hft Hattr)
      as (w' & H & Htq & Hst & Hh & Hcb & Hcq & _ & Hx & Hlog).
    exists w'. repeat (split; [assumption|]). exact Hx.
  - intros fuel. now apply run_returns.
Qed.

End LoopEnds.

(** C1, as the spec has it, fails: a request without a [type], and an upload
    whose filetype has no statistics, each end [run] by a [KeyError]. *)
Lemma run_raises_on_malformed_request :
  (run 3 (Demo.agent (delete "type" Demo.upload_request) Demo.up)).1
  = Raise (KeyError "type")
  /\ (run 3 (Demo.agent (<["filetype" := VStr "config"]> Demo.upload_request) Demo.up)).1
     = Raise (KeyError "config").
Proof. split; vm_compute; reflexivity. Qed.

Lemma run_never_raises_witness :
  exists o w', run 5 (Demo.agent Demo.upload_request (Demo.down 2)) = (Ok o, w').
Proof.
  destruct (run_never_raises (Demo.agent Demo.upload_request (Demo.down 2)))
    as (_ & _ & _ & H).
  - split.
    + intros site by_oper E. vm_compute in E. discriminate E.
    + constructor; [|constructor].
      exists Demo.upload_request. split; vm_compute; reflexivity.
  - destruct (H 5%nat) as (o & w' & Hrun & _). now exists o, w'.
Defined.
